(** * PDF-Extract-Kit request front end ([handler.py]): a shallow embedding

    The file models the two delivery surfaces of [handler.py] -- the HTTP
    endpoint [process_pdf] and the serverless [handler] -- over an explicit
    file system, with the network, the document pipeline and the model
    initialiser as oracles.  Python library calls the source relies on
    ([os.path.splitext], [os.path.join], [os.path.basename], slicing,
    [base64.b64encode], [base64.b64decode]) are embedded from their
    reference implementations. *)

From stdpp Require Import base gmap sets list strings pretty.
From Stdlib Require Import ZArith Lia Ascii String.

Open Scope string_scope.
Open Scope Z_scope.

(** ** Python strings *)

Module Py.

(** [len(s)] *)
Definition len (s : string) : Z := Z.of_nat (String.length s).

Fixpoint take (n : nat) (s : string) : string :=
  match n, s with
  | S n', String c s' => String c (take n' s')
  | _, _ => ""
  end.

Fixpoint drop (n : nat) (s : string) : string :=
  match n, s with
  | S n', String _ s' => drop n' s'
  | _, _ => s
  end.

(** Normalisation of a slice bound: a negative bound counts from the end,
    and the result is clamped to [0 .. len s]. *)
Definition bound (s : string) (i : Z) : nat :=
  Z.to_nat (Z.min (len s) (Z.max 0 (if i <? 0 then i + len s else i))).

(** [s[:i]], [s[i:]] and [s[i:j]] *)
Definition slice_to (s : string) (i : Z) : string := take (bound s i) s.
Definition slice_from (s : string) (i : Z) : string := drop (bound s i) s.
Definition slice (s : string) (i j : Z) : string :=
  take (bound s j - bound s i) (drop (bound s i) s).

(** [s.startswith(t)] *)
Fixpoint startswith (s t : string) : bool :=
  match t, s with
  | "", _ => true
  | String b t', String a s' => if Ascii.eqb a b then startswith s' t' else false
  | String _ _, "" => false
  end.

(** [s.endswith(t)] *)
Definition endswith (s t : string) : bool :=
  (String.length t <=? String.length s)%nat
  && String.eqb (drop (String.length s - String.length t) s) t.

(** [t in s] *)
Fixpoint contains (t s : string) : bool :=
  startswith s t
  || match s with
     | "" => false
     | String _ s' => contains t s'
     end.

(** [s.rfind(c)] for a one-character needle: the highest index holding
    [c], or [-1]. *)
Fixpoint rfind_from (c : ascii) (s : string) (i last : Z) : Z :=
  match s with
  | "" => last
  | String a s' => rfind_from c s' (i + 1) (if Ascii.eqb a c then i else last)
  end.

Definition rfind (c : ascii) (s : string) : Z := rfind_from c s 0 (-1).

(** [s.lower()] on the ASCII letters; header values reach the code as
    Latin-1 text, where the remaining letters never fold onto ASCII. *)
Definition lower_char (c : ascii) : ascii :=
  let n := nat_of_ascii c in
  if ((65 <=? n) && (n <=? 90))%nat then ascii_of_nat (n + 32) else c.

Fixpoint lower (s : string) : string :=
  match s with
  | "" => ""
  | String c s' => String (lower_char c) (lower s')
  end.

(** [c in s] for a single character. *)
Fixpoint has_char (c : ascii) (s : string) : bool :=
  match s with
  | "" => false
  | String a s' => Ascii.eqb a c || has_char c s'
  end.

(** Truth value of a string: [if s:] *)
Definition truthy (s : string) : bool :=
  match s with "" => false | _ => true end.

End Py.

(** ** [os.path] (posixpath) *)

Module OsPath.

Definition sep : ascii := "/"%char.
Definition extsep : ascii := "."%char.

(** The [while filenameIndex < dotIndex] loop of [genericpath._splitext]:
    the first character of the last component that is not a dot makes
    the split at [dotIndex] valid. *)
Fixpoint splitext_scan (fuel : nat) (p : string) (filenameIndex dotIndex : Z)
  : option (string * string) :=
  match fuel with
  | O => None
  | S fuel' =>
      if filenameIndex <? dotIndex then
        if negb (String.eqb (Py.slice p filenameIndex (filenameIndex + 1))
                            (String extsep ""))
        then Some (Py.slice_to p dotIndex, Py.slice_from p dotIndex)
        else splitext_scan fuel' p (filenameIndex + 1) dotIndex
      else None
  end.

(** [os.path.splitext(p)] *)
Definition splitext (p : string) : string * string :=
  let sepIndex := Py.rfind sep p in
  let dotIndex := Py.rfind extsep p in
  if dotIndex >? sepIndex then
    match splitext_scan (Z.to_nat (dotIndex - sepIndex)) p (sepIndex + 1) dotIndex with
    | Some r => r
    | None => (p, "")
    end
  else (p, "").

(** [os.path.basename(p)] *)
Definition basename (p : string) : string :=
  Py.slice_from p (Py.rfind sep p + 1).

(** [head.rstrip(sep)] *)
Fixpoint rstrip_sep (s : string) : string :=
  match s with
  | "" => ""
  | String c s' =>
      let r := rstrip_sep s' in
      if Ascii.eqb c sep && negb (Py.truthy r) then "" else String c r
  end.

(** [os.path.dirname(p)]; the source never calls it, the file-system
    model below uses it to find the directory an [open] creates its
    file in. *)
Definition dirname (p : string) : string :=
  let i := Py.rfind sep p + 1 in
  let head := Py.slice_to p i in
  if Py.truthy head && Py.truthy (rstrip_sep head) then rstrip_sep head else head.

(** [os.path.join(a, b)] *)
Definition join (a b : string) : string :=
  if Py.startswith b (String sep "") then b
  else if negb (Py.truthy a) || Py.endswith a (String sep "") then a ++ b
  else a ++ String sep "" ++ b.

End OsPath.

(** ** [base64] *)

Abbreviation bytes := (list Byte.byte).

Module Base64.

Definition alphabet : string :=
  "ABCDEFGHIJKLMNOPQRSTUVWXYZabcdefghijklmnopqrstuvwxyz0123456789+/".
Definition BASE64_PAD : ascii := "="%char.

(** [table_b2a_base64[i]] *)
Definition table_b2a (i : Z) : ascii :=
  match String.get (Z.to_nat i) alphabet with
  | Some c => c
  | None => BASE64_PAD
  end.

Fixpoint index_of (c : ascii) (s : string) (i : Z) : option Z :=
  match s with
  | "" => None
  | String a s' => if Ascii.eqb a c then Some i else index_of c s' (i + 1)
  end.

(** [table_a2b_base64[c]]: [None] stands for the entries that are not a
    base64 digit. *)
Definition table_a2b (c : ascii) : option Z := index_of c alphabet 0.

Definition ord (b : Byte.byte) : Z := Z.of_N (Byte.to_N b).

(** Storing an int into an [unsigned char]. *)
Definition chr (z : Z) : Byte.byte :=
  match Byte.of_N (Z.to_N (z mod 256)) with
  | Some b => b
  | None => Byte.x00
  end.

(** [base64.b64encode(s).decode("utf-8")]: RFC 4648 with padding, three
    bytes to four digits. *)
Fixpoint b64encode (s : bytes) : string :=
  match s with
  | [] => ""
  | [a] =>
      String (table_b2a (Z.shiftr (ord a) 2))
      (String (table_b2a (Z.shiftl (Z.land (ord a) 3) 4))
      (String BASE64_PAD (String BASE64_PAD "")))
  | [a; b] =>
      String (table_b2a (Z.shiftr (ord a) 2))
      (String (table_b2a (Z.lor (Z.shiftl (Z.land (ord a) 3) 4) (Z.shiftr (ord b) 4)))
      (String (table_b2a (Z.shiftl (Z.land (ord b) 15) 2))
      (String BASE64_PAD "")))
  | a :: b :: c :: rest =>
      String (table_b2a (Z.shiftr (ord a) 2))
      (String (table_b2a (Z.lor (Z.shiftl (Z.land (ord a) 3) 4) (Z.shiftr (ord b) 4)))
      (String (table_b2a (Z.lor (Z.shiftl (Z.land (ord b) 15) 2) (Z.shiftr (ord c) 6)))
      (String (table_b2a (Z.land (ord c) 63))
      (b64encode rest))))
  end.

(** The decoder of [binascii.a2b_base64] in its default, non-strict
    mode: a state machine over [quad_pos], [leftchar] and [pads]. *)
Record dstate := DState { quad_pos : Z; leftchar : Z; pads : Z; out : bytes }.

Inductive derror :=
| OneExtraChar (ndata : Z)   (* 1 more data character than a multiple of 4 *)
| IncorrectPadding.

Fixpoint a2b_loop (s : string) (st : dstate) : derror + bytes :=
  match s with
  | "" =>
      if negb (quad_pos st =? 0) then
        if quad_pos st =? 1
        then inl (OneExtraChar (Z.of_nat (List.length (out st)) / 3 * 4 + 1))
        else inl IncorrectPadding
      else inr (out st)
  | String this_ch s' =>
      if Ascii.eqb this_ch BASE64_PAD then
        if (2 <=? quad_pos st) && (4 <=? quad_pos st + (pads st + 1))
        then inr (out st)
        else a2b_loop s'
               (if 2 <=? quad_pos st
                then DState (quad_pos st) (leftchar st) (pads st + 1) (out st)
                else st)
      else
        match table_a2b this_ch with
        | None => a2b_loop s' st
        | Some v =>
            a2b_loop s'
              (if quad_pos st =? 0 then DState 1 v 0 (out st)
               else if quad_pos st =? 1 then
                 DState 2 (Z.land v 15) 0
                   (out st ++ [chr (Z.lor (Z.shiftl (leftchar st) 2) (Z.shiftr v 4))])%list
               else if quad_pos st =? 2 then
                 DState 3 (Z.land v 3) 0
                   (out st ++ [chr (Z.lor (Z.shiftl (leftchar st) 4) (Z.shiftr v 2))])%list
               else
                 DState 0 0 0
                   (out st ++ [chr (Z.lor (Z.shiftl (leftchar st) 6) v)])%list)
        end
  end.

Definition a2b_base64 (s : string) : derror + bytes :=
  a2b_loop s (DState 0 0 0 []).

(** [str.encode('ascii')] succeeds when every character is below 128. *)
Fixpoint is_ascii (s : string) : bool :=
  match s with
  | "" => true
  | String c s' => (nat_of_ascii c <? 128)%nat && is_ascii s'
  end.

End Base64.

(** ** Checking the base64 tables over all bytes *)

Module Base64Check.
Import Base64.

Definition all_bytes : list Byte.byte :=
  List.map (λ n, chr (Z.of_nat n)) (seq 0 256).

(** The four digits of a group, as the encoder computes them. *)
Definition s1 (a : Byte.byte) : Z := Z.shiftr (ord a) 2.
Definition s2 (a b : Byte.byte) : Z :=
  Z.lor (Z.shiftl (Z.land (ord a) 3) 4) (Z.shiftr (ord b) 4).
Definition s3 (b c : Byte.byte) : Z :=
  Z.lor (Z.shiftl (Z.land (ord b) 15) 2) (Z.shiftr (ord c) 6).
Definition s4 (c : Byte.byte) : Z := Z.land (ord c) 63.
Definition s2_last (a : Byte.byte) : Z := Z.shiftl (Z.land (ord a) 3) 4.
Definition s3_last (b : Byte.byte) : Z := Z.shiftl (Z.land (ord b) 15) 2.

(** A digit value survives the two tables and is not the pad. *)
Definition digit_ok (v : Z) : bool :=
  negb (Ascii.eqb (table_b2a v) BASE64_PAD)
  && match table_a2b (table_b2a v) with
     | Some v' => v' =? v
     | None => false
     end.

Definition byte_eqb (x y : Byte.byte) : bool := Byte.eqb x y.

Definition check1 (a : Byte.byte) : bool :=
  digit_ok (s1 a) && digit_ok (s4 a) && digit_ok (s2_last a) && digit_ok (s3_last a)
  && byte_eqb (chr (Z.lor (Z.shiftl (s1 a) 2) (Z.shiftr (s2_last a) 4))) a
  && byte_eqb (chr (Z.lor (Z.shiftl (Z.shiftr (ord a) 6) 6) (s4 a))) a
  && byte_eqb (chr (Z.lor (Z.shiftl (Z.shiftr (ord a) 4) 4) (Z.shiftr (s3_last a) 2))) a.

Definition check2 (a b : Byte.byte) : bool :=
  digit_ok (s2 a b) && digit_ok (s3 a b)
  && byte_eqb (chr (Z.lor (Z.shiftl (s1 a) 2) (Z.shiftr (s2 a b) 4))) a
  && (Z.land (s2 a b) 15 =? Z.shiftr (ord b) 4)
  && byte_eqb (chr (Z.lor (Z.shiftl (Z.shiftr (ord a) 4) 4) (Z.shiftr (s3 a b) 2))) a
  && (Z.land (s3 a b) 3 =? Z.shiftr (ord b) 6).

End Base64Check.

(** ** Exceptions, the file system and the effects of a request *)

(** [HTTPException] is the one exception class the source raises itself;
    every other exception is kept as its class name and its message. *)
Inductive pyexn :=
| HTTPException (status_code : Z) (detail : string)
| PyErr (cls : string) (msg : string).

(** [str(e)] *)
Definition str_exn (e : pyexn) : string :=
  match e with
  | HTTPException status_code detail => pretty status_code ++ ": " ++ detail
  | PyErr _ msg => msg
  end.

(** [base64.b64decode(s)] on a [str] argument. *)
Definition b64decode (s : string) : pyexn + bytes :=
  if Base64.is_ascii s then
    match Base64.a2b_base64 s with
    | inr data => inr data
    | inl (Base64.OneExtraChar n) =>
        inl (PyErr "binascii.Error"
               ("Invalid base64-encoded string: number of data characters ("
                ++ pretty n ++ ") cannot be 1 more than a multiple of 4"))
    | inl Base64.IncorrectPadding => inl (PyErr "binascii.Error" "Incorrect padding")
    end
  else inl (PyErr "ValueError" "string argument should contain only ASCII characters").

(** Regular files by path, and the set of directories.  Paths are compared
    literally (no symbolic links, no normalisation of [.], [..] or [//]). *)
Record filesystem := MkFS { files : gmap string bytes; dirs : gset string }.

Definition isfile (fs : filesystem) (p : string) : bool :=
  bool_decide (is_Some (files fs !! p)).
Definition isdir (fs : filesystem) (p : string) : bool :=
  bool_decide (p ∈ dirs fs).

(** [os.path.exists(p)] *)
Definition path_exists (fs : filesystem) (p : string) : bool :=
  isfile fs p || isdir fs p.

(** [p] lies in the tree rooted at directory [d]. *)
Definition under (d p : string) : bool :=
  String.eqb p d || Py.startswith p (d ++ "/").

(** [shutil.rmtree(d)], as run by [TemporaryDirectory.cleanup]. *)
Definition rmtree (d : string) (fs : filesystem) : filesystem :=
  MkFS (filter (λ kv, under d kv.1 = false) (files fs))
     (filter (λ p, under d p = false) (dirs fs)).

(** A name that can only denote a directory. *)
Definition names_directory (p : string) : bool :=
  let b := OsPath.basename p in
  String.eqb b "" || String.eqb b "." || String.eqb b "..".

(** [with open(p, "wb") as f: f.write(data)] *)
Definition write_file (fs : filesystem) (p : string) (data : bytes) : pyexn + filesystem :=
  if isdir fs p || names_directory p then inl (PyErr "IsADirectoryError" p)
  else if isdir fs (OsPath.dirname p) then inr (MkFS (<[p := data]> (files fs)) (dirs fs))
  else inl (PyErr "FileNotFoundError" p).

(** [with open(p, "rb") as f: f.read()] *)
Definition read_file (fs : filesystem) (p : string) : pyexn + bytes :=
  match files fs !! p with
  | Some data => inr data
  | None => if isdir fs p then inl (PyErr "IsADirectoryError" p)
            else inl (PyErr "FileNotFoundError" p)
  end.

(** The module globals [task_instances] and [pdf_extract_task]: set or [None]. *)
Record globals := Globals { task_instances : bool; pdf_extract_task : bool }.

Record world := World { fs : filesystem; glob : globals }.

(** What a request does to the outside, in order. *)
Inductive effect :=
| EvInitialize
| EvMkdtemp (temp_dir : string)
| EvCleanup (temp_dir : string)
| EvGet (url : string)
| EvProcess (file_path : option string) (save_dir : string) (visualize merge2markdown : bool).

(** A computation runs in a world, raises or returns, and leaves a world
    and the effects it caused. *)
Definition M (A : Type) : Type := world → (pyexn + A) * world * list effect.

Definition ret {A} (a : A) : M A := λ w, (inr a, w, []).
Definition raise {A} (e : pyexn) : M A := λ w, (inl e, w, []).
Definition bind {A B} (c : M A) (k : A → M B) : M B := λ w,
  match c w with
  | (inl e, w1, t1) => (inl e, w1, t1)
  | (inr a, w1, t1) =>
      match k a w1 with
      | (r, w2, t2) => (r, w2, (t1 ++ t2)%list)
      end
  end.

#[global] Instance M_ret : MRet M := @ret.
#[global] Instance M_bind : MBind M := λ A B k c, bind c k.

(** [try: c except Exception as e: h e] *)
Definition try_except {A} (c : M A) (h : pyexn → M A) : M A := λ w,
  match c w with
  | (inl e, w1, t1) =>
      match h e w1 with
      | (r, w2, t2) => (r, w2, (t1 ++ t2)%list)
      end
  | (inr a, w1, t1) => (inr a, w1, t1)
  end.

Definition emit (ev : effect) : M unit := λ w, (inr tt, w, [ev]).
Definition lift {A} (r : pyexn + A) : M A := λ w, (r, w, []).
Definition get_fs : M filesystem := λ w, (inr (fs w), w, []).
Definition put_fs (f : filesystem) : M unit := λ w, (inr tt, World f (glob w), []).
Definition get_glob : M globals := λ w, (inr (glob w), w, []).
Definition put_glob (g : globals) : M unit := λ w, (inr tt, World (fs w) g, []).

Definition open_wb (p : string) (data : bytes) : M unit :=
  f ← get_fs; f' ← lift (write_file f p data); put_fs f'.
Definition open_rb (p : string) : M bytes :=
  f ← get_fs; lift (read_file f p).
Definition os_path_exists (p : string) : M bool :=
  f ← get_fs; ret (path_exists f p).

(** ** Requests, responses and the collaborators *)

(** A [requests.Response]: what the source reads of it. *)
Record response := Response {
  status_code : Z;
  reason : string;
  resp_url : string;
  content_type : option string;    (* the Content-Type header, when sent *)
  content : bytes
}.

(** [response.raise_for_status()] *)
Definition raise_for_status (r : response) : pyexn + unit :=
  if (400 <=? status_code r) && (status_code r <? 500) then
    inl (PyErr "HTTPError"
           (pretty (status_code r) ++ " Client Error: " ++ reason r ++ " for url: " ++ resp_url r))
  else if (500 <=? status_code r) && (status_code r <? 600) then
    inl (PyErr "HTTPError"
           (pretty (status_code r) ++ " Server Error: " ++ reason r ++ " for url: " ++ resp_url r))
  else inr tt.

(** Lines 117-127 and 210-220: the extension of a downloaded file. *)
Definition infer_ext (content_type url : string) : string :=
  if Py.contains "pdf" (Py.lower content_type) then ".pdf"
  else if Py.contains "image" (Py.lower content_type) then ".png"
  else
    let ext := (OsPath.splitext url).2 in
    if negb (Py.truthy ext) then ".pdf" else ext.

(** Lines 141/150 and 241/250: [os.path.basename(file_path)[:-4]]. *)
Definition artifact_basename (file_path : string) : string :=
  Py.slice_to (OsPath.basename file_path) (-4).

(** The multipart [file] field. *)
Record UploadFile := Upload { filename : string; upload_bytes : bytes }.

(** The [input] mapping of an event, typed as the event surface declares
    it: every key is optional. *)
Record input_data := InputData {
  file_base64 : option string;
  url : option string;
  visualize : option bool;
  merge2markdown : option bool
}.

(** [event]: the [input] key may be missing, and then reads as [{}]. *)
Record request := Request { input : option input_data }.

Definition empty_input : input_data := InputData None None None None.

(** How a run of [initialize_models] ends: it returns, it raises before
    [task_instances] is assigned, or it raises after. *)
Inductive init_outcome :=
| InitOk
| InitRaisesEarly (e : pyexn)
| InitRaisesLate (e : pyexn).

(** Values of a response mapping. *)
Inductive pyval (Results : Type) :=
| PStr (s : string)
| PBool (b : bool)
| PResults (r : Results).
Arguments PStr {Results} s.
Arguments PBool {Results} b.
Arguments PResults {Results} r.

Section Service.

Context {Results : Type}.

(** [requests.get(url, timeout=30)] *)
Variable requests_get : string → pyexn + response.
(** The configuration loader, the task registry and the model builders. *)
Variable initialize_outcome : init_outcome.
(** [pdf_extract_task.process(file_path, save_dir=, visualize=,
    merge2markdown=)]: it returns or raises, and may change the files. *)
Variable process :
  filesystem → option string → string → bool → bool → (pyexn + Results) * filesystem.
(** Reading a file in text mode: the locale's decoder. *)
Variable decode_text : bytes → pyexn + string.
(** The directory name [tempfile] picks. *)
Variable mkdtemp : filesystem → string.
(** [traceback.format_exc()] for the exception being handled. *)
Variable format_exc : pyexn → string.

Abbreviation dict := (gmap string (pyval Results)).

(** Lines 29-49 *)
Definition initialize_models : M unit :=
  emit EvInitialize;;
  match initialize_outcome with
  | InitOk => put_glob (Globals true true)
  | InitRaisesEarly e => raise e
  | InitRaisesLate e =>
      g ← get_glob; put_glob (Globals true (pdf_extract_task g));; raise e
  end.

(** The call into the pipeline object. *)
Definition pipeline_process (file_path : option string) (save_dir : string)
    (visualize merge2markdown : bool) : M Results :=
  emit (EvProcess file_path save_dir visualize merge2markdown);;
  f ← get_fs;
  put_fs (process f file_path save_dir visualize merge2markdown).2;;
  lift (process f file_path save_dir visualize merge2markdown).1.

(** Lines 66-77 *)
Definition process_pdf_file (file_path : option string) (save_dir : string)
    (visualize merge2markdown : bool) : M Results :=
  g ← get_glob;
  (if pdf_extract_task g then ret tt else initialize_models);;
  pipeline_process file_path save_dir visualize merge2markdown.

(** [with tempfile.TemporaryDirectory() as temp_dir: body]: the directory
    is made, the body runs, and the tree is removed however the body
    ends. *)
Definition with_TemporaryDirectory {A} (body : string → M A) : M A := λ w,
  let temp_dir := mkdtemp (fs w) in
  let w1 := World (MkFS (files (fs w)) ({[temp_dir]} ∪ dirs (fs w))) (glob w) in
  match body temp_dir w1 with
  | (r, w2, t) =>
      (r, World (rmtree temp_dir (fs w2)) (glob w2),
       (EvMkdtemp temp_dir :: t ++ [EvCleanup temp_dir])%list)
  end.

(** Lines 114-131 and 207-224: fetch, pick the extension, write the body. *)
Definition download (temp_dir url : string) : M string :=
  emit (EvGet url);;
  response ← lift (requests_get url);
  lift (raise_for_status response);;
  let content_type := default "" (content_type response) in
  let ext := infer_ext content_type url in
  let file_path := OsPath.join temp_dir ("downloaded" ++ ext) in
  open_wb file_path (content response);;
  ret file_path.

(** [os.path.basename(file_path)[:-4]] where [file_path] may be [None]. *)
Definition basename_of (file_path : option string) : M string :=
  match file_path with
  | Some p => ret (artifact_basename p)
  | None =>
      raise (PyErr "TypeError"
               "expected str, bytes or os.PathLike object, not NoneType")
  end.

(** Lines 139-145 and 239-245 *)
Definition read_markdown (temp_dir : string) (file_path : option string)
    (merge2markdown : bool) : M (option string) :=
  if merge2markdown then
    basename ← basename_of file_path;
    let md_path := OsPath.join temp_dir (basename ++ ".md") in
    ex ← os_path_exists md_path;
    if (ex : bool) then
      data ← open_rb md_path;
      text ← lift (decode_text data);
      ret (Some text)
    else ret None
  else ret None.

(** [file_path.endswith(".pdf")] *)
Definition endswith_pdf (file_path : option string) : bool :=
  match file_path with
  | Some p => Py.endswith p ".pdf"
  | None => false
  end.

(** Lines 147-157 and 247-257 *)
Definition read_visualization (temp_dir : string) (file_path : option string)
    (visualize : bool) : M (option string) :=
  if visualize then
    basename ← basename_of file_path;
    let vis_path := OsPath.join temp_dir (basename ++ ".png") in
    ex ← os_path_exists vis_path;
    let vis_path :=
      if negb (ex : bool) && endswith_pdf file_path
      then OsPath.join temp_dir (basename ++ ".pdf") else vis_path in
    ex ← os_path_exists vis_path;
    if (ex : bool) then
      data ← open_rb vis_path;
      ret (Some (Base64.b64encode data))
    else ret None
  else ret None.

(** [if x:] for a value that is [None] or a string. *)
Definition truthy_opt (x : option string) : bool :=
  match x with
  | Some s => Py.truthy s
  | None => false
  end.

(** Lines 160-169 and 260-269 *)
Definition response_data (results : Results)
    (markdown_content visualization_data : option string) : dict :=
  let d : dict := <["results" := PResults results]> (<["success" := PBool true]> ∅) in
  let d := if truthy_opt markdown_content
           then <["markdown" := PStr (default "" markdown_content)]> d else d in
  if truthy_opt visualization_data
  then <["visualization" := PStr (default "" visualization_data)]> d else d.

(** Lines 138-171 and 238-271: the result assembler, the same text in
    both functions. *)
Definition assemble (temp_dir : string) (file_path : option string)
    (visualize merge2markdown : bool) (results : Results) : M dict :=
  markdown_content ← read_markdown temp_dir file_path merge2markdown;
  visualization_data ← read_visualization temp_dir file_path visualize;
  ret (response_data results markdown_content visualization_data).

(** Lines 103-133: the input resolver of the HTTP surface. *)
Definition resolve_http (temp_dir : string) (file : option UploadFile)
    (url : option string) : M (option string) :=
  match file with
  | Some f =>
      let file_path := OsPath.join temp_dir (filename f) in
      open_wb file_path (upload_bytes f);;
      ret (Some file_path)
  | None =>
      if truthy_opt url then
        try_except
          (file_path ← download temp_dir (default "" url); ret (Some file_path))
          (λ e, raise (HTTPException 400
                         ("Failed to download file from URL: " ++ str_exn e)))
      else ret None
  end.

(** Lines 79-171: [POST /process].  A raised [HTTPException] is the
    response with that status; any other exception is a server error. *)
Definition process_pdf (file : option UploadFile) (url : option string)
    (visualize merge2markdown : bool) : M dict :=
  if bool_decide (file = None) && bool_decide (url = None) then
    raise (HTTPException 400 "Either file or url must be provided")
  else
    with_TemporaryDirectory (λ temp_dir,
      file_path ← resolve_http temp_dir file url;
      results ← process_pdf_file file_path temp_dir visualize merge2markdown;
      assemble temp_dir file_path visualize merge2markdown results).

(** Lines 231-271: what [handler] does once the input file is in place. *)
Definition handler_process (temp_dir : string) (input_data : input_data)
    (file_path : string) : M dict :=
  let visualize := default false (visualize input_data) in
  let merge2markdown := default true (merge2markdown input_data) in
  results ← pipeline_process (Some file_path) temp_dir visualize merge2markdown;
  assemble temp_dir (Some file_path) visualize merge2markdown results.

(** Lines 194-229: the input resolver of the event surface.  [inl] is
    a mapping the [handler] returns at once, [inr] the path of the input
    file. *)
Definition resolve_event (temp_dir : string) (input_data : input_data)
    : M (dict + string) :=
  match file_base64 input_data with
  | Some payload =>
      file_data ← lift (b64decode payload);
      let file_path := OsPath.join temp_dir "input.pdf" in
      open_wb file_path file_data;;
      ret (inr file_path)
  | None =>
      match url input_data with
      | Some url =>
          try_except
            (file_path ← download temp_dir url;
             ret (inr file_path))
            (λ e, ret (inl ({[ "error" :=
                PStr ("Failed to download file from URL: " ++ str_exn e) ]} : dict)))
      | None =>
          ret (inl ({[ "error" := PStr "Either file_base64 or url must be provided" ]}
                    : dict))
      end
  end.

(** Lines 184-271: the body of the [try] of [handler]. *)
Definition handler_try (event : request) : M dict :=
  g ← get_glob;
  (if negb (task_instances g) || negb (pdf_extract_task g)
   then initialize_models else ret tt);;
  let input_data := default empty_input (input event) in
  with_TemporaryDirectory (λ temp_dir,
    r ← resolve_event temp_dir input_data;
    match r with
    | inl early => ret early
    | inr file_path => handler_process temp_dir input_data file_path
    end).

(** Lines 174-275: the event surface. *)
Definition handler (event : request) : world → dict * world * list effect := λ w,
  match handler_try event w with
  | (inr response_data, w', t) => (response_data, w', t)
  | (inl e, w', t) =>
      (<["traceback" := PStr (format_exc e)]> {[ "error" := PStr (str_exn e) ]}, w', t)
  end.

End Service.


(** ** Reading a trace of effects *)

Definition is_get (ev : effect) : bool :=
  match ev with EvGet _ => true | _ => false end.
Definition is_mkdtemp (ev : effect) : bool :=
  match ev with EvMkdtemp _ => true | _ => false end.

(** Neither a file nor a directory at [p] or below it. *)
Definition absent (fs : filesystem) (d : string) : Prop :=
  ∀ p, under d p = true → path_exists fs p = false.

(** Every effect of [c], in any world, satisfies [P]. *)
Definition emits (P : effect → bool) {A} (c : M A) : Prop :=
  ∀ w, Forall (λ ev, P ev = true) (c w).2.

(** Every directory [c] made with [mkdtemp] is gone when [c] ends. *)
Definition cleans {A} (c : M A) : Prop :=
  ∀ w d, EvMkdtemp d ∈ (c w).2 → absent (fs (c w).1.2) d.

(** Whenever [c] returns (rather than raises), its value satisfies [Q]. *)
Definition returns {A} (Q : A → Prop) (c : M A) : Prop :=
  ∀ w a w' t, c w = (inr a, w', t) → Q a.

(** ** A concrete deployment, for running the model *)

Module Scenario.

Definition fs0 : filesystem := MkFS ∅ {[ "/tmp" ]}.
Definition warm : world := World fs0 (Globals true true).
Definition cold : world := World fs0 (Globals false false).

Definition mkdtemp (_ : filesystem) : string := "/tmp/tmpk3v9".

(** The file system once the workspace has been made. *)
Definition fs1 : filesystem := MkFS ∅ {[ "/tmp/tmpk3v9" ]} .
Definition inside : world := World (MkFS ∅ ({[ "/tmp/tmpk3v9" ]} ∪ {[ "/tmp" ]})) (Globals true true).
Definition format_exc (e : pyexn) : string :=
  "Traceback (most recent call last): " ++ str_exn e.
Definition decode_text (data : bytes) : pyexn + string :=
  inr (string_of_list_byte data).

(** A server that answers every URL with a one-byte body and no
    Content-Type, and one that cannot be reached. *)
Definition get_ok (url : string) : pyexn + response :=
  inr (Response 200 "OK" url None [Byte.x25]).
Definition get_pdf (url : string) : pyexn + response :=
  inr (Response 200 "OK" url (Some "application/pdf") [Byte.x25]).
Definition get_fails (url : string) : pyexn + response :=
  inl (PyErr "ConnectionError" "connection refused").

(** Pipelines: one that writes nothing, one that writes the markdown of
    the upload [scan.jpeg] as [scan.md], one that writes [<stem>.md] for
    a [.pdf] input, one that renders the visualization over
    [<stem>.pdf], and one that raises. *)
Definition process_plain (f : filesystem) (file_path : option string) (save_dir : string)
    (visualize merge2markdown : bool) : (pyexn + string) * filesystem :=
  (inr "[]", f).
Definition process_scan_md (f : filesystem) (file_path : option string) (save_dir : string)
    (visualize merge2markdown : bool) : (pyexn + string) * filesystem :=
  (inr "[]", MkFS (<[OsPath.join save_dir "scan.md" := [Byte.x23]]> (files f)) (dirs f)).
Definition process_md (f : filesystem) (file_path : option string) (save_dir : string)
    (visualize merge2markdown : bool) : (pyexn + string) * filesystem :=
  (inr "[]",
   MkFS (<[OsPath.join save_dir
             ((OsPath.splitext (OsPath.basename (default "" file_path))).1 ++ ".md")
           := [Byte.x23]]> (files f)) (dirs f)).
Definition process_render (f : filesystem) (file_path : option string) (save_dir : string)
    (visualize merge2markdown : bool) : (pyexn + string) * filesystem :=
  (inr "[]",
   MkFS (<[OsPath.join save_dir
             ((OsPath.splitext (OsPath.basename (default "" file_path))).1 ++ ".pdf")
           := [Byte.x76; Byte.x69; Byte.x73]]> (files f)) (dirs f)).
Definition process_raises (f : filesystem) (file_path : option string) (save_dir : string)
    (visualize merge2markdown : bool) : (pyexn + string) * filesystem :=
  (inl (PyErr "RuntimeError" "layout model failed"), f).

End Scenario.

(** ** Further notions used to state what the code keeps *)

(** [c] changes nothing and causes no effect: it only reads. *)
Definition pure {A} (c : M A) : Prop :=
  ∀ w, (c w).1.2 = w ∧ (c w).2 = [].

(** A directory name as [tempfile] returns them: not empty, no trailing
    separator. *)
Definition tempdir_ok (d : string) : bool :=
  Py.truthy d && negb (Py.endswith d "/").

(** [f'] is [f] on every path outside the tree of [d]. *)
Definition same_outside (d : string) (f f' : filesystem) : Prop :=
  ∀ p, under d p = false →
       files f' !! p = files f !! p ∧ (p ∈ dirs f' ↔ p ∈ dirs f).

(** Called with [save_dir], the pipeline writes nowhere but below it. *)
Definition writes_in_save_dir {Results : Type}
    (process : filesystem → option string → string → bool → bool
               → (pyexn + Results) * filesystem) (save_dir : string) : Prop :=
  ∀ f file_path visualize merge2markdown,
    same_outside save_dir f (process f file_path save_dir visualize merge2markdown).2.

(** The globals as [initialize_models] can leave them: the pipeline is
    never set without the task instances. *)
Definition globals_ok (g : globals) : Prop :=
  pdf_extract_task g = true → task_instances g = true.

(** The characters [a2b_base64] looks at: the digits and the pad. *)
Definition b64_significant (c : ascii) : bool :=
  Ascii.eqb c Base64.BASE64_PAD
  || match Base64.table_a2b c with Some _ => true | None => false end.

Fixpoint b64_strip (s : string) : string :=
  match s with
  | "" => ""
  | String c s' => if b64_significant c then String c (b64_strip s') else b64_strip s'
  end.

(** More of the concrete deployment: a server that answers 404, and a
    world whose workspace name is still free. *)
Module Deployment.

Definition get_404 (url : string) : pyexn + response :=
inr (Response 404 "Not Found" url (Some "text/html") [Byte.x3c]).

End Deployment.

(** The world [c] leaves is related by [R] to the one it started in. *)
Definition relates (R : world → world → Prop) {A} (c : M A) : Prop :=
  ∀ w, R w (c w).1.2.

Definition is_initialize (ev : effect) : bool :=
  match ev with EvInitialize => true | _ => false end.

(** Both globals are set: a process that has initialized its models. *)
Definition warm_globals (g : globals) : Prop :=
  task_instances g = true ∧ pdf_extract_task g = true.

(** ** [initialize_models], line by line *)

(** A task instance: reading its [model] attribute gives a value or
    raises. *)
Record Task (Model : Type) := MkTask { task_model : pyexn + Model }.
Arguments MkTask {Model} task_model.
Arguments task_model {Model} t.

(** The two module globals with their values. *)
Record module_state (Model Pipeline : Type) := ModuleState {
  the_task_instances : option (gmap string (Task Model));
  the_pdf_extract_task : option Pipeline
}.
Arguments ModuleState {Model Pipeline} _ _.
Arguments the_task_instances {Model Pipeline} m.
Arguments the_pdf_extract_task {Model Pipeline} m.

(** What the request model keeps of them: set or [None]. *)
Definition flags {Model Pipeline : Type} (st : module_state Model Pipeline) : globals :=
  Globals (bool_decide (is_Some (the_task_instances st)))
          (bool_decide (is_Some (the_pdf_extract_task st))).

Section InitializeModels.
Context {Config Model Pipeline : Type}.

(** [os.environ] *)
Variable environ : gmap string string.
(** [load_config] and [initialize_tasks_and_models], of the project. *)
Variable load_config : string → pyexn + Config.
Variable initialize_tasks_and_models : Config → pyexn + gmap string (Task Model).
(** [TASK_REGISTRY.get(name)]: a constructor taking the four models. *)
Variable registry_get :
string → pyexn + (option Model → option Model → option Model → option Model
                  → pyexn + Pipeline).

(** [task_instances[name].model if name in task_instances else None] *)
Definition model_or_None (task_instances : gmap string (Task Model)) (name : string)
: pyexn + option Model :=
match task_instances !! name with
| Some t =>
    match task_model t with
    | inr m => inr (Some m)
    | inl e => inl e
    end
| None => inr None
end.

(** Lines 40-47: the four models and the pipeline built from them. *)
Definition build_pipeline (task_instances : gmap string (Task Model)) : pyexn + Pipeline :=
match model_or_None task_instances "layout_detection" with
| inl e => inl e
| inr layout_model =>
match model_or_None task_instances "formula_detection" with
| inl e => inl e
| inr mfd_model =>
match model_or_None task_instances "formula_recognition" with
| inl e => inl e
| inr mfr_model =>
match model_or_None task_instances "ocr" with
| inl e => inl e
| inr ocr_model =>
match registry_get "pdf2markdown" with
| inl e => inl e
| inr constructor => constructor layout_model mfd_model mfr_model ocr_model
end end end end end.

(** Lines 29-49 *)
Definition initialize_models_full (st : module_state Model Pipeline)
: (pyexn + string) * module_state Model Pipeline :=
let config_path :=
  default "project/pdf2markdown/configs/pdf2markdown.yaml" (environ !! "CONFIG_PATH") in
match load_config config_path with
| inl e => (inl e, st)
| inr config =>
    match initialize_tasks_and_models config with
    | inl e => (inl e, st)
    | inr task_instances =>
        let st1 := ModuleState (Some task_instances) (the_pdf_extract_task st) in
        match build_pipeline task_instances with
        | inl e => (inl e, st1)
        | inr pdf_extract_task =>
            (inr "Models initialized successfully",
             ModuleState (Some task_instances) (Some pdf_extract_task))
        end
    end
end.

(** The way a run ends, as the request model records it. *)
Definition outcome_of_initialization : init_outcome :=
let config_path :=
  default "project/pdf2markdown/configs/pdf2markdown.yaml" (environ !! "CONFIG_PATH") in
match load_config config_path with
| inl e => InitRaisesEarly e
| inr config =>
    match initialize_tasks_and_models config with
    | inl e => InitRaisesEarly e
    | inr task_instances =>
        match build_pipeline task_instances with
        | inl e => InitRaisesLate e
        | inr _ => InitOk
        end
    end
end.

End InitializeModels.

(** A registry and task instances to run [initialize_models] on. *)
Module Registry.

Definition constructor (l d r o : option string) : pyexn + string :=
inr ("pdf2markdown(" ++ default "None" l ++ ", " ++ default "None" d ++ ", "
     ++ default "None" r ++ ", " ++ default "None" o ++ ")").
Definition registry_get (name : string)
: pyexn + (option string → option string → option string → option string
           → pyexn + string) :=
inr constructor.
Definition only_ocr : gmap string (Task string) :=
{[ "ocr" := MkTask (inr "PaddleOCR") ]}.
Definition broken_layout : gmap string (Task string) :=
{[ "layout_detection" :=
     MkTask (inl (PyErr "AttributeError" "object has no attribute 'model'")) ]}.

End Registry.
(** * Properties *)

(** ** The library functions on concrete inputs *)

Example splitext_plain : OsPath.splitext "http://host/a/doc.jpg" = ("http://host/a/doc", ".jpg").
Proof. reflexivity. Qed.
Example splitext_dotfile : OsPath.splitext "http://host/.jpg" = ("http://host/.jpg", "").
Proof. reflexivity. Qed.
Example splitext_no_suffix : OsPath.splitext "http://example.com/doc" = ("http://example.com/doc", "").
Proof. reflexivity. Qed.
Example splitext_host_only : OsPath.splitext "http://example.com" = ("http://example", ".com").
Proof. reflexivity. Qed.
Example basename_ex : OsPath.basename "/tmp/w/scan.jpeg" = "scan.jpeg".
Proof. reflexivity. Qed.
Example slice_ex : Py.slice_to "scan.jpeg" (-4) = "scan." /\ Py.slice_to "ab" (-4) = "".
Proof. split; reflexivity. Qed.
Example join_ex :
  OsPath.join "/tmp/w" "a.pdf" = "/tmp/w/a.pdf" /\ OsPath.join "/tmp/w" "/etc/x" = "/etc/x".
Proof. split; reflexivity. Qed.
Example dirname_ex :
  OsPath.dirname "/tmp/w/a.pdf" = "/tmp/w" /\ OsPath.dirname "/x" = "/" /\ OsPath.dirname "x" = "".
Proof. repeat split; reflexivity. Qed.
Example b64encode_ex :
  Base64.b64encode [Byte.x4d; Byte.x61; Byte.x6e] = "TWFu"
  /\ Base64.b64encode [Byte.x4d; Byte.x61] = "TWE="
  /\ Base64.b64encode [Byte.x4d] = "TQ==".
Proof. repeat split; reflexivity. Qed.
Example a2b_base64_ex :
  Base64.a2b_base64 "TWFu" = inr [Byte.x4d; Byte.x61; Byte.x6e]
  /\ Base64.a2b_base64 "TW E=" = inr [Byte.x4d; Byte.x61]
  /\ Base64.a2b_base64 "TQ" = inl Base64.IncorrectPadding
  /\ Base64.a2b_base64 "T" = inl (Base64.OneExtraChar 1).
Proof. repeat split; reflexivity. Qed.

(** ** Strings and slices *)

#[local] Arguments String.append !s1 s2 : simpl nomatch.

Lemma str_length_app (a b : string) :
  String.length (a ++ b) = (String.length a + String.length b)%nat.
Proof. induction a as [|c a IH]; simpl; [reflexivity | now rewrite IH]. Qed.

Lemma str_app_assoc (a b c : string) : (a ++ b) ++ c = a ++ (b ++ c).
Proof. induction a as [|x a IH]; simpl; [reflexivity | now rewrite IH]. Qed.

Lemma str_app_nil_r (a : string) : a ++ "" = a.
Proof. induction a as [|x a IH]; simpl; [reflexivity | now rewrite IH]. Qed.

Lemma len_app (a b : string) : Py.len (a ++ b) = Py.len a + Py.len b.
Proof. unfold Py.len. rewrite str_length_app. lia. Qed.

Lemma len_nonneg (a : string) : 0 <= Py.len a.
Proof. unfold Py.len. lia. Qed.

Lemma take_app_length (a b : string) : Py.take (String.length a) (a ++ b) = a.
Proof. induction a as [|x a IH]; simpl; [now destruct b | now rewrite IH]. Qed.

Lemma drop_app_length (a b : string) : Py.drop (String.length a) (a ++ b) = b.
Proof. induction a as [|x a IH]; simpl; [now destruct b | exact IH]. Qed.

Lemma take_drop (n : nat) (s : string) : Py.take n s ++ Py.drop n s = s.
Proof.
  revert s; induction n as [|n IH]; intros [|c s]; simpl; try reflexivity.
  now rewrite IH.
Qed.

Lemma take_length_le (n : nat) (s : string) :
  (String.length s <= n)%nat -> Py.take n s = s.
Proof.
  revert s; induction n as [|n IH]; intros [|c s]; simpl; intros H;
    try reflexivity; try lia.
  rewrite IH; [reflexivity | lia].
Qed.

Lemma bound_inside (s : string) (i : Z) :
  0 <= i <= Py.len s -> Py.bound s i = Z.to_nat i.
Proof.
  intros H. unfold Py.bound.
  destruct (Z.ltb_spec i 0) as [Hlt|Hge]; [lia|].
  f_equal. lia.
Qed.

Lemma slice_to_app (a b : string) : Py.slice_to (a ++ b) (Py.len a) = a.
Proof.
  unfold Py.slice_to. rewrite bound_inside.
  - unfold Py.len. rewrite Nat2Z.id. apply take_app_length.
  - rewrite len_app. pose proof (len_nonneg a). pose proof (len_nonneg b). lia.
Qed.

Lemma slice_from_app (a b : string) : Py.slice_from (a ++ b) (Py.len a) = b.
Proof.
  unfold Py.slice_from. rewrite bound_inside.
  - unfold Py.len. rewrite Nat2Z.id. apply drop_app_length.
  - rewrite len_app. pose proof (len_nonneg a). pose proof (len_nonneg b). lia.
Qed.

Lemma slice_char_app (a : string) (c : ascii) (b : string) :
  Py.slice (a ++ String c b) (Py.len a) (Py.len a + 1) = String c "".
Proof.
  unfold Py.slice.
  assert (Hl : Py.len (a ++ String c b) = Py.len a + 1 + Py.len b).
  { rewrite len_app. unfold Py.len. simpl String.length. lia. }
  pose proof (len_nonneg a). pose proof (len_nonneg b).
  rewrite !bound_inside by lia.
  replace (Z.to_nat (Py.len a + 1) - Z.to_nat (Py.len a))%nat with 1%nat by lia.
  unfold Py.len at 1. rewrite Nat2Z.id, drop_app_length. reflexivity.
Qed.

(** ** [rfind] *)

Lemma rfind_from_app (c : ascii) (a b : string) (i last : Z) :
  Py.rfind_from c (a ++ b) i last
  = Py.rfind_from c b (i + Py.len a) (Py.rfind_from c a i last).
Proof.
  revert i last; induction a as [|x a IH]; intros i last; simpl.
  - unfold Py.len; simpl. now rewrite Z.add_0_r.
  - rewrite IH. f_equal. unfold Py.len. simpl String.length. lia.
Qed.

Lemma rfind_from_absent (c : ascii) (s : string) (i last : Z) :
  Py.has_char c s = false -> Py.rfind_from c s i last = last.
Proof.
  revert i last; induction s as [|x s IH]; intros i last; simpl; [reflexivity|].
  intros H. apply orb_false_iff in H as [Hx Hs]. rewrite Hx. now apply IH.
Qed.

Lemma rfind_from_bounds (c : ascii) (s : string) (i last : Z) :
  last < i -> last <= Py.rfind_from c s i last < i + Py.len s.
Proof.
  revert i last; induction s as [|x s IH]; intros i last Hl; simpl.
  - unfold Py.len; simpl. lia.
  - assert (Hlen : Py.len (String x s) = 1 + Py.len s)
      by (unfold Py.len; simpl String.length; lia).
    rewrite Hlen.
    destruct (Ascii.eqb x c).
    + specialize (IH (i + 1) i ltac:(lia)). lia.
    + specialize (IH (i + 1) last ltac:(lia)). lia.
Qed.

Lemma rfind_bounds (c : ascii) (s : string) : -1 <= Py.rfind c s < Py.len s.
Proof. unfold Py.rfind. pose proof (rfind_from_bounds c s 0 (-1)). lia. Qed.

Lemma rfind_app_absent (c : ascii) (a b : string) :
  Py.has_char c b = false -> Py.rfind c (a ++ b) = Py.rfind c a.
Proof.
  intros H. unfold Py.rfind. rewrite rfind_from_app. now apply rfind_from_absent.
Qed.

Lemma rfind_app_char (c : ascii) (a b : string) :
  Py.has_char c b = false -> Py.rfind c (a ++ String c b) = Py.len a.
Proof.
  intros H. unfold Py.rfind. rewrite rfind_from_app. simpl.
  rewrite Ascii.eqb_refl. rewrite rfind_from_absent by assumption. lia.
Qed.

Lemma has_char_app (c : ascii) (a b : string) :
  Py.has_char c (a ++ b) = Py.has_char c a || Py.has_char c b.
Proof.
  induction a as [|x a IH]; simpl; [reflexivity|]. rewrite IH. now rewrite orb_assoc.
Qed.

Lemma startswith_absent (c : ascii) (s : string) :
  Py.has_char c s = false -> Py.startswith s (String c "") = false.
Proof.
  destruct s as [|x s]; simpl; [reflexivity|].
  intros H. apply orb_false_iff in H as [Hx _]. now rewrite Hx.
Qed.

Lemma endswith_app_self (a t : string) : Py.endswith (a ++ t) t = true.
Proof.
  unfold Py.endswith. rewrite str_length_app.
  apply andb_true_iff; split.
  - apply Nat.leb_le. lia.
  - replace (String.length a + String.length t - String.length t)%nat
      with (String.length a) by lia.
    rewrite drop_app_length. apply String.eqb_refl.
Qed.

Lemma endswith_split (s t : string) :
  Py.endswith s t = true ->
  s = Py.take (String.length s - String.length t) s ++ t.
Proof.
  unfold Py.endswith. intros H. apply andb_true_iff in H as [_ H].
  apply String.eqb_eq in H.
  rewrite <- (take_drop (String.length s - String.length t) s) at 1.
  now rewrite H.
Qed.

Lemma endswith_app (a b t : string) :
  Py.endswith b t = true -> Py.endswith (a ++ b) t = true.
Proof.
  intros H. rewrite (endswith_split b t H), <- str_app_assoc.
  apply endswith_app_self.
Qed.

(** ** [os.path] *)

Lemma splitext_scan_hit (p : string) (dotIndex j : Z) (fuel : nat) (filenameIndex : Z) :
  filenameIndex <= j < dotIndex ->
  (Z.to_nat (j - filenameIndex) < fuel)%nat ->
  Py.slice p j (j + 1) <> String OsPath.extsep "" ->
  OsPath.splitext_scan fuel p filenameIndex dotIndex
  = Some (Py.slice_to p dotIndex, Py.slice_from p dotIndex).
Proof.
  revert filenameIndex; induction fuel as [|fuel IH]; intros fi Hj Hfuel Hne; [lia|].
  simpl. destruct (Z.ltb_spec fi dotIndex) as [_|Hge]; [|lia].
  destruct (String.eqb_spec (Py.slice p fi (fi + 1)) (String OsPath.extsep "")) as [Heq|Hneq];
    simpl; [|reflexivity].
  assert (fi <> j) by (intros ->; contradiction).
  apply IH; [lia | lia | assumption].
Qed.

(** A suffix [.e] after a last component that holds a character other
    than a dot is what [splitext] returns as the extension. *)
Lemma splitext_suffix (d : string) (c : ascii) (m e : string) :
  c <> OsPath.sep -> c <> OsPath.extsep ->
  Py.has_char OsPath.sep m = false ->
  Py.has_char OsPath.sep e = false ->
  Py.has_char OsPath.extsep e = false ->
  OsPath.splitext (d ++ String c m ++ String OsPath.extsep e)
  = (d ++ String c m, String OsPath.extsep e).
Proof.
  intros Hc1 Hc2 Hm He1 He2.
  set (pre := d ++ String c m).
  assert (Hp : d ++ String c m ++ String OsPath.extsep e = pre ++ String OsPath.extsep e).
  { unfold pre. now rewrite str_app_assoc. }
  unfold OsPath.splitext.
  assert (Hdot : Py.rfind OsPath.extsep (d ++ String c m ++ String OsPath.extsep e) = Py.len pre).
  { rewrite Hp. now apply rfind_app_char. }
  assert (Hsep : Py.rfind OsPath.sep (d ++ String c m ++ String OsPath.extsep e)
                 = Py.rfind OsPath.sep d).
  { rewrite rfind_app_absent; [reflexivity|].
    rewrite has_char_app. simpl.
    apply Ascii.eqb_neq in Hc1. rewrite Hc1, Hm, He1. reflexivity. }
  rewrite Hdot, Hsep.
  pose proof (rfind_bounds OsPath.sep d) as Hb.
  assert (Hl : Py.len pre = Py.len d + 1 + Py.len m).
  { unfold pre. rewrite len_app. unfold Py.len. simpl String.length. lia. }
  pose proof (len_nonneg m). pose proof (len_nonneg d).
  destruct (Z.gtb_spec (Py.len pre) (Py.rfind OsPath.sep d)) as [_|]; [|lia].
  rewrite (splitext_scan_hit _ _ (Py.len d)).
  - rewrite Hp. now rewrite slice_to_app, slice_from_app.
  - lia.
  - lia.
  - change (String c m ++ String OsPath.extsep e)
      with (String c (m ++ String OsPath.extsep e)).
    rewrite slice_char_app. congruence.
Qed.

Lemma basename_join (temp_dir name : string) :
  Py.has_char OsPath.sep name = false ->
  OsPath.basename (OsPath.join temp_dir name) = name.
Proof.
  intros Hn. unfold OsPath.join, OsPath.basename.
  rewrite (startswith_absent _ _ Hn).
  destruct (negb (Py.truthy temp_dir) || Py.endswith temp_dir (String OsPath.sep "")) eqn:Hcase.
  - rewrite (rfind_app_absent _ _ _ Hn).
    apply orb_true_iff in Hcase as [Hempty|Hends].
    + destruct temp_dir; [|discriminate].
      change (Py.rfind OsPath.sep "" + 1) with (Py.len "").
      apply slice_from_app.
    + rewrite (endswith_split _ _ Hends).
      set (t := Py.take _ _).
      rewrite (rfind_app_char OsPath.sep t "" eq_refl).
      replace (Py.len t + 1) with (Py.len (t ++ String OsPath.sep ""))
        by (rewrite len_app; reflexivity).
      apply slice_from_app.
  - assert (Hr : Py.rfind OsPath.sep (temp_dir ++ String OsPath.sep "" ++ name) = Py.len temp_dir).
    { change (String OsPath.sep "" ++ name) with (String OsPath.sep name).
      now apply rfind_app_char. }
    rewrite Hr.
    rewrite <- str_app_assoc.
    replace (Py.len temp_dir + 1) with (Py.len (temp_dir ++ String OsPath.sep ""))
      by (rewrite len_app; reflexivity).
    apply slice_from_app.
Qed.

Lemma slice_to_minus4_pdf (name : string) :
  Py.endswith name ".pdf" = true -> Py.slice_to name (-4) ++ ".pdf" = name.
Proof.
  intros H. rewrite (endswith_split _ _ H) at 2.
  f_equal. unfold Py.slice_to. f_equal.
  unfold Py.endswith in H. apply andb_true_iff in H as [Hlen _].
  apply Nat.leb_le in Hlen. simpl String.length in *.
  unfold Py.bound, Py.len. simpl. lia.
Qed.

Lemma fallback_path_is_input (temp_dir name : string) :
  Py.has_char OsPath.sep name = false ->
  Py.endswith name ".pdf" = true ->
  OsPath.join temp_dir (artifact_basename (OsPath.join temp_dir name) ++ ".pdf")
  = OsPath.join temp_dir name.
Proof.
  intros Hn Hp. unfold artifact_basename.
  rewrite (basename_join _ _ Hn). now rewrite slice_to_minus4_pdf.
Qed.

Lemma join_endswith (temp_dir name t : string) :
  Py.endswith name t = true -> Py.endswith (OsPath.join temp_dir name) t = true.
Proof.
  intros H. unfold OsPath.join.
  destruct (Py.startswith _ _); [assumption|].
  destruct (_ || _); [now apply endswith_app|].
  rewrite <- str_app_assoc. now apply endswith_app.
Qed.

(** ** Effects of the building blocks *)

(** Unfolds the monad, so that a run on given oracle answers computes. *)
Ltac unfold_monad :=
  unfold mbind, mret, M_bind, M_ret, bind, ret, raise, lift, emit, get_fs, put_fs,
    get_glob, put_glob, try_except, with_TemporaryDirectory.


Section Emits.
Context (P : effect → bool).

Lemma emits_ret {A} (a : A) : emits P (ret a).
Proof. intros w. constructor. Qed.

Lemma emits_mret {A} (a : A) : emits P (mret a).
Proof. intros w. constructor. Qed.

Lemma emits_raise {A} (e : pyexn) : emits P (raise (A:=A) e).
Proof. intros w. constructor. Qed.

Lemma emits_lift {A} (r : pyexn + A) : emits P (lift r).
Proof. intros w. constructor. Qed.

Lemma emits_get_fs : emits P get_fs.
Proof. intros w. constructor. Qed.

Lemma emits_put_fs (f : filesystem) : emits P (put_fs f).
Proof. intros w. constructor. Qed.

Lemma emits_get_glob : emits P get_glob.
Proof. intros w. constructor. Qed.

Lemma emits_put_glob (g : globals) : emits P (put_glob g).
Proof. intros w. constructor. Qed.

Lemma emits_emit (ev : effect) : P ev = true → emits P (emit ev).
Proof. intros H w. repeat constructor. exact H. Qed.

Lemma emits_bind {A B} (c : M A) (k : A → M B) :
  emits P c → (∀ a, emits P (k a)) → emits P (c ≫= k).
Proof.
  intros Hc Hk w. specialize (Hc w).
  unfold mbind, M_bind, bind.
  destruct (c w) as [[[e|a] w1] t1]; [exact Hc|].
  specialize (Hk a w1). destruct (k a w1) as [[r w2] t2].
  simpl in *. apply Forall_app. now split.
Qed.

Lemma emits_try_except {A} (c : M A) (h : pyexn → M A) :
  emits P c → (∀ e, emits P (h e)) → emits P (try_except c h).
Proof.
  intros Hc Hh w. specialize (Hc w). unfold try_except.
  destruct (c w) as [[[e|a] w1] t1]; [|exact Hc].
  specialize (Hh e w1). destruct (h e w1) as [[r w2] t2].
  simpl in *. apply Forall_app. now split.
Qed.

Lemma emits_open_wb (p : string) (data : bytes) : emits P (open_wb p data).
Proof.
  unfold open_wb.
  repeat (apply emits_bind; [|intros ?]);
    auto using emits_get_fs, emits_lift, emits_put_fs.
Qed.

Lemma emits_open_rb (p : string) : emits P (open_rb p).
Proof.
  unfold open_rb. apply emits_bind; [|intros ?]; auto using emits_get_fs, emits_lift.
Qed.

Lemma emits_os_path_exists (p : string) : emits P (os_path_exists p).
Proof.
  unfold os_path_exists. apply emits_bind; [|intros ?]; auto using emits_get_fs, emits_ret.
Qed.

End Emits.

Create HintDb emits.

#[export] Hint Resolve emits_ret emits_mret emits_raise emits_lift emits_get_fs emits_put_fs
  emits_get_glob emits_put_glob emits_open_wb emits_open_rb emits_os_path_exists : emits.

(** Breaks a goal [emits P c] down along the binds and branches of [c]. *)
Ltac emits_step :=
  match goal with
  | |- emits _ (_ ≫= _) => apply emits_bind; [|intros ?]
  | |- emits _ (try_except _ _) => apply emits_try_except; [|intros ?]
  | |- emits _ (emit _) => apply emits_emit; reflexivity
  | |- emits _ (if ?b then _ else _) => destruct b
  | |- emits _ (match ?x with _ => _ end) => destruct x
  | |- emits _ _ => solve [auto with emits]
  end.

Ltac emits_auto := repeat emits_step.

Section EmitsService.
Context {Results : Type}.
Variable requests_get : string → pyexn + response.
Variable initialize_outcome : init_outcome.
Variable process :
  filesystem → option string → string → bool → bool → (pyexn + Results) * filesystem.
Variable decode_text : bytes → pyexn + string.
Variable P : effect → bool.

Lemma emits_initialize_models :
  P EvInitialize = true → emits P (initialize_models initialize_outcome).
Proof.
  intros H. unfold initialize_models.
  apply emits_bind; [now apply emits_emit|intros _]. emits_auto.
Qed.

Lemma emits_pipeline_process file_path save_dir visualize merge2markdown :
  P (EvProcess file_path save_dir visualize merge2markdown) = true →
  emits P (pipeline_process process file_path save_dir visualize merge2markdown).
Proof.
  intros H. unfold pipeline_process.
  apply emits_bind; [now apply emits_emit|intros _]. emits_auto.
Qed.

Lemma emits_process_pdf_file file_path save_dir visualize merge2markdown :
  P EvInitialize = true →
  P (EvProcess file_path save_dir visualize merge2markdown) = true →
  emits P (process_pdf_file initialize_outcome process file_path save_dir
             visualize merge2markdown).
Proof.
  intros H1 H2. unfold process_pdf_file.
  apply emits_bind; [auto with emits|intros g].
  apply emits_bind; [|intros _; now apply emits_pipeline_process].
  destruct (pdf_extract_task g); [auto with emits | now apply emits_initialize_models].
Qed.

Lemma emits_download temp_dir url :
  P (EvGet url) = true → emits P (download requests_get temp_dir url).
Proof.
  intros H. unfold download.
  apply emits_bind; [now apply emits_emit|intros _]. emits_auto.
Qed.

Lemma emits_assemble temp_dir file_path visualize merge2markdown (results : Results) :
  emits P (assemble decode_text temp_dir file_path visualize merge2markdown results).
Proof.
  unfold assemble, read_markdown, read_visualization, basename_of. emits_auto.
Qed.

End EmitsService.

(** ** Values of the building blocks *)

Lemma returns_ret {A} (Q : A → Prop) (a : A) : Q a → returns Q (ret a).
Proof. intros H w a' w' t [= <- _ _]. exact H. Qed.

Lemma returns_mret {A} (Q : A → Prop) (a : A) : Q a → returns Q (mret a).
Proof. apply returns_ret. Qed.

Lemma returns_raise {A} (Q : A → Prop) (e : pyexn) : returns Q (raise e).
Proof. intros w a w' t [=]. Qed.

Lemma returns_true {A} (c : M A) : returns (λ _, True) c.
Proof. now intros w a w' t _. Qed.

Lemma returns_bind {A B} (Q1 : A → Prop) (Q : B → Prop) (c : M A) (k : A → M B) :
  returns Q1 c → (∀ a, Q1 a → returns Q (k a)) → returns Q (c ≫= k).
Proof.
  intros Hc Hk w b w' t. unfold mbind, M_bind, bind.
  destruct (c w) as [[[e|a] w1] t1] eqn:Hcw; [intros [=]|].
  destruct (k a w1) as [[r w2] t2] eqn:Hkw. intros [= -> <- <-].
  eapply Hk; [|exact Hkw]. eapply Hc. exact Hcw.
Qed.

Lemma returns_bind_any {A B} (Q : B → Prop) (c : M A) (k : A → M B) :
  (∀ a, returns Q (k a)) → returns Q (c ≫= k).
Proof. intros Hk. apply (returns_bind (λ _, True)); [apply returns_true | auto]. Qed.

Lemma returns_try_except {A} (Q : A → Prop) (c : M A) (h : pyexn → M A) :
  returns Q c → (∀ e, returns Q (h e)) → returns Q (try_except c h).
Proof.
  intros Hc Hh w a w' t. unfold try_except.
  destruct (c w) as [[[e|a0] w1] t1] eqn:Hcw.
  - destruct (h e w1) as [[r w2] t2] eqn:Hhw. intros [= -> <- <-].
    eapply Hh. exact Hhw.
  - intros [= <- <- <-]. eapply Hc. exact Hcw.
Qed.

Lemma returns_with_TemporaryDirectory {A} (Q : A → Prop) (mkdtemp : filesystem → string)
    (body : string → M A) :
  (∀ d, returns Q (body d)) → returns Q (with_TemporaryDirectory mkdtemp body).
Proof.
  intros Hb w a w' t. unfold with_TemporaryDirectory.
  destruct (body _ _) as [[r w2] t2] eqn:Hbw. intros [= -> _ _].
  eapply Hb. exact Hbw.
Qed.

(** ** The response mapping *)

Section ResponseData.
Context {Results : Type}.
Implicit Types (results : Results) (md vis : option string).

Lemma response_data_success results md vis :
  response_data results md vis !! "success" = Some (PBool true).
Proof. unfold response_data. destruct (truthy_opt md), (truthy_opt vis); reflexivity. Qed.

Lemma response_data_results results md vis :
  response_data results md vis !! "results" = Some (PResults results).
Proof. unfold response_data. destruct (truthy_opt md), (truthy_opt vis); reflexivity. Qed.

Lemma response_data_markdown results md vis :
  response_data results md vis !! "markdown"
  = if truthy_opt md then Some (PStr (default "" md)) else None.
Proof. unfold response_data. destruct (truthy_opt md), (truthy_opt vis); reflexivity. Qed.

Lemma response_data_visualization results md vis :
  response_data results md vis !! "visualization"
  = if truthy_opt vis then Some (PStr (default "" vis)) else None.
Proof. unfold response_data. destruct (truthy_opt md), (truthy_opt vis); reflexivity. Qed.

Lemma response_data_other results md vis (k : string) :
  k ≠ "success" → k ≠ "results" → k ≠ "markdown" → k ≠ "visualization" →
  response_data results md vis !! k = None.
Proof.
  intros H1 H2 H3 H4. unfold response_data.
  destruct (truthy_opt md), (truthy_opt vis);
    repeat (rewrite lookup_insert_ne by congruence); apply lookup_empty.
Qed.

End ResponseData.

(** ** [base64]: decoding what was encoded *)

Module Base64Facts.
Import Base64 Base64Check.

Lemma all_bytes_complete (b : Byte.byte) : In b all_bytes.
Proof.
  assert (H : nth (N.to_nat (Byte.to_N b)) all_bytes Byte.x00 = b)
    by (destruct b; vm_compute; reflexivity).
  rewrite <- H. apply nth_In.
  assert (Hl : List.length all_bytes = 256%nat) by (vm_compute; reflexivity).
  rewrite Hl. pose proof (Byte.to_N_bounded b). lia.
Qed.

Lemma forall_byte (P : Byte.byte → bool) :
  forallb P all_bytes = true → ∀ a, P a = true.
Proof.
  intros H a. rewrite forallb_forall in H. apply H, all_bytes_complete.
Qed.

Lemma forall_byte2 (P : Byte.byte → Byte.byte → bool) :
  forallb (λ a, forallb (P a) all_bytes) all_bytes = true → ∀ a b, P a b = true.
Proof.
  intros H a b. apply (forall_byte (P a)). revert a. now apply forall_byte.
Qed.

Lemma digit_ok_spec (v : Z) :
  digit_ok v = true →
  Ascii.eqb (table_b2a v) BASE64_PAD = false ∧ table_a2b (table_b2a v) = Some v.
Proof.
  unfold digit_ok. intros H. apply andb_true_iff in H as [H1 H2].
  apply negb_true_iff in H1. split; [assumption|].
  destruct (table_a2b (table_b2a v)); [|discriminate].
  apply Z.eqb_eq in H2. now subst.
Qed.

Lemma check1_all (a : Byte.byte) : check1 a = true.
Proof. revert a. apply forall_byte. vm_compute. reflexivity. Qed.

Lemma check2_all (a b : Byte.byte) : check2 a b = true.
Proof. revert a b. apply forall_byte2. vm_compute. reflexivity. Qed.

Lemma byte_eqb_eq (x y : Byte.byte) : byte_eqb x y = true → x = y.
Proof. unfold byte_eqb. intros H. now apply Byte.byte_dec_bl. Qed.

Lemma facts1 (a : Byte.byte) :
  digit_ok (s1 a) = true ∧ digit_ok (s4 a) = true
  ∧ digit_ok (s2_last a) = true ∧ digit_ok (s3_last a) = true
  ∧ chr (Z.lor (Z.shiftl (s1 a) 2) (Z.shiftr (s2_last a) 4)) = a
  ∧ chr (Z.lor (Z.shiftl (Z.shiftr (ord a) 6) 6) (s4 a)) = a
  ∧ chr (Z.lor (Z.shiftl (Z.shiftr (ord a) 4) 4) (Z.shiftr (s3_last a) 2)) = a.
Proof.
  pose proof (check1_all a) as H. unfold check1 in H.
  rewrite !andb_true_iff in H.
  destruct H as [[[[[[H1 H2] H3] H4] H5] H6] H7].
  apply byte_eqb_eq in H5, H6, H7. tauto.
Qed.

Lemma facts2 (a b : Byte.byte) :
  digit_ok (s2 a b) = true ∧ digit_ok (s3 a b) = true
  ∧ chr (Z.lor (Z.shiftl (s1 a) 2) (Z.shiftr (s2 a b) 4)) = a
  ∧ Z.land (s2 a b) 15 = Z.shiftr (ord b) 4
  ∧ chr (Z.lor (Z.shiftl (Z.shiftr (ord a) 4) 4) (Z.shiftr (s3 a b) 2)) = a
  ∧ Z.land (s3 a b) 3 = Z.shiftr (ord b) 6.
Proof.
  pose proof (check2_all a b) as H. unfold check2 in H.
  rewrite !andb_true_iff in H.
  destruct H as [[[[[H1 H2] H3] H4] H5] H6].
  apply byte_eqb_eq in H3, H5. apply Z.eqb_eq in H4, H6. tauto.
Qed.

(** One digit read in the middle of a group. *)
Lemma a2b_loop_digit (ch : ascii) (s : string) (st : dstate) (v : Z) :
  Ascii.eqb ch BASE64_PAD = false →
  table_a2b ch = Some v →
  a2b_loop (String ch s) st
  = a2b_loop s
      (if quad_pos st =? 0 then DState 1 v 0 (out st)
       else if quad_pos st =? 1 then
         DState 2 (Z.land v 15) 0
           (out st ++ [chr (Z.lor (Z.shiftl (leftchar st) 2) (Z.shiftr v 4))])%list
       else if quad_pos st =? 2 then
         DState 3 (Z.land v 3) 0
           (out st ++ [chr (Z.lor (Z.shiftl (leftchar st) 4) (Z.shiftr v 2))])%list
       else
         DState 0 0 0 (out st ++ [chr (Z.lor (Z.shiftl (leftchar st) 6) v)])%list).
Proof. intros H1 H2. simpl. now rewrite H1, H2. Qed.

Lemma a2b_loop_digit_ok (v : Z) (s : string) (st : dstate) :
  digit_ok v = true →
  a2b_loop (String (table_b2a v) s) st
  = a2b_loop s
      (if quad_pos st =? 0 then DState 1 v 0 (out st)
       else if quad_pos st =? 1 then
         DState 2 (Z.land v 15) 0
           (out st ++ [chr (Z.lor (Z.shiftl (leftchar st) 2) (Z.shiftr v 4))])%list
       else if quad_pos st =? 2 then
         DState 3 (Z.land v 3) 0
           (out st ++ [chr (Z.lor (Z.shiftl (leftchar st) 4) (Z.shiftr v 2))])%list
       else
         DState 0 0 0 (out st ++ [chr (Z.lor (Z.shiftl (leftchar st) 6) v)])%list).
Proof.
  intros H. apply digit_ok_spec in H as [H1 H2]. now apply a2b_loop_digit.
Qed.

Lemma digit0 (v : Z) (s : string) (l p : Z) (acc : bytes) :
  digit_ok v = true →
  a2b_loop (String (table_b2a v) s) (DState 0 l p acc) = a2b_loop s (DState 1 v 0 acc).
Proof. intros H. now rewrite a2b_loop_digit_ok. Qed.

Lemma digit1 (v : Z) (s : string) (l p : Z) (acc : bytes) :
  digit_ok v = true →
  a2b_loop (String (table_b2a v) s) (DState 1 l p acc)
  = a2b_loop s (DState 2 (Z.land v 15) 0
                  (acc ++ [chr (Z.lor (Z.shiftl l 2) (Z.shiftr v 4))])%list).
Proof. intros H. now rewrite a2b_loop_digit_ok. Qed.

Lemma digit2 (v : Z) (s : string) (l p : Z) (acc : bytes) :
  digit_ok v = true →
  a2b_loop (String (table_b2a v) s) (DState 2 l p acc)
  = a2b_loop s (DState 3 (Z.land v 3) 0
                  (acc ++ [chr (Z.lor (Z.shiftl l 4) (Z.shiftr v 2))])%list).
Proof. intros H. now rewrite a2b_loop_digit_ok. Qed.

Lemma digit3 (v : Z) (s : string) (l p : Z) (acc : bytes) :
  digit_ok v = true →
  a2b_loop (String (table_b2a v) s) (DState 3 l p acc)
  = a2b_loop s (DState 0 0 0 (acc ++ [chr (Z.lor (Z.shiftl l 6) v)])%list).
Proof. intros H. now rewrite a2b_loop_digit_ok. Qed.

(** The pads that close a group of one byte and of two bytes. *)
Lemma pads_after_two (l : Z) (acc : bytes) :
  a2b_loop (String BASE64_PAD (String BASE64_PAD "")) (DState 2 l 0 acc) = inr acc.
Proof. reflexivity. Qed.

Lemma pad_after_three (l : Z) (acc : bytes) :
  a2b_loop (String BASE64_PAD "") (DState 3 l 0 acc) = inr acc.
Proof. reflexivity. Qed.

(** A full group of three bytes. *)
Lemma a2b_loop_group (a b c : Byte.byte) (s : string) (acc : bytes) :
  a2b_loop (String (table_b2a (s1 a)) (String (table_b2a (s2 a b))
             (String (table_b2a (s3 b c)) (String (table_b2a (s4 c)) s))))
           (DState 0 0 0 acc)
  = a2b_loop s (DState 0 0 0 (acc ++ [a; b; c])%list).
Proof.
  destruct (facts1 a) as (Ha1 & _).
  destruct (facts1 c) as (_ & Hc4 & _ & _ & _ & Hc & _).
  destruct (facts2 a b) as (Hab2 & _ & Ha & Hl2 & _).
  destruct (facts2 b c) as (_ & Hbc3 & _ & _ & Hb & Hl3).
  rewrite digit0, digit1, digit2, digit3 by assumption.
  rewrite Hl2, Hl3, Ha, Hb, Hc.
  now rewrite <- !app_assoc.
Qed.

Lemma a2b_loop_encoded (s : bytes) :
  ∀ acc, a2b_loop (b64encode s) (DState 0 0 0 acc) = inr (acc ++ s)%list.
Proof.
  assert (H : ∀ n (s : bytes), (List.length s <= n)%nat →
              ∀ acc, a2b_loop (b64encode s) (DState 0 0 0 acc) = inr (acc ++ s)%list).
  { clear s. induction n as [|n IH]; intros s Hn acc.
    - destruct s; [|simpl in Hn; lia]. simpl. now rewrite app_nil_r.
    - destruct s as [|a [|b [|c rest]]].
      + simpl. now rewrite app_nil_r.
      + destruct (facts1 a) as (Ha1 & _ & Ha2 & _ & Ha & _).
        change (b64encode [a]) with
          (String (table_b2a (s1 a)) (String (table_b2a (s2_last a))
             (String BASE64_PAD (String BASE64_PAD "")))).
        rewrite digit0, digit1 by assumption.
        rewrite Ha. apply pads_after_two.
      + destruct (facts1 a) as (Ha1 & _).
        destruct (facts1 b) as (_ & _ & _ & Hb3 & _ & _ & Hb).
        destruct (facts2 a b) as (Hab2 & _ & Ha & Hl2 & _).
        change (b64encode [a; b]) with
          (String (table_b2a (s1 a)) (String (table_b2a (s2 a b))
             (String (table_b2a (s3_last b)) (String BASE64_PAD "")))).
        rewrite digit0, digit1, digit2 by assumption.
        rewrite Hl2, Ha, Hb.
        rewrite pad_after_three. now rewrite <- !app_assoc.
      + change (b64encode (a :: b :: c :: rest)) with
          (String (table_b2a (s1 a)) (String (table_b2a (s2 a b))
             (String (table_b2a (s3 b c)) (String (table_b2a (s4 c)) (b64encode rest))))).
        rewrite a2b_loop_group.
        rewrite IH by (simpl in Hn; lia).
        now rewrite <- app_assoc. }
  intros acc. now apply (H (List.length s)).
Qed.

Lemma b64encode_is_ascii (s : bytes) : is_ascii (b64encode s) = true.
Proof.
  assert (Hd : ∀ v, is_ascii (String (table_b2a v) "") = true).
  { intros v. unfold table_b2a.
    destruct (String.get (Z.to_nat v) alphabet) as [c|] eqn:Hg; [|reflexivity].
    assert (Hall : ∀ n c, String.get n alphabet = Some c → (nat_of_ascii c <? 128)%nat = true).
    { intros n. do 65 (destruct n as [|n]; [intros ? [= <-]; reflexivity|]).
      intros ?; discriminate. }
    simpl. now rewrite (Hall _ _ Hg). }
  assert (Hcons : ∀ v t, is_ascii t = true → is_ascii (String (table_b2a v) t) = true).
  { intros v t Ht. specialize (Hd v). simpl in *. rewrite Ht.
    now rewrite andb_true_r in Hd |- *. }
  assert (H : ∀ n (s : bytes), (List.length s <= n)%nat → is_ascii (b64encode s) = true).
  { clear s. induction n as [|n IH]; intros s Hn.
    - destruct s; [reflexivity | simpl in Hn; lia].
    - destruct s as [|a [|b [|c rest]]]; [reflexivity| | |].
      + cbn [b64encode]. now repeat apply Hcons.
      + cbn [b64encode]. now repeat apply Hcons.
      + cbn [b64encode]. repeat apply Hcons. apply IH. simpl in Hn. lia. }
  now apply (H (List.length s)).
Qed.

Lemma b64encode_truthy (s : bytes) : s ≠ [] → Py.truthy (b64encode s) = true.
Proof. destruct s as [|a [|b [|c rest]]]; [congruence | reflexivity ..]. Qed.

End Base64Facts.

(** Decoding the encoding of any bytes gives the bytes back. *)
Lemma b64decode_b64encode (s : bytes) : b64decode (Base64.b64encode s) = inr s.
Proof.
  unfold b64decode. rewrite Base64Facts.b64encode_is_ascii.
  unfold Base64.a2b_base64. now rewrite Base64Facts.a2b_loop_encoded.
Qed.

(** ** The artifact basename *)

(** C1 fails on the code: the basename is the file name without its last
    four characters, whatever its extension.  For [scan.jpeg] it is
    [scan.] and for [README] it is [RE], where removing the extension
    gives [scan] and [README]; an upload [scan.pdf] gets its markdown
    [scan.md] back, the upload [scan.jpeg] does not. *)
Theorem artifact_basename_drops_four_characters :
  let run name :=
    process_pdf Scenario.get_ok InitOk Scenario.process_md Scenario.decode_text
      Scenario.mkdtemp (Some (Upload name [Byte.x25])) None false true Scenario.warm in
  artifact_basename (OsPath.join "/tmp/tmpk3v9" "scan.jpeg") = "scan."
  ∧ (OsPath.splitext "scan.jpeg").1 = "scan"
  ∧ artifact_basename (OsPath.join "/tmp/tmpk3v9" "README") = "RE"
  ∧ (OsPath.splitext "README").1 = "README"
  ∧ (∃ d, (run "scan.pdf").1.1 = inr d ∧ d !! "markdown" = Some (PStr "#"))
  ∧ (∃ d, (run "scan.jpeg").1.1 = inr d
          ∧ d !! "success" = Some (PBool true) ∧ d !! "markdown" = None).
Proof.
  vm_compute. repeat split; eexists; repeat split.
Qed.

(** ** A request without input *)


(** ** The workspace is removed *)

Lemma under_refl (d : string) : under d d = true.
Proof. unfold under. now rewrite String.eqb_refl. Qed.

Lemma rmtree_absent (d : string) (f : filesystem) : absent (rmtree d f) d.
Proof.
  intros p Hp. unfold path_exists, isfile, isdir, rmtree. simpl.
  apply orb_false_iff; split; apply bool_decide_eq_false.
  - intros [data Hdata]. apply map_lookup_filter_Some in Hdata as [_ Hf].
    simpl in Hf. congruence.
  - intros Hin. apply elem_of_filter in Hin as [Hf _]. congruence.
Qed.

Lemma quiet_cleans {A} (c : M A) : emits (λ ev, negb (is_mkdtemp ev)) c → cleans c.
Proof.
  intros Hc w d Hin. specialize (Hc w).
  rewrite Forall_forall in Hc. specialize (Hc _ Hin). discriminate.
Qed.

Lemma cleans_bind_quiet {A B} (c : M A) (k : A → M B) :
  emits (λ ev, negb (is_mkdtemp ev)) c → (∀ a, cleans (k a)) → cleans (c ≫= k).
Proof.
  intros Hc Hk w d. specialize (Hc w).
  unfold mbind, M_bind, bind.
  destruct (c w) as [[[e|a] w1] t1] eqn:Hcw; simpl in *.
  - intros Hin. rewrite Forall_forall in Hc. specialize (Hc _ Hin). discriminate.
  - specialize (Hk a w1 d). destruct (k a w1) as [[r w2] t2]. simpl in *.
    intros Hin. apply elem_of_app in Hin as [Hin|Hin]; [|auto].
    rewrite Forall_forall in Hc. specialize (Hc _ Hin). discriminate.
Qed.

Lemma with_TemporaryDirectory_cleans {A} (mkdtemp : filesystem → string)
    (body : string → M A) :
  (∀ d, emits (λ ev, negb (is_mkdtemp ev)) (body d)) →
  cleans (with_TemporaryDirectory mkdtemp body).
Proof.
  intros Hb w d. unfold with_TemporaryDirectory.
  set (w1 := World _ _).
  specialize (Hb (mkdtemp (fs w)) w1).
  destruct (body (mkdtemp (fs w)) w1) as [[r w2] t]. simpl in *.
  intros Hin. apply elem_of_cons in Hin as [Heq|Hin].
  - injection Heq as ->. apply rmtree_absent.
  - apply elem_of_app in Hin as [Hin|Hin].
    + rewrite Forall_forall in Hb. specialize (Hb _ Hin). discriminate.
    + apply list_elem_of_singleton in Hin. discriminate.
Qed.

Lemma bind_trace {A B} (c : M A) (k : A → M B) (w : world) (a : A) (w1 : world)
    (t0 : list effect) :
  c w = (inr a, w1, t0) → ((c ≫= k) w).2 = (t0 ++ (k a w1).2)%list.
Proof.
  intros H. unfold mbind, M_bind, bind. rewrite H.
  now destruct (k a w1) as [[r w2] t2].
Qed.

Lemma with_TemporaryDirectory_trace {A} (mkdtemp : filesystem → string)
    (body : string → M A) (w : world) :
  ∃ t, (with_TemporaryDirectory mkdtemp body w).2
       = (EvMkdtemp (mkdtemp (fs w)) :: t ++ [EvCleanup (mkdtemp (fs w))])%list.
Proof.
  unfold with_TemporaryDirectory.
  destruct (body _ _) as [[r w2] t]. now exists t.
Qed.

Section Workspace.
Context {Results : Type}.
Variable requests_get : string → pyexn + response.
Variable initialize_outcome : init_outcome.
Variable process :
  filesystem → option string → string → bool → bool → (pyexn + Results) * filesystem.
Variable decode_text : bytes → pyexn + string.
Variable mkdtemp : filesystem → string.
Variable format_exc : pyexn → string.

Lemma process_pdf_cleans file url visualize merge2markdown :
  cleans (process_pdf requests_get initialize_outcome process decode_text mkdtemp
            file url visualize merge2markdown).
Proof.
  unfold process_pdf.
  destruct (_ && _); [apply quiet_cleans, emits_raise|].
  apply with_TemporaryDirectory_cleans. intros d.
  apply emits_bind; [|intros file_path; apply emits_bind; [|intros results]].
  - unfold resolve_http. destruct file; [emits_auto|].
    destruct (truthy_opt url); [|emits_auto].
    apply emits_try_except; [|intros e; emits_auto].
    apply emits_bind; [now apply emits_download | intros ?; emits_auto].
  - now apply emits_process_pdf_file.
  - apply emits_assemble.
Qed.

Lemma handler_process_quiet temp_dir input_data file_path :
  emits (λ ev, negb (is_mkdtemp ev)) (handler_process process decode_text temp_dir input_data file_path).
Proof.
  unfold handler_process.
  apply emits_bind; [now apply emits_pipeline_process | intros results].
  apply emits_assemble.
Qed.

Lemma handler_try_cleans event :
  cleans (handler_try requests_get initialize_outcome process decode_text mkdtemp event).
Proof.
  unfold handler_try.
  apply cleans_bind_quiet; [auto with emits | intros g].
  apply cleans_bind_quiet.
  { destruct (_ || _); [now apply emits_initialize_models | auto with emits]. }
  intros _. apply with_TemporaryDirectory_cleans. intros d.
  apply emits_bind.
  - unfold resolve_event. destruct (file_base64 _) as [payload|]; [emits_auto|].
    destruct (url _) as [u|]; [|auto with emits].
    apply emits_try_except; [|intros e; auto with emits].
    apply emits_bind; [now apply emits_download | intros ?; auto with emits].
  - intros [early|file_path]; [auto with emits | apply handler_process_quiet].
Qed.

End Workspace.

(** C5: on both surfaces, whatever the collaborators do and however the
    request ends, every workspace the request created is absent from the
    file system afterwards -- the directory and everything below it; and a
    workspace is in fact created (and cleaned up last) whenever the request
    gets past its first check. *)
Theorem workspace_removed_on_every_exit {Results : Type}
    (requests_get : string → pyexn + response) (initialize_outcome : init_outcome)
    (process : filesystem → option string → string → bool → bool
               → (pyexn + Results) * filesystem)
    (decode_text : bytes → pyexn + string) (mkdtemp : filesystem → string)
    (format_exc : pyexn → string) (w : world) :
  (∀ file url visualize merge2markdown,
     let r := process_pdf requests_get initialize_outcome process decode_text mkdtemp
                file url visualize merge2markdown w in
     (∀ d, EvMkdtemp d ∈ r.2 → absent (fs r.1.2) d)
     ∧ (file ≠ None ∨ url ≠ None →
        ∃ t, r.2 = (EvMkdtemp (mkdtemp (fs w)) :: t ++ [EvCleanup (mkdtemp (fs w))])%list))
  ∧ (∀ event,
       let r := handler requests_get initialize_outcome process decode_text mkdtemp
                  format_exc event w in
       (∀ d, EvMkdtemp d ∈ r.2 → absent (fs r.1.2) d)
       ∧ (task_instances (glob w) && pdf_extract_task (glob w) = true
          ∨ initialize_outcome = InitOk →
          ∃ t0 t, r.2 = (t0 ++ EvMkdtemp (mkdtemp (fs w)) :: t
                            ++ [EvCleanup (mkdtemp (fs w))])%list)).
Proof.
  split.
  - intros file url visualize merge2markdown r. split.
    + intros d. apply process_pdf_cleans.
    + intros Hgiven. subst r. unfold process_pdf.
      destruct file as [f|]; [apply with_TemporaryDirectory_trace|].
      destruct url as [u|]; [apply with_TemporaryDirectory_trace|].
      destruct Hgiven; congruence.
  - intros event r.
    assert (Hr : r.2 = (handler_try requests_get initialize_outcome process decode_text
                          mkdtemp event w).2
                 ∧ r.1.2 = (handler_try requests_get initialize_outcome process decode_text
                              mkdtemp event w).1.2).
    { subst r. unfold handler. now destruct (handler_try _ _ _ _ _ _ _) as [[[e|d] w'] t]. }
    destruct Hr as [Ht Hw]. rewrite Ht, Hw. split.
    + intros d. apply handler_try_cleans.
    + intros Hinit. unfold handler_try.
      destruct w as [f [ti pt]]. simpl in Hinit.
      rewrite (bind_trace get_glob _ (World f (Globals ti pt)) (Globals ti pt)
                 (World f (Globals ti pt)) [] eq_refl).
      assert (Hready : ∃ g t0,
        (if negb ti || negb pt then initialize_models initialize_outcome else ret tt)
          (World f (Globals ti pt)) = (inr tt, World f g, t0)).
      { destruct ti, pt, initialize_outcome; simpl in *;
          try (destruct Hinit; congruence); eauto. }
      destruct Hready as (g & t0 & Hready).
      cbn [pdf_extract_task task_instances].
      rewrite (bind_trace _ _ _ _ _ _ Hready).
      match goal with
      | |- context [(with_TemporaryDirectory ?m ?b ?w0).2] =>
          destruct (with_TemporaryDirectory_trace m b w0) as [t Htr]; rewrite Htr
      end.
      now exists t0, t.
Qed.

(** ** The envelope *)

Lemma returns_all {A} (Q : A → Prop) (c : M A) : (∀ a, Q a) → returns Q c.
Proof. intros H w a w' t _. apply H. Qed.

Lemma returns_weaken {A} (Q1 Q : A → Prop) (c : M A) :
  returns Q1 c → (∀ a, Q1 a → Q a) → returns Q c.
Proof. intros Hc HQ w a w' t H. eapply HQ, Hc, H. Qed.

Section Envelope.
Context {Results : Type}.
Variable requests_get : string → pyexn + response.
Variable initialize_outcome : init_outcome.
Variable process :
  filesystem → option string → string → bool → bool → (pyexn + Results) * filesystem.
Variable decode_text : bytes → pyexn + string.
Variable mkdtemp : filesystem → string.
Variable format_exc : pyexn → string.

(** What [assemble] returns is a success envelope, and an artifact that
    was not asked for is not in it. *)
Lemma assemble_returns temp_dir file_path visualize merge2markdown (results : Results) :
  returns (λ d, ∃ md vis, d = response_data results md vis
                          ∧ (merge2markdown = false → md = None)
                          ∧ (visualize = false → vis = None))
    (assemble decode_text temp_dir file_path visualize merge2markdown results).
Proof.
  unfold assemble.
  apply (returns_bind (λ md, merge2markdown = false → md = None)).
  { unfold read_markdown. destruct merge2markdown.
    - apply returns_all. discriminate.
    - now apply returns_ret. }
  intros md Hmd.
  apply (returns_bind (λ vis, visualize = false → vis = None)).
  { unfold read_visualization. destruct visualize.
    - apply returns_all. discriminate.
    - now apply returns_ret. }
  intros vis Hvis. apply returns_ret. now exists md, vis.
Qed.

Lemma process_pdf_returns file url visualize merge2markdown :
  returns (λ d, ∃ results md vis, d = response_data results md vis
                                  ∧ (merge2markdown = false → md = None)
                                  ∧ (visualize = false → vis = None))
    (process_pdf requests_get initialize_outcome process decode_text mkdtemp
       file url visualize merge2markdown).
Proof.
  unfold process_pdf. destruct (_ && _); [apply returns_raise|].
  apply returns_with_TemporaryDirectory. intros d.
  apply returns_bind_any. intros file_path.
  apply returns_bind_any. intros results.
  eapply returns_weaken; [apply assemble_returns|].
  intros a (md & vis & H). now exists results, md, vis.
Qed.

Lemma handler_process_returns temp_dir input_data file_path :
  returns (λ d, ∃ results md vis, d = response_data results md vis
                  ∧ (merge2markdown input_data = Some false → md = None)
                  ∧ (default false (visualize input_data) = false → vis = None))
    (handler_process process decode_text temp_dir input_data file_path).
Proof.
  unfold handler_process.
  apply returns_bind_any. intros results.
  eapply returns_weaken; [apply assemble_returns|].
  intros a (md & vis & -> & Hmd & Hvis).
  exists results, md, vis. repeat split; [|assumption].
  intros Hm. apply Hmd. now rewrite Hm.
Qed.

(** What the [try] body of [handler] returns: a success envelope or a
    mapping with the single key [error]. *)
Lemma handler_try_returns event :
  returns (λ d, (∃ msg, d = {[ "error" := PStr msg ]})
                ∨ (∃ results md vis, d = response_data results md vis
                     ∧ (merge2markdown (default empty_input (input event)) = Some false
                        → md = None)
                     ∧ (default false (visualize (default empty_input (input event)))
                        = false → vis = None)))
    (handler_try requests_get initialize_outcome process decode_text mkdtemp event).
Proof.
  unfold handler_try.
  apply returns_bind_any. intros g.
  apply returns_bind_any. intros _.
  apply returns_with_TemporaryDirectory. intros d.
  apply (returns_bind
           (λ r, match r with
                 | inl early => ∃ msg, early = ({[ "error" := PStr msg ]}
                                                : gmap string (pyval Results))
                 | inr _ => True
                 end)).
  - unfold resolve_event. destruct (file_base64 _) as [payload|].
    + apply returns_bind_any. intros file_data.
      apply returns_bind_any. intros _. now apply returns_ret.
    + destruct (url _) as [u|]; [|apply returns_ret; eauto].
      apply returns_try_except.
      * apply returns_bind_any. intros file_path. now apply returns_ret.
      * intros e. apply returns_ret. eauto.
  - intros [early|file_path] H.
    + apply returns_ret. now left.
    + eapply returns_weaken; [apply handler_process_returns|].
      intros a Ha. now right.
Qed.

End Envelope.

(** C7: with [merge2markdown] false the success envelope of either surface
    has no [markdown] key, whatever files the pipeline left in the
    workspace. *)
Theorem no_markdown_key_without_merge {Results : Type}
    (requests_get : string → pyexn + response) (initialize_outcome : init_outcome)
    (process : filesystem → option string → string → bool → bool
               → (pyexn + Results) * filesystem)
    (decode_text : bytes → pyexn + string) (mkdtemp : filesystem → string)
    (format_exc : pyexn → string) (w : world) :
  (∀ file url visualize d w' t,
     process_pdf requests_get initialize_outcome process decode_text mkdtemp
       file url visualize false w = (inr d, w', t) →
     d !! "success" = Some (PBool true) ∧ d !! "markdown" = None)
  ∧ (∀ event,
       merge2markdown (default empty_input (input event)) = Some false →
       (handler requests_get initialize_outcome process decode_text mkdtemp
          format_exc event w).1.1 !! "markdown" = None).
Proof.
  split.
  - intros file url visualize d w' t Hrun.
    apply process_pdf_returns in Hrun as (results & md & vis & -> & Hmd & _).
    rewrite (Hmd eq_refl). split; [apply response_data_success|].
    now rewrite response_data_markdown.
  - intros event Hm. unfold handler.
    destruct (handler_try _ _ _ _ _ _ _) as [[[e|d] w'] t] eqn:Hrun; simpl.
    + reflexivity.
    + apply handler_try_returns in Hrun as [[msg ->] | (results & md & vis & -> & Hmd & _)].
      * reflexivity.
      * rewrite (Hmd Hm). now rewrite response_data_markdown.
Qed.

(** ** Failures on the event surface *)



(** ** Which input is used *)

Lemma emits_with_TemporaryDirectory {A} (P : effect → bool) (mkdtemp : filesystem → string)
    (body : string → M A) :
  (∀ d, P (EvMkdtemp d) = true) → (∀ d, P (EvCleanup d) = true) →
  (∀ d, emits P (body d)) → emits P (with_TemporaryDirectory mkdtemp body).
Proof.
  intros H1 H2 Hb w. unfold with_TemporaryDirectory.
  set (w1 := World _ _). specialize (Hb (mkdtemp (fs w)) w1).
  destruct (body _ _) as [[r w2] t]. simpl in *.
  constructor; [apply H1|]. apply Forall_app. split; [assumption|].
  constructor; [apply H2 | constructor].
Qed.

(** C10: a request that carries a file and a URL is answered from the
    file alone.  On the HTTP surface the run with an uploaded file is the
    same for any [url] field and any behaviour of the network, and
    [requests.get] is not called; on the event surface the same holds for
    [file_base64] against [url]. *)
Theorem file_variant_takes_precedence {Results : Type}
    (initialize_outcome : init_outcome)
    (process : filesystem → option string → string → bool → bool
               → (pyexn + Results) * filesystem)
    (decode_text : bytes → pyexn + string) (mkdtemp : filesystem → string)
    (format_exc : pyexn → string) (w : world)
    (requests_get requests_get' : string → pyexn + response) (url url' : option string) :
  (∀ f visualize merge2markdown,
     process_pdf requests_get initialize_outcome process decode_text mkdtemp
       (Some f) url visualize merge2markdown w
     = process_pdf requests_get' initialize_outcome process decode_text mkdtemp
         (Some f) url' visualize merge2markdown w
     ∧ Forall (λ ev, is_get ev = false)
         (process_pdf requests_get initialize_outcome process decode_text mkdtemp
            (Some f) url visualize merge2markdown w).2)
  ∧ (∀ payload visualize merge2markdown,
       handler requests_get initialize_outcome process decode_text mkdtemp format_exc
         (Request (Some (InputData (Some payload) url visualize merge2markdown))) w
       = handler requests_get' initialize_outcome process decode_text mkdtemp format_exc
           (Request (Some (InputData (Some payload) url' visualize merge2markdown))) w
       ∧ Forall (λ ev, is_get ev = false)
           (handler requests_get initialize_outcome process decode_text mkdtemp format_exc
              (Request (Some (InputData (Some payload) url visualize merge2markdown))) w).2).
Proof.
  split.
  - intros f visualize merge2markdown. split; [reflexivity|].
    assert (H : emits (λ ev, negb (is_get ev))
                  (process_pdf requests_get initialize_outcome process decode_text mkdtemp
                     (Some f) url visualize merge2markdown)).
    { unfold process_pdf. cbn [bool_decide andb].
      apply emits_with_TemporaryDirectory; [reflexivity .. |]. intros d.
      apply emits_bind; [|intros file_path; apply emits_bind; [|intros results]].
      - unfold resolve_http. emits_auto.
      - now apply emits_process_pdf_file.
      - apply emits_assemble. }
    specialize (H w). eapply Forall_impl; [exact H|].
    intros ev Hev. now apply negb_true_iff.
  - intros payload visualize merge2markdown. split; [reflexivity|].
    assert (H : emits (λ ev, negb (is_get ev))
                  (handler_try requests_get initialize_outcome process decode_text mkdtemp
                     (Request (Some (InputData (Some payload) url visualize merge2markdown))))).
    { unfold handler_try.
      apply emits_bind; [auto with emits | intros g].
      apply emits_bind.
      { destruct (_ || _); [now apply emits_initialize_models | auto with emits]. }
      intros _. apply emits_with_TemporaryDirectory; [reflexivity .. |]. intros d.
      apply emits_bind.
      - unfold resolve_event. cbn [input default file_base64 from_option].
        apply emits_bind; [auto with emits | intros file_data].
        apply emits_bind; [auto with emits | intros _]. auto with emits.
      - intros [early|file_path]; [auto with emits|].
        unfold handler_process.
        apply emits_bind; [now apply emits_pipeline_process | intros results].
        apply emits_assemble. }
    specialize (H w). unfold handler.
    destruct (handler_try _ _ _ _ _ _ _) as [[[e|d] w'] t]; simpl in *;
      (eapply Forall_impl; [exact H|]; intros ev Hev; now apply negb_true_iff).
Qed.

(** ** The extension of a downloaded file *)

(** The claim C2 as stated fails at a URL whose last component is a
    dot-file: it ends in [.jpg], and [os.path.splitext] gives it no
    extension. *)
Lemma url_ending_jpg_without_extension :
  Py.endswith "http://host/.jpg" ".jpg" = true
  ∧ infer_ext "" "http://host/.jpg" = ".pdf".
Proof. split; reflexivity. Qed.

(** C2, amended: the extension follows the precedence of the source --
    [pdf] in the lower-cased content type, else [image] in it, else the
    extension [os.path.splitext] finds in the URL, else [.pdf]; with an
    empty content type a URL ending in [.jpg] gives [.jpg] when the last
    component has a character other than a dot before that suffix; and
    the body is written to [os.path.join(temp_dir, "downloaded" + ext)]. *)
Theorem extension_precedence (requests_get : string → pyexn + response)
    (temp_dir : string) :
  (∀ ctype url,
     infer_ext ctype url
     = (if Py.contains "pdf" (Py.lower ctype) then ".pdf"
        else if Py.contains "image" (Py.lower ctype) then ".png"
        else if Py.truthy (OsPath.splitext url).2 then (OsPath.splitext url).2
        else ".pdf"))
  ∧ (∀ url, infer_ext "application/pdf" url = ".pdf")
  ∧ (∀ url, infer_ext "Application/PDF" url = ".pdf")
  ∧ (∀ url, infer_ext "image/png" url = ".png")
  ∧ (∀ d c m,
       c ≠ "/"%char → c ≠ "."%char → Py.has_char "/" m = false →
       infer_ext "" (d ++ String c m ++ ".jpg") = ".jpg")
  ∧ (∀ url, (OsPath.splitext url).2 = "" → infer_ext "" url = ".pdf")
  ∧ (∀ url w resp f',
       requests_get url = inr resp →
       raise_for_status resp = inr tt →
       let ext := infer_ext (default "" (content_type resp)) url in
       let file_path := OsPath.join temp_dir ("downloaded" ++ ext) in
       write_file (fs w) file_path (content resp) = inr f' →
       download requests_get temp_dir url w
       = (inr file_path, World f' (glob w), [EvGet url])).
Proof.
  split; [|split; [|split; [|split; [|split; [|split]]]]]; try reflexivity.
  - intros ctype url. unfold infer_ext. destruct (Py.contains "pdf" _); [reflexivity|].
    destruct (Py.contains "image" _); [reflexivity|].
    now destruct (Py.truthy _).
  - intros d c m Hc1 Hc2 Hm. unfold infer_ext. cbn [Py.lower Py.contains Py.startswith orb].
    change ".jpg" with (String OsPath.extsep "jpg").
    now rewrite splitext_suffix.
  - intros url H. unfold infer_ext. cbn [Py.lower Py.contains Py.startswith orb].
    now rewrite H.
  - intros url w resp f' Hget Hst ext file_path Hw.
    unfold download, open_wb. unfold_monad. cbn.
    rewrite Hget, Hst. subst ext file_path. cbn in Hw |- *. now rewrite Hw.
Qed.

(** ** The visualization artifact *)

Lemma path_exists_file (f : filesystem) (p : string) (data : bytes) :
  files f !! p = Some data → path_exists f p = true.
Proof.
  intros H. unfold path_exists, isfile. rewrite H.
  now rewrite bool_decide_eq_true_2 by eauto.
Qed.

(** The visualization stage on a [.pdf] input when no [.png] was
    rendered: it reads the [.pdf] of the artifact basename. *)
Lemma read_visualization_fallback (temp_dir file_path : string) (w : world) (data : bytes) :
  Py.endswith file_path ".pdf" = true →
  path_exists (fs w) (OsPath.join temp_dir (artifact_basename file_path ++ ".png")) = false →
  files (fs w) !! OsPath.join temp_dir (artifact_basename file_path ++ ".pdf") = Some data →
  read_visualization temp_dir (Some file_path) true w
  = (inr (Some (Base64.b64encode data)), w, []).
Proof.
  intros Hpdf Hpng Hfile.
  unfold read_visualization, basename_of, os_path_exists, open_rb, read_file.
  unfold_monad. cbn. rewrite Hpng. cbn. rewrite Hpdf.
  rewrite (path_exists_file _ _ _ Hfile). rewrite Hfile.
  now destruct w.
Qed.

(** The claim C8 as stated fails when the [.pdf] artifact is an empty
    file: it exists, it is read and encoded, and the envelope has no
    [visualization] key. *)
Lemma empty_pdf_artifact_is_left_out :
  let f := MkFS {[ "/tmp/tmpk3v9/a.pdf" := [] ]} {[ "/tmp"; "/tmp/tmpk3v9" ]} in
  let r := assemble Scenario.decode_text "/tmp/tmpk3v9" (Some "/tmp/tmpk3v9/a.pdf")
             true false "[]" (World f (Globals true true)) in
  path_exists f "/tmp/tmpk3v9/a.png" = false
  ∧ path_exists f "/tmp/tmpk3v9/a.pdf" = true
  ∧ ∃ d, r.1.1 = inr d ∧ d !! "success" = Some (PBool true) ∧ d !! "visualization" = None.
Proof.
  vm_compute. repeat split. eexists. repeat split.
Qed.

(** C8, amended: with [visualize] true and an input path ending in
    [.pdf], when [<basename>.png] is absent from the workspace and
    [<basename>.pdf] is a file there, the assembler reads that file,
    encodes it in base64 and, the file being non-empty, puts it under the
    [visualization] key of the success envelope. *)
Theorem pdf_visualization_fallback {Results : Type}
    (decode_text : bytes → pyexn + string) (temp_dir file_path : string)
    (merge2markdown : bool) (results : Results) (w : world) (data : bytes)
    (md : option string) :
  Py.endswith file_path ".pdf" = true →
  path_exists (fs w) (OsPath.join temp_dir (artifact_basename file_path ++ ".png")) = false →
  files (fs w) !! OsPath.join temp_dir (artifact_basename file_path ++ ".pdf") = Some data →
  data ≠ [] →
  read_markdown decode_text temp_dir (Some file_path) merge2markdown w = (inr md, w, []) →
  assemble decode_text temp_dir (Some file_path) true merge2markdown results w
  = (inr (response_data results md (Some (Base64.b64encode data))), w, [])
  ∧ response_data results md (Some (Base64.b64encode data)) !! "visualization"
    = Some (PStr (Base64.b64encode data)).
Proof.
  intros Hpdf Hpng Hfile Hne Hmd. split.
  - unfold assemble. unfold mbind, M_bind, bind. rewrite Hmd.
    rewrite (read_visualization_fallback _ _ _ _ Hpdf Hpng Hfile). reflexivity.
  - rewrite response_data_visualization. cbn [truthy_opt].
    now rewrite Base64Facts.b64encode_truthy.
Qed.

(** ** The fallback path and the input file *)

Lemma rfind_from_lt_absent (c : ascii) (s : string) (k last : Z) (n : nat) :
  last < k →
  Py.rfind_from c s k last < k + Z.of_nat n →
  Py.has_char c (Py.drop n s) = false.
Proof.
  revert k last n; induction s as [|a s IH]; intros k last n Hl H.
  - now destruct n.
  - destruct n as [|n]; simpl in *.
    + destruct (Ascii.eqb a c) eqn:Hac.
      * pose proof (rfind_from_bounds c s (k + 1) k ltac:(lia)). lia.
      * simpl. apply (IH (k + 1) last 0%nat); lia.
    + destruct (Ascii.eqb a c).
      * apply (IH (k + 1) k n); lia.
      * apply (IH (k + 1) last n); lia.
Qed.

Lemma slice_from_after_rfind (c : ascii) (s : string) (i : Z) :
  Py.rfind c s < i → Py.has_char c (Py.slice_from s i) = false.
Proof.
  intros H. pose proof (rfind_bounds c s) as Hb. pose proof (len_nonneg s) as Hl.
  unfold Py.slice_from.
  apply (rfind_from_lt_absent c s 0 (-1)); [lia|].
  fold (Py.rfind c s). unfold Py.bound.
  destruct (Z.ltb_spec i 0); lia.
Qed.

Lemma splitext_scan_result (fuel : nat) (p : string) (i dotIndex : Z) (r : string * string) :
  OsPath.splitext_scan fuel p i dotIndex = Some r →
  r = (Py.slice_to p dotIndex, Py.slice_from p dotIndex).
Proof.
  revert i; induction fuel as [|fuel IH]; intros i; simpl; [discriminate|].
  destruct (i <? dotIndex); [|discriminate].
  destruct (negb _); [now intros [= <-] | apply IH].
Qed.

(** The extension [splitext] returns never holds a path separator. *)
Lemma splitext_ext_no_sep (p : string) :
  Py.has_char OsPath.sep (OsPath.splitext p).2 = false.
Proof.
  unfold OsPath.splitext.
  destruct (Z.gtb_spec (Py.rfind OsPath.extsep p) (Py.rfind OsPath.sep p)) as [Hgt|];
    [|reflexivity].
  destruct (OsPath.splitext_scan _ _ _ _) as [r|] eqn:Hscan; [|reflexivity].
  apply splitext_scan_result in Hscan as ->. simpl.
  apply slice_from_after_rfind. lia.
Qed.

Lemma infer_ext_no_sep (ctype url : string) :
  Py.has_char OsPath.sep (infer_ext ctype url) = false.
Proof.
  unfold infer_ext.
  destruct (Py.contains "pdf" _); [reflexivity|].
  destruct (Py.contains "image" _); [reflexivity|].
  destruct (negb _); [reflexivity | apply splitext_ext_no_sep].
Qed.

(** The claim C9 as stated fails when the pipeline renders its
    visualization over [<basename>.pdf], which is the input file itself:
    the field holds the rendered bytes, not the input's. *)
Lemma visualization_is_not_the_input :
  let payload := "JVBERg==" in
  let r := handler Scenario.get_ok InitOk Scenario.process_render Scenario.decode_text
             Scenario.mkdtemp Scenario.format_exc
             (Request (Some (InputData (Some payload) None (Some true) None)))
             Scenario.warm in
  b64decode payload = inr [Byte.x25; Byte.x50; Byte.x44; Byte.x46]
  ∧ r.1.1 !! "success" = Some (PBool true)
  ∧ r.1.1 !! "visualization" = Some (PStr "dmlz")
  ∧ Base64.b64encode [Byte.x25; Byte.x50; Byte.x44; Byte.x46] = "JVBERg=="
  ∧ "dmlz" ≠ "JVBERg==".
Proof.
  vm_compute. repeat split. discriminate.
Qed.

(** C9, amended: for an input file named without a directory part and
    ending in [.pdf] -- every input of the event surface is named so --
    the fallback path is the input file's own path; hence with
    [visualize] true and no [<basename>.png], the [visualization] field is
    the base64 text of the bytes that path holds once the pipeline has
    run, and it is present exactly when those bytes are not empty. *)
Theorem fallback_reads_the_input_path {Results : Type}
    (decode_text : bytes → pyexn + string) (temp_dir name : string)
    (merge2markdown : bool) (results : Results) (w : world) (data : bytes)
    (md : option string) :
  Py.has_char "/" name = false →
  Py.endswith name ".pdf" = true →
  let file_path := OsPath.join temp_dir name in
  OsPath.join temp_dir (artifact_basename file_path ++ ".pdf") = file_path
  ∧ Py.has_char "/" "input.pdf" = false
  ∧ (∀ ctype url, Py.has_char "/" ("downloaded" ++ infer_ext ctype url) = false)
  ∧ (path_exists (fs w) (OsPath.join temp_dir (artifact_basename file_path ++ ".png")) = false →
     files (fs w) !! file_path = Some data →
     read_markdown decode_text temp_dir (Some file_path) merge2markdown w = (inr md, w, []) →
     assemble decode_text temp_dir (Some file_path) true merge2markdown results w
     = (inr (response_data results md (Some (Base64.b64encode data))), w, [])
     ∧ response_data results md (Some (Base64.b64encode data)) !! "visualization"
       = match data with
         | [] => None
         | _ => Some (PStr (Base64.b64encode data))
         end).
Proof.
  intros Hname Hpdf file_path.
  assert (Hsame : OsPath.join temp_dir (artifact_basename file_path ++ ".pdf") = file_path)
    by now apply fallback_path_is_input.
  split; [exact Hsame|]. split; [reflexivity|]. split.
  { intros ctype url. rewrite has_char_app. apply infer_ext_no_sep. }
  intros Hpng Hfile Hmd. split.
  - unfold assemble. unfold mbind, M_bind, bind. rewrite Hmd.
    rewrite (read_visualization_fallback temp_dir file_path w data); [reflexivity | | assumption |].
    + now apply join_endswith.
    + now rewrite Hsame.
  - rewrite response_data_visualization.
    destruct data as [|b data]; [reflexivity|].
    cbn [truthy_opt]. now rewrite Base64Facts.b64encode_truthy.
Qed.

(** ** What the resolver writes *)

Lemma write_file_lookup (f f' : filesystem) (p : string) (data : bytes) :
  write_file f p data = inr f' → files f' !! p = Some data.
Proof.
  unfold write_file. destruct (_ || _); [discriminate|].
  destruct (isdir _ _); [|discriminate].
  intros [= <-]. apply lookup_insert_eq.
Qed.

(** C6: each of the three resolvers, when the network answers and the
    file system takes the write, returns the path of a file that holds
    exactly the source bytes -- the upload's bytes, the body of the
    response, the decoded payload; and a payload that is the base64
    encoding of some bytes puts those very bytes on disk. *)
Theorem resolved_file_holds_source_bytes {Results : Type}
    (requests_get : string → pyexn + response) (temp_dir : string) (w : world) :
  (* UploadedFile *)
  (∀ f url f',
     let file_path := OsPath.join temp_dir (filename f) in
     write_file (fs w) file_path (upload_bytes f) = inr f' →
     resolve_http requests_get temp_dir (Some f) url w
     = (inr (Some file_path), World f' (glob w), [])
     ∧ files f' !! file_path = Some (upload_bytes f))
  (* RemoteReference, HTTP surface *)
  ∧ (∀ url resp f',
       Py.truthy url = true →
       requests_get url = inr resp →
       raise_for_status resp = inr tt →
       let file_path :=
         OsPath.join temp_dir
           ("downloaded" ++ infer_ext (default "" (content_type resp)) url) in
       write_file (fs w) file_path (content resp) = inr f' →
       resolve_http requests_get temp_dir None (Some url) w
       = (inr (Some file_path), World f' (glob w), [EvGet url])
       ∧ files f' !! file_path = Some (content resp))
  (* RemoteReference, event surface *)
  ∧ (∀ inp u resp f',
       file_base64 inp = None →
       url inp = Some u →
       requests_get u = inr resp →
       raise_for_status resp = inr tt →
       let file_path :=
         OsPath.join temp_dir
           ("downloaded" ++ infer_ext (default "" (content_type resp)) u) in
       write_file (fs w) file_path (content resp) = inr f' →
       resolve_event (Results:=Results) requests_get temp_dir inp w
       = (inr (inr file_path), World f' (glob w), [EvGet u])
       ∧ files f' !! file_path = Some (content resp))
  (* EncodedPayload *)
  ∧ (∀ inp payload data f',
       file_base64 inp = Some payload →
       b64decode payload = inr data →
       let file_path := OsPath.join temp_dir "input.pdf" in
       write_file (fs w) file_path data = inr f' →
       resolve_event (Results:=Results) requests_get temp_dir inp w
       = (inr (inr file_path), World f' (glob w), [])
       ∧ files f' !! file_path = Some data)
  (* EncodedPayload, from the bytes that were encoded *)
  ∧ (∀ inp data f',
       file_base64 inp = Some (Base64.b64encode data) →
       let file_path := OsPath.join temp_dir "input.pdf" in
       write_file (fs w) file_path data = inr f' →
       resolve_event (Results:=Results) requests_get temp_dir inp w
       = (inr (inr file_path), World f' (glob w), [])
       ∧ files f' !! file_path = Some data).
Proof.
  assert (Hb64 : ∀ inp payload data f',
    file_base64 inp = Some payload →
    b64decode payload = inr data →
    write_file (fs w) (OsPath.join temp_dir "input.pdf") data = inr f' →
    resolve_event (Results:=Results) requests_get temp_dir inp w
    = (inr (inr (OsPath.join temp_dir "input.pdf")), World f' (glob w), [])
    ∧ files f' !! OsPath.join temp_dir "input.pdf" = Some data).
  { intros inp payload data f' Hf Hdec Hw.
    split; [|now apply write_file_lookup in Hw].
    unfold resolve_event, open_wb. rewrite Hf. unfold_monad. cbn.
    rewrite Hdec. cbn in Hw |- *. now rewrite Hw. }
  assert (Hdl : ∀ url resp f',
    requests_get url = inr resp →
    raise_for_status resp = inr tt →
    write_file (fs w)
      (OsPath.join temp_dir ("downloaded" ++ infer_ext (default "" (content_type resp)) url))
      (content resp) = inr f' →
    download requests_get temp_dir url w
    = (inr (OsPath.join temp_dir
              ("downloaded" ++ infer_ext (default "" (content_type resp)) url)),
       World f' (glob w), [EvGet url])).
  { intros url resp f' Hget Hst Hw.
    unfold download, open_wb. unfold_monad. cbn.
    rewrite Hget, Hst. cbn in Hw |- *. now rewrite Hw. }
  split; [|split; [|split; [|split]]].
  - intros f url f' file_path Hw. split; [|now apply write_file_lookup in Hw].
    unfold resolve_http, open_wb. unfold_monad. cbn.
    subst file_path. cbn in Hw |- *. now rewrite Hw.
  - intros url resp f' Hurl Hget Hst file_path Hw.
    split; [|now apply write_file_lookup in Hw].
    unfold resolve_http. change (default "" (Some url)) with url.
    cbn [truthy_opt]. rewrite Hurl.
    unfold try_except, mbind, M_bind, bind.
    now rewrite (Hdl _ _ _ Hget Hst Hw).
  - intros inp u resp f' Hf Hu Hget Hst file_path Hw.
    split; [|now apply write_file_lookup in Hw].
    unfold resolve_event. rewrite Hf, Hu.
    unfold try_except, mbind, M_bind, bind.
    now rewrite (Hdl _ _ _ Hget Hst Hw).
  - intros inp payload data f' Hf Hdec file_path Hw. now apply (Hb64 _ payload).
  - intros inp data f' Hf file_path Hw.
    apply (Hb64 _ (Base64.b64encode data)); [assumption | apply b64decode_b64encode | assumption].
Qed.

(** ** The theorems at work on the concrete deployment *)

Lemma extension_precedence_witness :
  infer_ext "" "http://host/a/photo.jpg" = ".jpg"
  ∧ infer_ext "" "http://host/a/doc" = ".pdf"
  ∧ download Scenario.get_ok "/tmp/tmpk3v9" "http://host/a/photo.jpg" Scenario.inside
    = (inr "/tmp/tmpk3v9/downloaded.jpg",
       World (MkFS (<["/tmp/tmpk3v9/downloaded.jpg" := [Byte.x25]]> ∅)
                   ({[ "/tmp/tmpk3v9" ]} ∪ {[ "/tmp" ]}))
             (Globals true true),
       [EvGet "http://host/a/photo.jpg"]).
Proof.
  destruct (extension_precedence Scenario.get_ok "/tmp/tmpk3v9")
    as (_ & _ & _ & _ & Hjpg & Hnone & Hdl).
  split; [|split].
  - apply (Hjpg "http://host/a/" "p"%char "hoto"); [discriminate | discriminate | reflexivity].
  - apply Hnone. reflexivity.
  - apply (Hdl "http://host/a/photo.jpg" Scenario.inside
             (Response 200 "OK" "http://host/a/photo.jpg" None [Byte.x25]));
      reflexivity.
Defined.



Lemma workspace_removed_on_every_exit_witness :
  let r1 := process_pdf Scenario.get_ok InitOk Scenario.process_raises Scenario.decode_text
              Scenario.mkdtemp (Some (Upload "a.pdf" [Byte.x25])) None true true
              Scenario.warm in
  let r2 := handler Scenario.get_ok InitOk Scenario.process_md Scenario.decode_text
              Scenario.mkdtemp Scenario.format_exc
              (Request (Some (InputData None (Some "http://host/a.pdf") None None)))
              Scenario.cold in
  absent (fs r1.1.2) "/tmp/tmpk3v9"
  ∧ (∃ t, r1.2 = (EvMkdtemp "/tmp/tmpk3v9" :: t ++ [EvCleanup "/tmp/tmpk3v9"])%list)
  ∧ absent (fs r2.1.2) "/tmp/tmpk3v9"
  ∧ (∃ t0 t, r2.2 = (t0 ++ EvMkdtemp "/tmp/tmpk3v9" :: t
                        ++ [EvCleanup "/tmp/tmpk3v9"])%list).
Proof.
  intros r1 r2.
  destruct (workspace_removed_on_every_exit Scenario.get_ok InitOk Scenario.process_raises
              Scenario.decode_text Scenario.mkdtemp Scenario.format_exc Scenario.warm)
    as [Hhttp _].
  destruct (workspace_removed_on_every_exit Scenario.get_ok InitOk Scenario.process_md
              Scenario.decode_text Scenario.mkdtemp Scenario.format_exc Scenario.cold)
    as [_ Hev].
  destruct (Hhttp (Some (Upload "a.pdf" [Byte.x25])) None true true) as [Ha Hb].
  destruct (Hev (Request (Some (InputData None (Some "http://host/a.pdf") None None))))
    as [Hc Hd].
  split; [|split; [|split]].
  - apply Ha. vm_compute. left.
  - apply Hb. left. discriminate.
  - apply Hc. vm_compute. right. left.
  - apply Hd. right. reflexivity.
Defined.

Lemma resolved_file_holds_source_bytes_witness :
  let data := [Byte.x25; Byte.x50; Byte.x44; Byte.x46] in
  let wrote p := World (MkFS (<[p := data]> ∅) ({[ "/tmp/tmpk3v9" ]} ∪ {[ "/tmp" ]}))
                   (Globals true true) in
  resolve_http Scenario.get_ok "/tmp/tmpk3v9" (Some (Upload "a.pdf" data)) None
    Scenario.inside
  = (inr (Some "/tmp/tmpk3v9/a.pdf"), wrote "/tmp/tmpk3v9/a.pdf", [])
  ∧ resolve_event (Results:=string) Scenario.get_ok "/tmp/tmpk3v9"
      (InputData (Some (Base64.b64encode data)) None None None) Scenario.inside
    = (inr (inr "/tmp/tmpk3v9/input.pdf"), wrote "/tmp/tmpk3v9/input.pdf", [])
  ∧ resolve_event (Results:=string) Scenario.get_ok "/tmp/tmpk3v9"
      (InputData (Some "JVBERg==") None None None) Scenario.inside
    = (inr (inr "/tmp/tmpk3v9/input.pdf"), wrote "/tmp/tmpk3v9/input.pdf", [])
  ∧ (resolve_http Scenario.get_pdf "/tmp/tmpk3v9" None (Some "http://host/a") Scenario.inside).1.1
    = inr (Some "/tmp/tmpk3v9/downloaded.pdf")
  ∧ (resolve_event (Results:=string) Scenario.get_pdf "/tmp/tmpk3v9"
       (InputData None (Some "http://host/a") None None) Scenario.inside).1.1
    = inr (inr "/tmp/tmpk3v9/downloaded.pdf").
Proof.
  intros data wrote.
  destruct (resolved_file_holds_source_bytes (Results:=string) Scenario.get_ok "/tmp/tmpk3v9"
              Scenario.inside) as (Hup & _ & _ & Hpay & Henc).
  destruct (resolved_file_holds_source_bytes (Results:=string) Scenario.get_pdf "/tmp/tmpk3v9"
              Scenario.inside) as (_ & Hurl & Hurl' & _).
  split; [|split; [|split; [|split]]].
  - apply (Hup (Upload "a.pdf" data) None (fs (wrote "/tmp/tmpk3v9/a.pdf"))). reflexivity.
  - apply (Henc (InputData (Some (Base64.b64encode data)) None None None) data
             (fs (wrote "/tmp/tmpk3v9/input.pdf"))); reflexivity.
  - apply (Hpay (InputData (Some "JVBERg==") None None None) "JVBERg==" data
             (fs (wrote "/tmp/tmpk3v9/input.pdf"))); reflexivity.
  - destruct (Hurl "http://host/a"
                (Response 200 "OK" "http://host/a" (Some "application/pdf") [Byte.x25])
                (MkFS (<["/tmp/tmpk3v9/downloaded.pdf" := [Byte.x25]]> ∅)
                      ({[ "/tmp/tmpk3v9" ]} ∪ {[ "/tmp" ]}))
                eq_refl eq_refl eq_refl eq_refl) as [-> _].
    reflexivity.
  - destruct (Hurl' (InputData None (Some "http://host/a") None None) "http://host/a"
                (Response 200 "OK" "http://host/a" (Some "application/pdf") [Byte.x25])
                (MkFS (<["/tmp/tmpk3v9/downloaded.pdf" := [Byte.x25]]> ∅)
                      ({[ "/tmp/tmpk3v9" ]} ∪ {[ "/tmp" ]}))
                eq_refl eq_refl eq_refl eq_refl eq_refl) as [-> _].
    reflexivity.
Defined.

Lemma no_markdown_key_without_merge_witness :
  let r1 := process_pdf Scenario.get_ok InitOk Scenario.process_md Scenario.decode_text
              Scenario.mkdtemp (Some (Upload "scan.pdf" [Byte.x25])) None false false
              Scenario.warm in
  let r2 := handler Scenario.get_ok InitOk Scenario.process_md Scenario.decode_text
              Scenario.mkdtemp Scenario.format_exc
              (Request (Some (InputData (Some "JVBERg==") None None (Some false))))
              Scenario.warm in
  (∃ d, r1.1.1 = inr d ∧ d !! "success" = Some (PBool true) ∧ d !! "markdown" = None)
  ∧ r2.1.1 !! "success" = Some (PBool true)
  ∧ r2.1.1 !! "markdown" = None.
Proof.
  intros r1 r2.
  destruct (no_markdown_key_without_merge Scenario.get_ok InitOk Scenario.process_md
              Scenario.decode_text Scenario.mkdtemp Scenario.format_exc Scenario.warm)
    as [Hhttp Hev].
  split; [|split].
  - destruct r1 as [[[e|d] w'] t] eqn:Hr1; [vm_compute in Hr1; discriminate|].
    exists d. split; [reflexivity|]. apply (Hhttp _ _ _ _ _ _ Hr1).
  - vm_compute. reflexivity.
  - apply Hev. reflexivity.
Defined.

Lemma pdf_visualization_fallback_witness :
  let f := MkFS {[ "/tmp/tmpk3v9/a.pdf" := [Byte.x76; Byte.x69; Byte.x73] ]}
             ({[ "/tmp/tmpk3v9" ]} ∪ {[ "/tmp" ]}) in
  let w := World f (Globals true true) in
  assemble Scenario.decode_text "/tmp/tmpk3v9" (Some "/tmp/tmpk3v9/a.pdf") true false "[]" w
  = (inr (response_data "[]" None (Some "dmlz")), w, [])
  ∧ response_data "[]" None (Some "dmlz") !! "visualization" = Some (PStr "dmlz").
Proof.
  intros f w.
  apply (pdf_visualization_fallback Scenario.decode_text "/tmp/tmpk3v9" "/tmp/tmpk3v9/a.pdf"
           false "[]" w [Byte.x76; Byte.x69; Byte.x73] None);
    [reflexivity | reflexivity | reflexivity | discriminate | reflexivity].
Defined.

Lemma fallback_reads_the_input_path_witness :
  let f := MkFS {[ "/tmp/tmpk3v9/input.pdf" := [Byte.x76; Byte.x69; Byte.x73] ]}
             ({[ "/tmp/tmpk3v9" ]} ∪ {[ "/tmp" ]}) in
  let w := World f (Globals true true) in
  OsPath.join "/tmp/tmpk3v9" (artifact_basename (OsPath.join "/tmp/tmpk3v9" "input.pdf") ++ ".pdf")
  = OsPath.join "/tmp/tmpk3v9" "input.pdf"
  ∧ assemble Scenario.decode_text "/tmp/tmpk3v9" (Some (OsPath.join "/tmp/tmpk3v9" "input.pdf"))
      true false "[]" w
    = (inr (response_data "[]" None (Some "dmlz")), w, [])
  ∧ response_data "[]" None (Some "dmlz") !! "visualization" = Some (PStr "dmlz").
Proof.
  intros f w.
  destruct (fallback_reads_the_input_path Scenario.decode_text "/tmp/tmpk3v9" "input.pdf"
              false "[]" w [Byte.x76; Byte.x69; Byte.x73] None eq_refl eq_refl)
    as (Hsame & _ & _ & Hvis).
  split; [exact Hsame|].
  apply Hvis; reflexivity.
Defined.

(** * Further properties of the code *)

(** ** The assembler only reads *)

Lemma pure_ret {A} (a : A) : pure (ret a).
Proof. now intros w. Qed.

Lemma pure_mret {A} (a : A) : pure (mret a).
Proof. now intros w. Qed.

Lemma pure_raise {A} (e : pyexn) : pure (raise (A:=A) e).
Proof. now intros w. Qed.

Lemma pure_lift {A} (r : pyexn + A) : pure (lift r).
Proof. now intros w. Qed.

Lemma pure_get_fs : pure get_fs.
Proof. now intros w. Qed.

Lemma pure_bind {A B} (c : M A) (k : A → M B) :
  pure c → (∀ a, pure (k a)) → pure (c ≫= k).
Proof.
  intros Hc Hk w. unfold mbind, M_bind, bind.
  destruct (Hc w) as [Hw Ht]. destruct (c w) as [[[e|a] w1] t1]; simpl in *; subst.
  - now split.
  - destruct (Hk a w) as [Hw' Ht']. destruct (k a w) as [[r w2] t2]; simpl in *; subst.
    now split.
Qed.

Lemma pure_os_path_exists (p : string) : pure (os_path_exists p).
Proof. unfold os_path_exists. apply pure_bind; [apply pure_get_fs | intros; apply pure_ret]. Qed.

Lemma pure_open_rb (p : string) : pure (open_rb p).
Proof. unfold open_rb. apply pure_bind; [apply pure_get_fs | intros; apply pure_lift]. Qed.

Create HintDb pure.

#[export] Hint Resolve pure_ret pure_mret pure_raise pure_lift pure_get_fs
  pure_os_path_exists pure_open_rb : pure.

Ltac pure_step :=
  match goal with
  | |- pure (_ ≫= _) => apply pure_bind; [|intros ?]
  | |- pure (if ?b then _ else _) => destruct b
  | |- pure (match ?x with _ => _ end) => destruct x
  | |- pure _ => solve [auto with pure]
  end.

Lemma pure_read_markdown (decode_text : bytes → pyexn + string) temp_dir file_path
    merge2markdown :
  pure (read_markdown decode_text temp_dir file_path merge2markdown).
Proof. unfold read_markdown, basename_of. repeat pure_step. Qed.

Lemma pure_read_visualization temp_dir file_path visualize :
  pure (read_visualization temp_dir file_path visualize).
Proof. unfold read_visualization, basename_of. repeat pure_step. Qed.

(** X1: the result assembler only reads.  Whatever the workspace holds
    and whether it returns or raises, it leaves the file system and the
    globals as they were and causes no effect: no fetch, no call of the
    pipeline, no initialization. *)
Theorem assemble_only_reads {Results : Type} (decode_text : bytes → pyexn + string)
    (temp_dir : string) (file_path : option string) (visualize merge2markdown : bool)
    (results : Results) (w : world) :
  (assemble decode_text temp_dir file_path visualize merge2markdown results w).1.2 = w
  ∧ (assemble decode_text temp_dir file_path visualize merge2markdown results w).2 = [].
Proof.
  revert w. change (pure (assemble decode_text temp_dir file_path visualize
                            merge2markdown results)).
  unfold assemble.
  apply pure_bind; [apply pure_read_markdown | intros md].
  apply pure_bind; [apply pure_read_visualization | intros vis].
  apply pure_mret.
Qed.

(** ** What the envelope holds *)

Section EnvelopeContents.
Context {Results : Type}.
Variable requests_get : string → pyexn + response.
Variable initialize_outcome : init_outcome.
Variable process :
filesystem → option string → string → bool → bool → (pyexn + Results) * filesystem.
Variable decode_text : bytes → pyexn + string.
Variable mkdtemp : filesystem → string.
Variable format_exc : pyexn → string.

Lemma pipeline_process_returns file_path save_dir visualize merge2markdown :
returns (λ r, ∃ f, (process f file_path save_dir visualize merge2markdown).1 = inr r)
  (pipeline_process process file_path save_dir visualize merge2markdown).
Proof.
intros w a w' t. unfold pipeline_process. unfold_monad. cbn.
destruct (process (fs w) file_path save_dir visualize merge2markdown) as [[e|r] f'] eqn:Hp;
  cbn; [discriminate|].
intros [= <- _ _]. exists (fs w). now rewrite Hp.
Qed.

Lemma process_pdf_file_returns file_path save_dir visualize merge2markdown :
returns (λ r, ∃ f, (process f file_path save_dir visualize merge2markdown).1 = inr r)
  (process_pdf_file initialize_outcome process file_path save_dir visualize merge2markdown).
Proof.
unfold process_pdf_file.
apply returns_bind_any. intros g.
apply returns_bind_any. intros _.
apply pipeline_process_returns.
Qed.

End EnvelopeContents.

(** X2: a success envelope carries the pipeline's result unchanged.  On
    both surfaces a returned mapping with [success] holds, under
    [results], a value the pipeline returned for a call with the request's
    options and the workspace as [save_dir]; [success] is [True]; and the
    mapping has no key besides [success], [results], [markdown] and
    [visualization]. *)
Theorem envelope_carries_pipeline_result {Results : Type}
    (requests_get : string → pyexn + response) (initialize_outcome : init_outcome)
    (process : filesystem → option string → string → bool → bool
               → (pyexn + Results) * filesystem)
    (decode_text : bytes → pyexn + string) (mkdtemp : filesystem → string)
    (format_exc : pyexn → string) (w : world) :
  (∀ file url visualize merge2markdown d w' t,
     process_pdf requests_get initialize_outcome process decode_text mkdtemp
       file url visualize merge2markdown w = (inr d, w', t) →
     d !! "success" = Some (PBool true)
     ∧ (∃ r f file_path save_dir,
          (process f file_path save_dir visualize merge2markdown).1 = inr r
          ∧ d !! "results" = Some (PResults r))
     ∧ ∀ k, k ≠ "success" → k ≠ "results" → k ≠ "markdown" → k ≠ "visualization" →
            d !! k = None)
  ∧ (∀ event,
       let d := (handler requests_get initialize_outcome process decode_text mkdtemp
                   format_exc event w).1.1 in
       let inp := default empty_input (input event) in
       d !! "success" = Some (PBool true) →
       (∃ r f file_path save_dir,
          (process f (Some file_path) save_dir (default false (visualize inp))
             (default true (merge2markdown inp))).1 = inr r
          ∧ d !! "results" = Some (PResults r))
       ∧ d !! "error" = None
       ∧ ∀ k, k ≠ "success" → k ≠ "results" → k ≠ "markdown" → k ≠ "visualization" →
              d !! k = None).
Proof.
  split.
  - intros file url visualize merge2markdown d w' t Hrun.
    assert (H : returns (λ d, ∃ r md vis,
                  (∃ f file_path save_dir,
                     (process f file_path save_dir visualize merge2markdown).1 = inr r)
                  ∧ d = response_data r md vis)
                (process_pdf requests_get initialize_outcome process decode_text mkdtemp
                   file url visualize merge2markdown)).
    { unfold process_pdf. destruct (_ && _); [apply returns_raise|].
      apply returns_with_TemporaryDirectory. intros tmp.
      apply returns_bind_any. intros file_path.
      eapply returns_bind; [apply process_pdf_file_returns|].
      intros r [f Hr].
      eapply returns_weaken; [apply assemble_returns|].
      intros a (md & vis & -> & _). exists r, md, vis. split; [|reflexivity].
      now exists f, file_path, tmp. }
    apply H in Hrun as (r & md & vis & (f & fp & sd & Hr) & ->).
    split; [apply response_data_success|]. split.
    + exists r, f, fp, sd. split; [exact Hr | apply response_data_results].
    + intros k. apply response_data_other.
  - intros event d inp Hsucc. subst d.
    assert (H : returns (λ d, (∃ msg, d = {[ "error" := PStr msg ]})
                  ∨ ∃ r md vis,
                      (∃ f file_path save_dir,
                         (process f (Some file_path) save_dir (default false (visualize inp))
                            (default true (merge2markdown inp))).1 = inr r)
                      ∧ d = response_data r md vis)
                (handler_try requests_get initialize_outcome process decode_text mkdtemp
                   event)).
    { unfold handler_try.
      apply returns_bind_any. intros g.
      apply returns_bind_any. intros _.
      apply returns_with_TemporaryDirectory. intros tmp.
      apply (returns_bind
               (λ r, match r with
                     | inl early => ∃ msg, early = ({[ "error" := PStr msg ]}
                                                    : gmap string (pyval Results))
                     | inr _ => True
                     end)).
      - unfold resolve_event. destruct (file_base64 _) as [payload|].
        + apply returns_bind_any. intros file_data.
          apply returns_bind_any. intros _. now apply returns_ret.
        + destruct (url _) as [u|]; [|apply returns_ret; eauto].
          apply returns_try_except.
          * apply returns_bind_any. intros file_path. now apply returns_ret.
          * intros e. apply returns_ret. eauto.
      - intros [early|file_path] He.
        + apply returns_ret. now left.
        + unfold handler_process.
          eapply returns_bind; [apply pipeline_process_returns|].
          intros r [f Hr].
          eapply returns_weaken; [apply assemble_returns|].
          intros a (md & vis & -> & _). right. exists r, md, vis.
          split; [|reflexivity]. now exists f, file_path, tmp. }
    unfold handler in *.
    destruct (handler_try _ _ _ _ _ _ _) as [[[e|d] w'] t] eqn:Hrun; simpl in *.
    + discriminate.
    + apply H in Hrun as [[msg ->] | (r & md & vis & (f & fp & sd & Hr) & ->)].
      * discriminate.
      * split; [|split].
        -- exists r, f, fp, sd. split; [exact Hr | apply response_data_results].
        -- now apply response_data_other.
        -- intros k. apply response_data_other.
Qed.

(** X3: without [visualize] the envelope never has a [visualization]
    key, whatever files the pipeline left, on both surfaces; on the event
    surface a missing [visualize] key counts as false. *)
Theorem no_visualization_key_without_visualize {Results : Type}
    (requests_get : string → pyexn + response) (initialize_outcome : init_outcome)
    (process : filesystem → option string → string → bool → bool
               → (pyexn + Results) * filesystem)
    (decode_text : bytes → pyexn + string) (mkdtemp : filesystem → string)
    (format_exc : pyexn → string) (w : world) :
  (∀ file url merge2markdown d w' t,
     process_pdf requests_get initialize_outcome process decode_text mkdtemp
       file url false merge2markdown w = (inr d, w', t) →
     d !! "visualization" = None)
  ∧ (∀ event,
       default false (visualize (default empty_input (input event))) = false →
       (handler requests_get initialize_outcome process decode_text mkdtemp
          format_exc event w).1.1 !! "visualization" = None).
Proof.
  split.
  - intros file url merge2markdown d w' t Hrun.
    apply process_pdf_returns in Hrun as (results & md & vis & -> & _ & Hvis).
    rewrite (Hvis eq_refl). now rewrite response_data_visualization.
  - intros event Hv. unfold handler.
    destruct (handler_try _ _ _ _ _ _ _) as [[[e|d] w'] t] eqn:Hrun; simpl.
    + reflexivity.
    + apply handler_try_returns in Hrun as [[msg ->] | (results & md & vis & -> & _ & Hvis)].
      * reflexivity.
      * rewrite (Hvis Hv). now rewrite response_data_visualization.
Qed.

(** ** The two artifacts *)

(** X4: the markdown artifact.  With [merge2markdown] true, when
    [<basename>.md] is a file of the workspace its decoded text is what
    the markdown stage returns, and the envelope holds it under
    [markdown] unless it is the empty string; when the text cannot be
    decoded the assembler raises that error and no envelope is built; when
    nothing exists at that path the stage returns [None] and no error. *)
Theorem markdown_artifact {Results : Type} (decode_text : bytes → pyexn + string)
    (temp_dir file_path : string) (visualize : bool) (results : Results) (w : world) :
  let md_path := OsPath.join temp_dir (artifact_basename file_path ++ ".md") in
  (∀ data text vis,
     files (fs w) !! md_path = Some data →
     decode_text data = inr text →
     read_markdown decode_text temp_dir (Some file_path) true w = (inr (Some text), w, [])
     ∧ response_data results (Some text) vis !! "markdown"
       = (if Py.truthy text then Some (PStr text) else None))
  ∧ (∀ data e,
       files (fs w) !! md_path = Some data →
       decode_text data = inl e →
       assemble decode_text temp_dir (Some file_path) visualize true results w
       = (inl e, w, []))
  ∧ (path_exists (fs w) md_path = false →
     read_markdown decode_text temp_dir (Some file_path) true w = (inr None, w, [])
     ∧ ∀ vis, response_data results None vis !! "markdown" = None).
Proof.
  intros md_path. split; [|split].
  - intros data text vis Hfile Hdec. split.
    + unfold read_markdown, basename_of, os_path_exists, open_rb, read_file.
      unfold_monad. cbn. fold md_path.
      rewrite (path_exists_file _ _ _ Hfile), Hfile. cbn. rewrite Hdec.
      now destruct w.
    + now rewrite response_data_markdown.
  - intros data e Hfile Hdec.
    unfold assemble, read_markdown, basename_of, os_path_exists, open_rb, read_file.
    unfold_monad. cbn. fold md_path.
    rewrite (path_exists_file _ _ _ Hfile), Hfile. cbn. rewrite Hdec.
    now destruct w.
  - intros Hnone. split.
    + unfold read_markdown, basename_of, os_path_exists.
      unfold_monad. cbn. fold md_path. rewrite Hnone. now destruct w.
    + intros vis. now rewrite response_data_markdown.
Qed.

(** X5: a rendered [.png] wins.  With [visualize] true, when
    [<basename>.png] is a file of the workspace the visualization is the
    base64 text of that file, whether or not the input is a [.pdf] and
    whether or not [<basename>.pdf] exists; a non-empty file puts it in
    the envelope. *)
Theorem png_visualization_is_preferred {Results : Type} (temp_dir file_path : string)
    (results : Results) (md : option string) (w : world) (data : bytes) :
  files (fs w) !! OsPath.join temp_dir (artifact_basename file_path ++ ".png") = Some data →
  read_visualization temp_dir (Some file_path) true w
  = (inr (Some (Base64.b64encode data)), w, [])
  ∧ (data ≠ [] →
     response_data results md (Some (Base64.b64encode data)) !! "visualization"
     = Some (PStr (Base64.b64encode data))).
Proof.
  intros Hfile. split.
  - unfold read_visualization, basename_of, os_path_exists, open_rb, read_file.
    unfold_monad. cbn.
    rewrite (path_exists_file _ _ _ Hfile). cbn.
    rewrite (path_exists_file _ _ _ Hfile), Hfile. now destruct w.
  - intros Hne. rewrite response_data_visualization. cbn [truthy_opt].
    now rewrite Base64Facts.b64encode_truthy.
Qed.

(** X6: no fallback for other inputs.  With [visualize] true, an input
    path that does not end in [.pdf] and no [<basename>.png] in the
    workspace, the visualization stage returns [None] -- also when a file
    [<basename>.pdf] exists -- and the envelope has no [visualization]
    key. *)
Theorem no_fallback_unless_pdf {Results : Type} (temp_dir file_path : string)
    (results : Results) (md : option string) (w : world) :
  Py.endswith file_path ".pdf" = false →
  path_exists (fs w) (OsPath.join temp_dir (artifact_basename file_path ++ ".png")) = false →
  read_visualization temp_dir (Some file_path) true w = (inr None, w, [])
  ∧ response_data results md None !! "visualization" = None.
Proof.
  intros Hpdf Hpng. split.
  - unfold read_visualization, basename_of, os_path_exists.
    unfold_monad. cbn. rewrite Hpng. cbn. rewrite Hpdf. cbn. rewrite Hpng.
    now destruct w.
  - now rewrite response_data_visualization.
Qed.

(** ** Downloads *)

(** A download fetches once; when it fails it has written nothing. *)
Lemma download_run (requests_get : string → pyexn + response) (temp_dir url : string)
    (w : world) :
  (download requests_get temp_dir url w).2 = [EvGet url]
  ∧ glob (download requests_get temp_dir url w).1.2 = glob w
  ∧ (∀ e, (download requests_get temp_dir url w).1.1 = inl e →
          (download requests_get temp_dir url w).1.2 = w).
Proof.
  unfold download, open_wb. unfold_monad. cbn.
  destruct (requests_get url) as [e|resp]; cbn; [destruct w; now repeat split|].
  destruct (raise_for_status resp) as [e|[]]; cbn; [destruct w; now repeat split|].
  destruct (write_file _ _ _) as [e|f']; cbn; [destruct w; now repeat split|].
  repeat split. intros e [=].
Qed.

(** X7: a response with an error status is a failed download.  When the
    server answers with a status from 400 to 599 the download raises an
    [HTTPError] whose message starts with the status, although a body was
    received; nothing is written and the URL is fetched once. *)
Theorem error_status_fails_download (requests_get : string → pyexn + response)
    (temp_dir url : string) (w : world) (resp : response) :
  requests_get url = inr resp →
  400 <= status_code resp < 600 →
  ∃ kind,
    (kind = " Client Error: " ∨ kind = " Server Error: ")
    ∧ download requests_get temp_dir url w
      = (inl (PyErr "HTTPError"
                (pretty (status_code resp) ++ kind ++ reason resp ++ " for url: "
                 ++ resp_url resp)),
         w, [EvGet url]).
Proof.
  intros Hget Hst.
  unfold download, raise_for_status. unfold_monad. cbn. rewrite Hget. cbn.
  destruct (Z.leb_spec 400 (status_code resp)); [|lia].
  destruct (Z.ltb_spec (status_code resp) 500); cbn.
  - exists " Client Error: ". split; [now left|]. now destruct w.
  - destruct (Z.leb_spec 500 (status_code resp)); [|lia].
    destruct (Z.ltb_spec (status_code resp) 600); [|lia]. cbn.
    exists " Server Error: ". split; [now right|]. now destruct w.
Qed.

Lemma error_status_fails_download_witness :
  ∃ kind,
    (kind = " Client Error: " ∨ kind = " Server Error: ")
    ∧ download Deployment.get_404 "/tmp/tmpk3v9" "http://host/gone.pdf" Scenario.inside
      = (inl (PyErr "HTTPError"
                (pretty 404 ++ kind ++ "Not Found" ++ " for url: " ++ "http://host/gone.pdf")),
         Scenario.inside, [EvGet "http://host/gone.pdf"]).
Proof.
  apply (error_status_fails_download Deployment.get_404 "/tmp/tmpk3v9" "http://host/gone.pdf"
           Scenario.inside
           (Response 404 "Not Found" "http://host/gone.pdf" (Some "text/html") [Byte.x3c])).
  - reflexivity.
  - cbn. lia.
Defined.

(** X8: a failed download on the HTTP surface.  With no file and a
    non-empty [url], any failure of the download -- the request raising,
    an error status, the write failing -- ends the request with
    [HTTPException(400)] whose detail is the fixed prefix followed by
    [str(e)]; the URL was fetched once, the pipeline was not called and no
    model was initialized, and what is left of the file system is the
    initial one with the workspace tree removed. *)
Theorem http_download_failure_is_400 {Results : Type}
    (requests_get : string → pyexn + response) (initialize_outcome : init_outcome)
    (process : filesystem → option string → string → bool → bool
               → (pyexn + Results) * filesystem)
    (decode_text : bytes → pyexn + string) (mkdtemp : filesystem → string)
    (w : world) (url : string) (visualize merge2markdown : bool) (e : pyexn) :
  let temp_dir := mkdtemp (fs w) in
  let made := MkFS (files (fs w)) ({[temp_dir]} ∪ dirs (fs w)) in
  Py.truthy url = true →
  (download requests_get temp_dir url (World made (glob w))).1.1 = inl e →
  process_pdf requests_get initialize_outcome process decode_text mkdtemp
    None (Some url) visualize merge2markdown w
  = (inl (HTTPException 400 ("Failed to download file from URL: " ++ str_exn e)),
     World (rmtree temp_dir made) (glob w),
     [EvMkdtemp temp_dir; EvGet url; EvCleanup temp_dir]).
Proof.
  intros temp_dir made Hurl Hfail.
  destruct (download_run requests_get temp_dir url (World made (glob w)))
    as (Ht & _ & Hw). specialize (Hw e Hfail).
  unfold process_pdf, resolve_http. cbn [bool_decide andb truthy_opt].
  change (default "" (Some url)) with url. rewrite Hurl.
  subst made temp_dir. unfold_monad. cbn -[download] in *.
  destruct (download requests_get _ url _) as [[r w1] t].
  cbn in *. subst. reflexivity.
Qed.

Lemma http_download_failure_is_400_witness :
  process_pdf Scenario.get_fails InitOk Scenario.process_plain Scenario.decode_text
    Scenario.mkdtemp None (Some "http://host/a.pdf") false true Scenario.warm
  = (inl (HTTPException 400 "Failed to download file from URL: connection refused"),
     World (rmtree "/tmp/tmpk3v9" (MkFS ∅ ({[ "/tmp/tmpk3v9" ]} ∪ {[ "/tmp" ]})))
           (Globals true true),
     [EvMkdtemp "/tmp/tmpk3v9"; EvGet "http://host/a.pdf"; EvCleanup "/tmp/tmpk3v9"]).
Proof.
  apply (http_download_failure_is_400 Scenario.get_fails InitOk Scenario.process_plain
           Scenario.decode_text Scenario.mkdtemp Scenario.warm "http://host/a.pdf" false true
           (PyErr "ConnectionError" "connection refused")); reflexivity.
Defined.

(** X9: a failed download on the event surface.  With no [file_base64]
    and a [url] key, any failure of the download makes [handler] return
    the mapping with the single key [error], the prefix followed by
    [str(e)]; after the lazy initialization the URL was fetched once and
    the pipeline was not called. *)
Theorem event_download_failure {Results : Type}
    (requests_get : string → pyexn + response) (initialize_outcome : init_outcome)
    (process : filesystem → option string → string → bool → bool
               → (pyexn + Results) * filesystem)
    (decode_text : bytes → pyexn + string) (mkdtemp : filesystem → string)
    (format_exc : pyexn → string) (w : world) (event : request) (u : string) (e : pyexn) :
  let temp_dir := mkdtemp (fs w) in
  let made := MkFS (files (fs w)) ({[temp_dir]} ∪ dirs (fs w)) in
  task_instances (glob w) && pdf_extract_task (glob w) = true →
  file_base64 (default empty_input (input event)) = None →
  url (default empty_input (input event)) = Some u →
  (download requests_get temp_dir u (World made (glob w))).1.1 = inl e →
  handler requests_get initialize_outcome process decode_text mkdtemp format_exc event w
  = ({[ "error" := PStr ("Failed to download file from URL: " ++ str_exn e) ]},
     World (rmtree temp_dir made) (glob w),
     [EvMkdtemp temp_dir; EvGet u; EvCleanup temp_dir]).
Proof.
  intros temp_dir made Hready Hf Hu Hfail.
  destruct (download_run requests_get temp_dir u (World made (glob w)))
    as (Ht & _ & Hw). specialize (Hw e Hfail).
  destruct w as [f [ti pt]]. cbn in Hready. apply andb_true_iff in Hready as [-> ->].
  unfold handler, handler_try, resolve_event. rewrite Hf, Hu.
  subst made temp_dir. unfold_monad. cbn -[download] in *.
  destruct (download requests_get _ u _) as [[r w1] t].
  cbn in *. subst. reflexivity.
Qed.

Lemma event_download_failure_witness :
  handler Deployment.get_404 InitOk Scenario.process_plain Scenario.decode_text
    Scenario.mkdtemp Scenario.format_exc
    (Request (Some (InputData None (Some "http://host/gone.pdf") None None))) Scenario.warm
  = ({[ "error" := PStr ("Failed to download file from URL: "
                         ++ "404 Client Error: Not Found for url: http://host/gone.pdf") ]},
     World (rmtree "/tmp/tmpk3v9" (MkFS ∅ ({[ "/tmp/tmpk3v9" ]} ∪ {[ "/tmp" ]})))
           (Globals true true),
     [EvMkdtemp "/tmp/tmpk3v9"; EvGet "http://host/gone.pdf"; EvCleanup "/tmp/tmpk3v9"]).
Proof.
  apply (event_download_failure Deployment.get_404 InitOk Scenario.process_plain
           Scenario.decode_text Scenario.mkdtemp Scenario.format_exc Scenario.warm
           (Request (Some (InputData None (Some "http://host/gone.pdf") None None)))
           "http://host/gone.pdf"
           (PyErr "HTTPError" "404 Client Error: Not Found for url: http://host/gone.pdf"));
    reflexivity.
Defined.

(** ** Edge cases of the HTTP surface *)



(** X11: an exception of the pipeline on the HTTP surface.  For an
    uploaded file that was written, an exception raised by the pipeline
    leaves [process_pdf] as it is -- it is not turned into a 400 and no
    envelope is built -- after the workspace, with whatever the pipeline
    wrote, has been removed. *)
Theorem http_pipeline_exception_propagates {Results : Type}
    (requests_get : string → pyexn + response) (initialize_outcome : init_outcome)
    (process : filesystem → option string → string → bool → bool
               → (pyexn + Results) * filesystem)
    (decode_text : bytes → pyexn + string) (mkdtemp : filesystem → string)
    (w : world) (f : UploadFile) (url : option string) (visualize merge2markdown : bool)
    (f1 f2 : filesystem) (e : pyexn) :
  let temp_dir := mkdtemp (fs w) in
  let made := MkFS (files (fs w)) ({[temp_dir]} ∪ dirs (fs w)) in
  let file_path := OsPath.join temp_dir (filename f) in
  pdf_extract_task (glob w) = true →
  write_file made file_path (upload_bytes f) = inr f1 →
  process f1 (Some file_path) temp_dir visualize merge2markdown = (inl e, f2) →
  process_pdf requests_get initialize_outcome process decode_text mkdtemp
    (Some f) url visualize merge2markdown w
  = (inl e, World (rmtree temp_dir f2) (glob w),
     [EvMkdtemp temp_dir; EvProcess (Some file_path) temp_dir visualize merge2markdown;
      EvCleanup temp_dir]).
Proof.
  intros temp_dir made file_path Hready Hw Hp. subst file_path made temp_dir.
  unfold process_pdf, resolve_http, process_pdf_file, pipeline_process, open_wb.
  unfold_monad. cbn in *. rewrite Hw. cbn. rewrite Hready. cbn. rewrite Hp. reflexivity.
Qed.

Lemma http_pipeline_exception_propagates_witness :
  process_pdf Scenario.get_ok InitOk Scenario.process_raises Scenario.decode_text
    Scenario.mkdtemp (Some (Upload "a.pdf" [Byte.x25])) None true true Scenario.warm
  = (inl (PyErr "RuntimeError" "layout model failed"),
     World (rmtree "/tmp/tmpk3v9"
              (MkFS (<["/tmp/tmpk3v9/a.pdf" := [Byte.x25]]> ∅)
                    ({[ "/tmp/tmpk3v9" ]} ∪ {[ "/tmp" ]})))
           (Globals true true),
     [EvMkdtemp "/tmp/tmpk3v9"; EvProcess (Some "/tmp/tmpk3v9/a.pdf") "/tmp/tmpk3v9" true true;
      EvCleanup "/tmp/tmpk3v9"]).
Proof.
  apply (http_pipeline_exception_propagates Scenario.get_ok InitOk Scenario.process_raises
           Scenario.decode_text Scenario.mkdtemp Scenario.warm (Upload "a.pdf" [Byte.x25])
           None true true
           (MkFS (<["/tmp/tmpk3v9/a.pdf" := [Byte.x25]]> ∅)
                 ({[ "/tmp/tmpk3v9" ]} ∪ {[ "/tmp" ]}))
           (MkFS (<["/tmp/tmpk3v9/a.pdf" := [Byte.x25]]> ∅)
                 ({[ "/tmp/tmpk3v9" ]} ∪ {[ "/tmp" ]}))); reflexivity.
Defined.

(** ** Relating the world before and after *)

Section Relates.
Context (R : world → world → Prop) `{!Reflexive R, !Transitive R}.

Lemma relates_ret {A} (a : A) : relates R (ret a).
Proof. intros w. reflexivity. Qed.

Lemma relates_raise {A} (e : pyexn) : relates R (raise (A:=A) e).
Proof. intros w. reflexivity. Qed.

Lemma relates_lift {A} (r : pyexn + A) : relates R (lift r).
Proof. intros w. reflexivity. Qed.

Lemma relates_emit (ev : effect) : relates R (emit ev).
Proof. intros w. reflexivity. Qed.

Lemma relates_get_fs : relates R get_fs.
Proof. intros w. reflexivity. Qed.

Lemma relates_get_glob : relates R get_glob.
Proof. intros w. reflexivity. Qed.

Lemma relates_pure {A} (c : M A) : pure c → relates R c.
Proof. intros Hc w. destruct (Hc w) as [-> _]. reflexivity. Qed.

Lemma relates_bind {A B} (c : M A) (k : A → M B) :
relates R c → (∀ a, relates R (k a)) → relates R (c ≫= k).
Proof.
intros Hc Hk w. specialize (Hc w). unfold mbind, M_bind, bind.
destruct (c w) as [[[e|a] w1] t1]; [exact Hc|].
specialize (Hk a w1). destruct (k a w1) as [[r w2] t2].
simpl in *. etransitivity; eassumption.
Qed.

Lemma relates_try_except {A} (c : M A) (h : pyexn → M A) :
relates R c → (∀ e, relates R (h e)) → relates R (try_except c h).
Proof.
intros Hc Hh w. specialize (Hc w). unfold try_except.
destruct (c w) as [[[e|a] w1] t1]; [|exact Hc].
specialize (Hh e w1). destruct (h e w1) as [[r w2] t2].
simpl in *. etransitivity; eassumption.
Qed.

End Relates.

(** ** The globals across a request *)

Section Globals.
Context {Results : Type}.
Variable requests_get : string → pyexn + response.
Variable initialize_outcome : init_outcome.
Variable process :
filesystem → option string → string → bool → bool → (pyexn + Results) * filesystem.
Variable decode_text : bytes → pyexn + string.
Variable mkdtemp : filesystem → string.

(** A relation on worlds that looks at the globals only. *)
Context (Q : globals → globals → Prop) `{!Reflexive Q, !Transitive Q}.

#[local] Instance on_glob_refl : Reflexive (λ w w', Q (glob w) (glob w')).
Proof. intros w. reflexivity. Qed.

#[local] Instance on_glob_trans : Transitive (λ w w', Q (glob w) (glob w')).
Proof. intros w1 w2 w3 H1 H2. simpl in *. etransitivity; eassumption. Qed.

Lemma globals_put_fs (f : filesystem) : relates (λ w w', Q (glob w) (glob w')) (put_fs f).
Proof. intros w. simpl. reflexivity. Qed.

Lemma globals_open_wb (p : string) (data : bytes) :
relates (λ w w', Q (glob w) (glob w')) (open_wb p data).
Proof.
unfold open_wb.
apply relates_bind; [apply _ | apply relates_get_fs; apply _ | intros f].
apply relates_bind; [apply _ | apply relates_lift; apply _ | intros f'].
apply globals_put_fs.
Qed.

Lemma globals_pipeline_process file_path save_dir visualize merge2markdown :
relates (λ w w', Q (glob w) (glob w'))
  (pipeline_process process file_path save_dir visualize merge2markdown).
Proof.
intros w. unfold pipeline_process. unfold_monad. cbn.
reflexivity.
Qed.

Lemma globals_download temp_dir url :
relates (λ w w', Q (glob w) (glob w')) (download requests_get temp_dir url).
Proof.
intros w. destruct (download_run requests_get temp_dir url w) as (_ & Hg & _).
rewrite Hg. reflexivity.
Qed.

Lemma globals_assemble temp_dir file_path visualize merge2markdown (results : Results) :
relates (λ w w', Q (glob w) (glob w'))
  (assemble decode_text temp_dir file_path visualize merge2markdown results).
Proof.
intros w.
destruct (assemble_only_reads decode_text temp_dir file_path visualize merge2markdown
            results w) as [-> _].
reflexivity.
Qed.

Lemma globals_with_TemporaryDirectory {A} (body : string → M A) :
(∀ d, relates (λ w w', Q (glob w) (glob w')) (body d)) →
relates (λ w w', Q (glob w) (glob w')) (with_TemporaryDirectory mkdtemp body).
Proof.
intros Hb w. unfold with_TemporaryDirectory.
set (w1 := World _ _). specialize (Hb (mkdtemp (fs w)) w1).
destruct (body _ _) as [[r w2] t]. exact Hb.
Qed.

Lemma globals_event_workspace (inp : input_data) :
relates (λ w w', Q (glob w) (glob w'))
  (with_TemporaryDirectory mkdtemp (λ temp_dir,
     r ← resolve_event requests_get temp_dir inp;
     match r with
     | inl early => ret early
     | inr file_path => handler_process process decode_text temp_dir inp file_path
     end)).
Proof.
apply globals_with_TemporaryDirectory. intros d.
apply relates_bind; [apply _ | | intros [early|file_path]].
- unfold resolve_event. destruct (file_base64 _) as [payload|].
  + apply relates_bind; [apply _ | apply relates_lift; apply _ | intros data].
    apply relates_bind; [apply _ | apply globals_open_wb | intros _].
    apply relates_ret; apply _.
  + destruct (url _) as [u|]; [|apply relates_ret; apply _].
    apply relates_try_except; [apply _ | | intros e; apply relates_ret; apply _].
    apply relates_bind; [apply _ | apply globals_download | intros p].
    apply relates_ret; apply _.
- apply relates_ret; apply _.
- unfold handler_process.
  apply relates_bind; [apply _ | apply globals_pipeline_process | intros r].
  apply globals_assemble.
Qed.

Hypothesis initialize_related :
relates (λ w w', Q (glob w) (glob w')) (initialize_models initialize_outcome).

Lemma globals_process_pdf file url visualize merge2markdown :
relates (λ w w', Q (glob w) (glob w'))
  (process_pdf requests_get initialize_outcome process decode_text mkdtemp
     file url visualize merge2markdown).
Proof.
unfold process_pdf.
destruct (_ && _); [apply relates_raise; apply _|].
apply globals_with_TemporaryDirectory. intros d.
apply relates_bind; [apply _ | | intros file_path].
{ unfold resolve_http. destruct file as [f|].
  - apply relates_bind; [apply _ | apply globals_open_wb | intros _].
    apply relates_ret; apply _.
  - destruct (truthy_opt url); [|apply relates_ret; apply _].
    apply relates_try_except; [apply _ | | intros e; apply relates_raise; apply _].
    apply relates_bind; [apply _ | apply globals_download | intros p].
    apply relates_ret; apply _. }
apply relates_bind; [apply _ | | intros r; apply globals_assemble].
unfold process_pdf_file.
apply relates_bind; [apply _ | apply relates_get_glob; apply _ | intros g].
apply relates_bind; [apply _ | | intros _; apply globals_pipeline_process].
destruct (pdf_extract_task g); [apply relates_ret; apply _ | apply initialize_related].
Qed.

Lemma globals_handler_try event :
relates (λ w w', Q (glob w) (glob w'))
  (handler_try requests_get initialize_outcome process decode_text mkdtemp event).
Proof.
unfold handler_try.
apply relates_bind; [apply _ | apply relates_get_glob; apply _ | intros g].
apply relates_bind; [apply _ | | intros _].
{ destruct (_ || _); [apply initialize_related | apply relates_ret; apply _]. }
apply globals_event_workspace.
Qed.

End Globals.

Lemma handler_world {Results : Type}
    (requests_get : string → pyexn + response) (initialize_outcome : init_outcome)
    (process : filesystem → option string → string → bool → bool
               → (pyexn + Results) * filesystem)
    (decode_text : bytes → pyexn + string) (mkdtemp : filesystem → string)
    (format_exc : pyexn → string) (event : request) (w : world) :
  (handler requests_get initialize_outcome process decode_text mkdtemp format_exc event w).1.2
  = (handler_try requests_get initialize_outcome process decode_text mkdtemp event w).1.2
  ∧ (handler requests_get initialize_outcome process decode_text mkdtemp format_exc event w).2
    = (handler_try requests_get initialize_outcome process decode_text mkdtemp event w).2.
Proof. unfold handler. now destruct (handler_try _ _ _ _ _ _ _) as [[[e|d] w'] t]. Qed.

(** X12: the globals keep their invariant and a warm process stays as it
    is.  Whatever a request does and however it ends, on both surfaces:
    if the pipeline was not set without the task instances before, it is
    not after; and when both globals were set before the request they are
    unchanged after it. *)
Theorem globals_across_a_request {Results : Type}
    (requests_get : string → pyexn + response) (initialize_outcome : init_outcome)
    (process : filesystem → option string → string → bool → bool
               → (pyexn + Results) * filesystem)
    (decode_text : bytes → pyexn + string) (mkdtemp : filesystem → string)
    (format_exc : pyexn → string) (w : world) :
  (∀ file url visualize merge2markdown,
     let w' := (process_pdf requests_get initialize_outcome process decode_text mkdtemp
                  file url visualize merge2markdown w).1.2 in
     (globals_ok (glob w) → globals_ok (glob w'))
     ∧ (warm_globals (glob w) → glob w' = glob w))
  ∧ (∀ event,
       let w' := (handler requests_get initialize_outcome process decode_text mkdtemp
                    format_exc event w).1.2 in
       (globals_ok (glob w) → globals_ok (glob w'))
       ∧ (warm_globals (glob w) → glob w' = glob w)).
Proof.
  assert (Hok : relates (λ w w', (λ g g', globals_ok g → globals_ok g') (glob w) (glob w'))
                  (initialize_models initialize_outcome)).
  { intros [f [ti pt]]. unfold initialize_models, globals_ok. unfold_monad.
    destruct initialize_outcome; cbn; tauto. }
  assert (Hwarm : relates (λ w w', (λ g g', warm_globals g → g' = g) (glob w) (glob w'))
                    (initialize_models initialize_outcome)).
  { intros [f [ti pt]]. unfold initialize_models, warm_globals. unfold_monad.
    destruct initialize_outcome; cbn; intros [-> ->]; reflexivity. }
  assert (R1 : Reflexive (λ g g', globals_ok g → globals_ok g')) by (intros g; tauto).
  assert (T1 : Transitive (λ g g', globals_ok g → globals_ok g')) by (intros g1 g2 g3; tauto).
  assert (R2 : Reflexive (λ g g' : globals, warm_globals g → g' = g)) by (intros g; tauto).
  assert (T2 : Transitive (λ g g' : globals, warm_globals g → g' = g)).
  { intros g1 g2 g3 H12 H23 H1. specialize (H12 H1). subst g2. auto. }
  split.
  - intros file url visualize merge2markdown w'. subst w'. split.
    + apply (globals_process_pdf requests_get initialize_outcome process decode_text mkdtemp
               (λ g g', globals_ok g → globals_ok g') Hok).
    + apply (globals_process_pdf requests_get initialize_outcome process decode_text mkdtemp
               (λ g g' : globals, warm_globals g → g' = g) Hwarm).
  - intros event w'. subst w'.
    rewrite (proj1 (handler_world _ _ _ _ _ format_exc event w)). split.
    + apply (globals_handler_try requests_get initialize_outcome process decode_text mkdtemp
               (λ g g', globals_ok g → globals_ok g') Hok).
    + apply (globals_handler_try requests_get initialize_outcome process decode_text mkdtemp
               (λ g g' : globals, warm_globals g → g' = g) Hwarm).
Qed.

Lemma bind_run {A B} (c : M A) (k : A → M B) (w : world) (a : A) (w1 : world)
    (t1 : list effect) :
  c w = (inr a, w1, t1) →
  (c ≫= k) w = ((k a w1).1.1, (k a w1).1.2, (t1 ++ (k a w1).2)%list).
Proof.
  intros H. unfold mbind, M_bind, bind. rewrite H.
  now destruct (k a w1) as [[r w2] t2].
Qed.


(** ** The effects of a request, in order *)

Lemma bind_trace_cases {A B} (c : M A) (k : A → M B) (w : world) :
  ((c ≫= k) w).2
  = ((c w).2 ++ match (c w).1.1 with
                | inr a => (k a (c w).1.2).2
                | inl _ => []
                end)%list.
Proof.
  unfold mbind, M_bind, bind.
  destruct (c w) as [[[e|a] w1] t1]; simpl; [now rewrite app_nil_r|].
  now destruct (k a w1) as [[r w2] t2].
Qed.

Lemma download_path (requests_get : string → pyexn + response) (temp_dir url : string)
    (w : world) (p : string) :
  (download requests_get temp_dir url w).1.1 = inr p →
  ∃ ctype, p = OsPath.join temp_dir ("downloaded" ++ infer_ext ctype url).
Proof.
  unfold download, open_wb. unfold_monad. cbn.
  destruct (requests_get url) as [e|resp]; cbn; [discriminate|].
  destruct (raise_for_status resp) as [e|[]]; cbn; [discriminate|].
  destruct (write_file _ _ _) as [e|f']; cbn; [discriminate|].
  intros [= <-]. eauto.
Qed.

Section Effects.
Context {Results : Type}.
Variable requests_get : string → pyexn + response.
Variable initialize_outcome : init_outcome.
Variable process :
filesystem → option string → string → bool → bool → (pyexn + Results) * filesystem.
Variable decode_text : bytes → pyexn + string.
Variable mkdtemp : filesystem → string.

Lemma pipeline_process_trace file_path save_dir visualize merge2markdown (w : world) :
(pipeline_process process file_path save_dir visualize merge2markdown w).2
= [EvProcess file_path save_dir visualize merge2markdown].
Proof.
unfold pipeline_process. unfold_monad. cbn.
first [ reflexivity
      | destruct (process (fs w) file_path save_dir visualize merge2markdown)
          as [[e|r] f']; reflexivity ].
Qed.

Lemma handler_process_trace temp_dir inp file_path (w : world) :
(handler_process process decode_text temp_dir inp file_path w).2
= [EvProcess (Some file_path) temp_dir (default false (visualize inp))
     (default true (merge2markdown inp))].
Proof.
unfold handler_process. rewrite bind_trace_cases, pipeline_process_trace.
destruct (pipeline_process _ _ _ _ _ w).1.1 as [e|r]; [reflexivity|].
now rewrite (proj2 (assemble_only_reads _ _ _ _ _ _ _)).
Qed.

Lemma resolve_event_trace temp_dir inp (w : world) :
((resolve_event (Results:=Results) requests_get temp_dir inp w).2 = []
 ∨ ∃ u, url inp = Some u ∧ file_base64 inp = None
        ∧ (resolve_event (Results:=Results) requests_get temp_dir inp w).2 = [EvGet u])
∧ ∀ p, (resolve_event (Results:=Results) requests_get temp_dir inp w).1.1 = inr (inr p) →
       ∃ name, Py.has_char "/" name = false ∧ p = OsPath.join temp_dir name.
Proof.
unfold resolve_event. destruct (file_base64 inp) as [payload|] eqn:Hf.
- unfold open_wb. unfold_monad. cbn.
  destruct (b64decode payload) as [e|data]; cbn; [split; [now left | discriminate]|].
  destruct (write_file _ _ _) as [e|f']; cbn; [split; [now left | discriminate]|].
  split; [now left|]. intros p [= <-]. now exists "input.pdf".
- destruct (url inp) as [u|] eqn:Hu; [|split; [now left | discriminate]].
  destruct (download_run requests_get temp_dir u w) as (Ht & _ & _).
  pose proof (download_path requests_get temp_dir u w) as Hp.
  unfold try_except, mbind, M_bind, bind, ret.
  destruct (download requests_get temp_dir u w) as [[[e|p0] w1] t1]; cbn in *; subst t1.
  + split; [right; exists u; now rewrite app_nil_r | discriminate].
  + split; [right; exists u; eauto|].
    intros p [= <-]. destruct (Hp p0 eq_refl) as [ctype ->].
    exists ("downloaded" ++ infer_ext ctype u). split; [|reflexivity].
    rewrite has_char_app. apply infer_ext_no_sep.
Qed.

End Effects.

(** X14: what [handler] does, and in which order.  Its effects are: at
    most one initialization, first, and only in a process that is not
    warm; then, unless that raised, the creation of the workspace, at
    most one fetch -- of the request's [url], and only when there is no
    [file_base64] -- at most one call of the pipeline, and the cleanup of
    the workspace, last.  The pipeline gets a file directly in the
    workspace as input and the workspace as [save_dir], with [visualize]
    defaulting to false and [merge2markdown] to true. *)
Theorem handler_effects_in_order {Results : Type}
    (requests_get : string → pyexn + response) (initialize_outcome : init_outcome)
    (process : filesystem → option string → string → bool → bool
               → (pyexn + Results) * filesystem)
    (decode_text : bytes → pyexn + string) (mkdtemp : filesystem → string)
    (format_exc : pyexn → string) (w : world) (event : request) :
  let t := (handler requests_get initialize_outcome process decode_text mkdtemp format_exc
              event w).2 in
  let inp := default empty_input (input event) in
  let temp_dir := mkdtemp (fs w) in
  ∃ ti tg tp,
    ((ti = [] ∧ warm_globals (glob w)) ∨ (ti = [EvInitialize] ∧ ¬ warm_globals (glob w)))
    ∧ (tg = [] ∨ ∃ u, url inp = Some u ∧ file_base64 inp = None ∧ tg = [EvGet u])
    ∧ (tp = [] ∨ ∃ name, Py.has_char "/" name = false
                         ∧ tp = [EvProcess (Some (OsPath.join temp_dir name)) temp_dir
                                   (default false (visualize inp))
                                   (default true (merge2markdown inp))])
    ∧ ((t = [EvInitialize] ∧ ti = [EvInitialize] ∧ initialize_outcome ≠ InitOk)
       ∨ t = (ti ++ EvMkdtemp temp_dir :: tg ++ tp ++ [EvCleanup temp_dir])%list).
Proof.
  intros t inp temp_dir. subst t.
  rewrite (proj2 (handler_world _ _ _ _ _ format_exc event w)).
  (* the workspace part, in any world with the same file system *)
  assert (Hws : ∀ g, ∃ tg tp,
    (tg = [] ∨ ∃ u, url inp = Some u ∧ file_base64 inp = None ∧ tg = [EvGet u])
    ∧ (tp = [] ∨ ∃ name, Py.has_char "/" name = false
                         ∧ tp = [EvProcess (Some (OsPath.join temp_dir name)) temp_dir
                                   (default false (visualize inp))
                                   (default true (merge2markdown inp))])
    ∧ (with_TemporaryDirectory mkdtemp (λ temp_dir,
         r ← resolve_event requests_get temp_dir inp;
         match r with
         | inl early => ret early
         | inr file_path => handler_process process decode_text temp_dir inp file_path
         end) (World (fs w) g)).2
      = (EvMkdtemp temp_dir :: tg ++ tp ++ [EvCleanup temp_dir])%list).
  { intros g. unfold with_TemporaryDirectory. cbn [fs glob]. fold temp_dir.
    set (w1 := World _ g).
    pose proof (bind_trace_cases (resolve_event requests_get temp_dir inp)
                  (λ r, match r with
                        | inl early => ret early
                        | inr file_path =>
                            handler_process process decode_text temp_dir inp file_path
                        end) w1) as Hb.
    destruct (resolve_event_trace (Results:=Results) requests_get temp_dir inp w1)
      as [Hg Hp].
    destruct ((resolve_event requests_get temp_dir inp ≫= _) w1) as [[r w2] tb] eqn:Hrun.
    cbn [snd] in Hb |- *. subst tb.
    exists (resolve_event (Results:=Results) requests_get temp_dir inp w1).2.
    destruct (resolve_event requests_get temp_dir inp w1).1.1 as [e|[early|p]] eqn:Hres.
    - exists []. split; [exact Hg|]. split; [now left|]. now rewrite !app_nil_r.
    - exists []. split; [exact Hg|]. split; [now left|]. cbn. now rewrite !app_nil_r.
    - destruct (Hp p eq_refl) as (name & Hname & ->).
      exists [EvProcess (Some (OsPath.join temp_dir name)) temp_dir
                (default false (visualize inp)) (default true (merge2markdown inp))].
      split; [exact Hg|]. split; [right; eauto|].
      rewrite handler_process_trace. now rewrite <- app_assoc. }
  subst inp. unfold handler_try.
  rewrite (bind_run get_glob _ w (glob w) w [] eq_refl). cbn [snd app].
  assert (Hinit :
    (∃ g ti, (if negb (task_instances (glob w)) || negb (pdf_extract_task (glob w))
              then initialize_models initialize_outcome else ret tt) w
             = (inr tt, World (fs w) g, ti)
             ∧ ((ti = [] ∧ warm_globals (glob w))
                ∨ (ti = [EvInitialize] ∧ ¬ warm_globals (glob w))))
    ∨ (∃ e w1, (if negb (task_instances (glob w)) || negb (pdf_extract_task (glob w))
                then initialize_models initialize_outcome else ret tt) w
               = (inl e, w1, [EvInitialize])
               ∧ ¬ warm_globals (glob w) ∧ initialize_outcome ≠ InitOk)).
  { destruct w as [f [ti pt]]. unfold warm_globals. cbn [glob task_instances pdf_extract_task fs].
    destruct ti, pt; cbn [negb orb].
    - left. exists (Globals true true), []. split; [reflexivity|]. left. now repeat split.
    - destruct initialize_outcome as [|e|e]; unfold initialize_models; unfold_monad; cbn.
      + left. exists (Globals true true), [EvInitialize]. split; [reflexivity|].
        right. split; [reflexivity | intros [_ [=]]].
      + right. eexists e, _. split; [reflexivity|]. split; [intros [_ [=]] | discriminate].
      + right. eexists e, _. split; [reflexivity|]. split; [intros [_ [=]] | discriminate].
    - destruct initialize_outcome as [|e|e]; unfold initialize_models; unfold_monad; cbn.
      + left. exists (Globals true true), [EvInitialize]. split; [reflexivity|].
        right. split; [reflexivity | intros [[=] _]].
      + right. eexists e, _. split; [reflexivity|]. split; [intros [[=] _] | discriminate].
      + right. eexists e, _. split; [reflexivity|]. split; [intros [[=] _] | discriminate].
    - destruct initialize_outcome as [|e|e]; unfold initialize_models; unfold_monad; cbn.
      + left. exists (Globals true true), [EvInitialize]. split; [reflexivity|].
        right. split; [reflexivity | intros [[=] _]].
      + right. eexists e, _. split; [reflexivity|]. split; [intros [[=] _] | discriminate].
      + right. eexists e, _. split; [reflexivity|]. split; [intros [[=] _] | discriminate]. }
  destruct Hinit as [(g & ti & Hrun & Hti) | (e & w1 & Hrun & Hcold & Hne)].
  - rewrite (bind_run _ _ _ _ _ _ Hrun). cbn [snd].
    destruct (Hws g) as (tg & tp & Hg & Hp & ->).
    exists ti, tg, tp. split; [exact Hti|]. split; [exact Hg|]. split; [exact Hp|]. now right.
  - unfold mbind at 1. unfold M_bind, bind. rewrite Hrun. cbn [snd].
    exists [EvInitialize], [], [].
    split; [right; now split|]. split; [now left|]. split; [now left|]. left. now repeat split.
Qed.

(** ** Outside the workspace *)

#[local] Instance same_outside_refl (d : string) : Reflexive (same_outside d).
Proof. intros f p _. tauto. Qed.

#[local] Instance same_outside_trans (d : string) : Transitive (same_outside d).
Proof.
  intros f1 f2 f3 H12 H23 p Hp.
  destruct (H12 p Hp) as [Ha Hb]. destruct (H23 p Hp) as [Hc Hd].
  split; [congruence | tauto].
Qed.

#[local] Instance on_fs_refl (d : string) :
  Reflexive (λ w w', same_outside d (fs w) (fs w')).
Proof. intros w. reflexivity. Qed.

#[local] Instance on_fs_trans (d : string) :
  Transitive (λ w w', same_outside d (fs w) (fs w')).
Proof. intros w1 w2 w3 H1 H2. simpl in *. etransitivity; eassumption. Qed.

Lemma startswith_app (a b : string) : Py.startswith (a ++ b) a = true.
Proof.
  induction a as [|c a IH]; [now destruct b|].
  simpl. now rewrite Ascii.eqb_refl.
Qed.

Lemma startswith_sep_has_char (name : string) :
  Py.has_char "/" name = false → Py.startswith name "/" = false.
Proof. apply startswith_absent. Qed.

(** A name that does not start with the separator is joined below the
    directory. *)
Lemma under_join (d name : string) :
  tempdir_ok d = true → Py.startswith name "/" = false →
  under d (OsPath.join d name) = true.
Proof.
  intros Hd Hn. unfold tempdir_ok in Hd. apply andb_true_iff in Hd as [Ht He].
  apply negb_true_iff in He.
  unfold OsPath.join, under. change (String OsPath.sep "") with "/".
  rewrite Hn, Ht, He. cbn [negb orb].
  rewrite <- str_app_assoc, startswith_app. apply orb_true_r.
Qed.

Lemma same_outside_mkdir (d : string) (f : filesystem) :
  same_outside d f (MkFS (files f) ({[d]} ∪ dirs f)).
Proof.
  intros p Hp. split; [reflexivity|]. simpl.
  rewrite elem_of_union, elem_of_singleton. split; [|tauto].
  intros [->|H]; [|exact H]. now rewrite under_refl in Hp.
Qed.

Lemma same_outside_rmtree (d : string) (f : filesystem) : same_outside d f (rmtree d f).
Proof.
  intros p Hp. unfold rmtree. simpl. split.
  - destruct (files f !! p) as [data|] eqn:Hf.
    + apply map_lookup_filter_Some. now split.
    + apply map_lookup_filter_None. left. exact Hf.
  - rewrite elem_of_filter. tauto.
Qed.

Lemma same_outside_write (d p : string) (f f' : filesystem) (data : bytes) :
  under d p = true → write_file f p data = inr f' → same_outside d f f'.
Proof.
  intros Hp. unfold write_file. destruct (_ || _); [discriminate|].
  destruct (isdir _ _); [|discriminate].
  intros [= <-] q Hq. simpl. split; [|reflexivity].
  apply lookup_insert_ne. intros ->. congruence.
Qed.

Section Frame.
Context {Results : Type}.
Variable requests_get : string → pyexn + response.
Variable initialize_outcome : init_outcome.
Variable process :
filesystem → option string → string → bool → bool → (pyexn + Results) * filesystem.
Variable decode_text : bytes → pyexn + string.
Variable mkdtemp : filesystem → string.
Variable d0 : string.
Hypothesis process_frame : writes_in_save_dir process d0.

Lemma frame_open_wb (d p : string) (data : bytes) :
under d p = true → relates (λ w w', same_outside d (fs w) (fs w')) (open_wb p data).
Proof.
intros Hp w. unfold open_wb. unfold_monad. cbn.
destruct (write_file (fs w) p data) as [e|f'] eqn:Hw; cbn; [reflexivity|].
eapply same_outside_write; eassumption.
Qed.

Lemma frame_initialize_models (d : string) :
relates (λ w w', same_outside d (fs w) (fs w')) (initialize_models initialize_outcome).
Proof.
intros w. unfold initialize_models. unfold_monad.
destruct initialize_outcome; cbn; reflexivity.
Qed.

Lemma frame_pipeline_process file_path visualize merge2markdown :
relates (λ w w', same_outside d0 (fs w) (fs w'))
  (pipeline_process process file_path d0 visualize merge2markdown).
Proof.
intros w. unfold pipeline_process. unfold_monad. cbn.
pose proof (process_frame (fs w) file_path visualize merge2markdown) as H.
destruct (process (fs w) file_path d0 visualize merge2markdown) as [[e|r] f']; exact H.
Qed.

Lemma frame_download (d url : string) :
tempdir_ok d = true →
relates (λ w w', same_outside d (fs w) (fs w')) (download requests_get d url).
Proof.
intros Hd.
unfold download.
apply relates_bind; [apply _ | apply relates_emit; apply _ | intros _].
apply relates_bind; [apply _ | apply relates_lift; apply _ | intros resp].
apply relates_bind; [apply _ | apply relates_lift; apply _ | intros _].
apply relates_bind; [apply _ | | intros _; apply relates_ret; apply _].
apply frame_open_wb. apply under_join; [exact Hd|].
apply startswith_sep_has_char. rewrite has_char_app. apply infer_ext_no_sep.
Qed.

Lemma frame_assemble (d : string) temp_dir file_path visualize merge2markdown
  (results : Results) :
relates (λ w w', same_outside d (fs w) (fs w'))
  (assemble decode_text temp_dir file_path visualize merge2markdown results).
Proof.
apply relates_pure; [apply _|]. intros w. apply assemble_only_reads.
Qed.

Lemma frame_with_TemporaryDirectory {A} (body : string → M A) (w : world) :
(∀ d, d = mkdtemp (fs w) →
      relates (λ w w', same_outside d (fs w) (fs w')) (body d)) →
same_outside (mkdtemp (fs w)) (fs w) (fs (with_TemporaryDirectory mkdtemp body w).1.2).
Proof.
intros Hb. unfold with_TemporaryDirectory.
set (d := mkdtemp (fs w)). set (w1 := World _ _).
specialize (Hb d eq_refl w1).
destruct (body d w1) as [[r w2] t]. cbn in *.
etransitivity; [apply same_outside_mkdir|].
etransitivity; [exact Hb|]. apply same_outside_rmtree.
Qed.

Lemma frame_rest_http file_path visualize merge2markdown :
relates (λ w w', same_outside d0 (fs w) (fs w'))
  (results ← process_pdf_file initialize_outcome process file_path d0 visualize
               merge2markdown;
   assemble decode_text d0 file_path visualize merge2markdown results).
Proof.
apply relates_bind; [apply _ | | intros r; apply frame_assemble].
unfold process_pdf_file.
apply relates_bind; [apply _ | apply relates_get_glob; apply _ | intros g].
apply relates_bind; [apply _ | | intros _; apply frame_pipeline_process].
destruct (pdf_extract_task g); [apply relates_ret; apply _ | apply frame_initialize_models].
Qed.

Lemma frame_process_pdf file url visualize merge2markdown (w : world) :
mkdtemp (fs w) = d0 →
tempdir_ok (mkdtemp (fs w)) = true →
(∀ f, file = Some f → Py.has_char "/" (filename f) = false) →
same_outside (mkdtemp (fs w)) (fs w)
  (fs (process_pdf requests_get initialize_outcome process decode_text mkdtemp
         file url visualize merge2markdown w).1.2).
Proof.
intros Hd0 Hd Hname. unfold process_pdf.
destruct (_ && _); [reflexivity|].
apply frame_with_TemporaryDirectory. intros d ->. rewrite Hd0 in *.
apply relates_bind; [apply _ | | intros file_path; apply frame_rest_http].
unfold resolve_http. destruct file as [f|].
- apply relates_bind; [apply _ | | intros _; apply relates_ret; apply _].
  apply frame_open_wb. apply under_join; [exact Hd|].
  apply startswith_sep_has_char. now apply Hname.
- destruct (truthy_opt url); [|apply relates_ret; apply _].
  apply relates_try_except; [apply _ | | intros e; apply relates_raise; apply _].
  apply relates_bind; [apply _ | now apply frame_download | intros p].
  apply relates_ret; apply _.
Qed.

Lemma frame_event_workspace (inp : input_data) (w : world) :
mkdtemp (fs w) = d0 →
tempdir_ok (mkdtemp (fs w)) = true →
same_outside (mkdtemp (fs w)) (fs w)
  (fs (with_TemporaryDirectory mkdtemp (λ temp_dir,
         r ← resolve_event requests_get temp_dir inp;
         match r with
         | inl early => ret early
         | inr file_path => handler_process process decode_text temp_dir inp file_path
         end) w).1.2).
Proof.
intros Hd0 Hd. apply frame_with_TemporaryDirectory. intros d ->. rewrite Hd0 in *.
apply relates_bind; [apply _ | | intros [early|file_path]].
- unfold resolve_event. destruct (file_base64 _) as [payload|].
  + apply relates_bind; [apply _ | apply relates_lift; apply _ | intros data].
    apply relates_bind; [apply _ | | intros _; apply relates_ret; apply _].
    apply frame_open_wb. now apply under_join.
  + destruct (url _) as [u|]; [|apply relates_ret; apply _].
    apply relates_try_except; [apply _ | | intros e; apply relates_ret; apply _].
    apply relates_bind; [apply _ | now apply frame_download | intros p].
    apply relates_ret; apply _.
- apply relates_ret; apply _.
- unfold handler_process.
  apply relates_bind; [apply _ | apply frame_pipeline_process | intros r].
  apply frame_assemble.
Qed.

Lemma frame_handler_try (event : request) (w : world) :
mkdtemp (fs w) = d0 →
tempdir_ok (mkdtemp (fs w)) = true →
same_outside (mkdtemp (fs w)) (fs w)
  (fs (handler_try requests_get initialize_outcome process decode_text mkdtemp
         event w).1.2).
Proof.
intros Hd0 Hd. unfold handler_try.
rewrite (bind_run get_glob _ w (glob w) w [] eq_refl). cbn [fst snd].
unfold mbind at 1. unfold M_bind, bind.
destruct ((if negb (task_instances (glob w)) || negb (pdf_extract_task (glob w))
           then initialize_models initialize_outcome else ret tt) w)
  as [[[e|[]] w1] t1] eqn:Hinit.
- assert (Hfs : fs w1 = fs w).
  { destruct (_ || _); [|now injection Hinit as _ <- _].
    unfold initialize_models in Hinit. unfold_monad.
    destruct initialize_outcome; cbn in Hinit; injection Hinit as _ <- _; reflexivity. }
  cbn. rewrite Hfs. reflexivity.
- assert (Hfs : fs w1 = fs w).
  { destruct (_ || _); [|now injection Hinit as <- _].
    unfold initialize_models in Hinit. unfold_monad.
    destruct initialize_outcome; cbn in Hinit; try discriminate.
    injection Hinit as <- _. reflexivity. }
  pose proof (frame_event_workspace (default empty_input (input event)) w1) as H.
  rewrite Hfs in H. specialize (H Hd0 Hd).
  destruct (with_TemporaryDirectory _ _ w1) as [[r w2] t2]. exact H.
Qed.

End Frame.

(** X15: a request touches nothing outside its workspace.  When the
    pipeline, called with the workspace as [save_dir], writes only below it and the workspace name is
    one [tempfile] gives (not empty, no trailing separator), then on the
    event surface, and on the HTTP surface for an upload whose file name
    has no separator, every path outside the workspace tree holds after
    the request what it held before: the same file content, the same
    directories -- whether the request succeeds or fails. *)
Theorem nothing_changes_outside_the_workspace {Results : Type}
    (requests_get : string → pyexn + response) (initialize_outcome : init_outcome)
    (process : filesystem → option string → string → bool → bool
               → (pyexn + Results) * filesystem)
    (decode_text : bytes → pyexn + string) (mkdtemp : filesystem → string)
    (format_exc : pyexn → string) (w : world) :
  writes_in_save_dir process (mkdtemp (fs w)) →
  tempdir_ok (mkdtemp (fs w)) = true →
  (∀ event,
     same_outside (mkdtemp (fs w)) (fs w)
       (fs (handler requests_get initialize_outcome process decode_text mkdtemp format_exc
              event w).1.2))
  ∧ (∀ file url visualize merge2markdown,
       (∀ f, file = Some f → Py.has_char "/" (filename f) = false) →
       same_outside (mkdtemp (fs w)) (fs w)
         (fs (process_pdf requests_get initialize_outcome process decode_text mkdtemp
                file url visualize merge2markdown w).1.2)).
Proof.
  intros Hp Hd. split.
  - intros event. rewrite (proj1 (handler_world _ _ _ _ _ format_exc event w)).
    now apply (frame_handler_try _ _ _ _ _ (mkdtemp (fs w))).
  - intros file url visualize merge2markdown Hname.
    now apply (frame_process_pdf _ _ _ _ _ (mkdtemp (fs w))).
Qed.

(** ** What a request leaves behind *)

Lemma filesystem_ext (f f' : filesystem) :
  (∀ p, files f' !! p = files f !! p) → (∀ p, p ∈ dirs f' ↔ p ∈ dirs f) → f' = f.
Proof.
  destruct f as [fl dl], f' as [fl' dl']. simpl. intros Hf Hd. f_equal.
  - now apply map_eq.
  - apply leibniz_equiv. intros p. apply Hd.
Qed.

Lemma absent_lookup (f : filesystem) (d p : string) :
  absent f d → under d p = true → files f !! p = None ∧ p ∉ dirs f.
Proof.
  intros Ha Hp. specialize (Ha p Hp). unfold path_exists, isfile, isdir in Ha.
  apply orb_false_iff in Ha as [H1 H2].
  apply bool_decide_eq_false in H1, H2. split; [|exact H2].
  destruct (files f !! p); [|reflexivity]. exfalso. apply H1. eauto.
Qed.

(** Outside the workspace nothing changed, inside nothing is left: the
    file system is the one the request found. *)
Lemma restored (d : string) (f f' : filesystem) :
  absent f d → same_outside d f f' → (f' = f ∨ absent f' d) → f' = f.
Proof.
  intros Hfresh Hout [->|Hgone]; [reflexivity|].
  apply filesystem_ext; intros p; destruct (under d p) eqn:Hp.
  - destruct (absent_lookup f d p Hfresh Hp) as [-> _].
    now destruct (absent_lookup f' d p Hgone Hp) as [-> _].
  - apply (Hout p Hp).
  - destruct (absent_lookup f d p Hfresh Hp) as [_ H1].
    destruct (absent_lookup f' d p Hgone Hp) as [_ H2]. tauto.
  - apply (Hout p Hp).
Qed.

Lemma bind_fail {A B} (c : M A) (k : A → M B) (w : world) (e : pyexn) (w1 : world)
    (t1 : list effect) :
  c w = (inl e, w1, t1) → (c ≫= k) w = (inl e, w1, t1).
Proof. intros H. unfold mbind, M_bind, bind. now rewrite H. Qed.

Lemma with_TemporaryDirectory_absent {A} (mkdtemp : filesystem → string)
    (body : string → M A) (w : world) :
  absent (fs (with_TemporaryDirectory mkdtemp body w).1.2) (mkdtemp (fs w)).
Proof.
  unfold with_TemporaryDirectory. destruct (body _ _) as [[r w2] t]. apply rmtree_absent.
Qed.

Section Residue.
Context {Results : Type}.
Variable requests_get : string → pyexn + response.
Variable initialize_outcome : init_outcome.
Variable process :
filesystem → option string → string → bool → bool → (pyexn + Results) * filesystem.
Variable decode_text : bytes → pyexn + string.
Variable mkdtemp : filesystem → string.

Lemma process_pdf_final_fs file url visualize merge2markdown (w : world) :
fs (process_pdf requests_get initialize_outcome process decode_text mkdtemp
      file url visualize merge2markdown w).1.2 = fs w
∨ absent (fs (process_pdf requests_get initialize_outcome process decode_text mkdtemp
                file url visualize merge2markdown w).1.2) (mkdtemp (fs w)).
Proof.
unfold process_pdf. destruct (_ && _); [now left|].
right. apply with_TemporaryDirectory_absent.
Qed.

Lemma handler_try_final_fs (event : request) (w : world) :
fs (handler_try requests_get initialize_outcome process decode_text mkdtemp event w).1.2
= fs w
∨ absent (fs (handler_try requests_get initialize_outcome process decode_text mkdtemp
                event w).1.2) (mkdtemp (fs w)).
Proof.
unfold handler_try.
rewrite (bind_run get_glob _ w (glob w) w [] eq_refl). cbn [fst snd].
destruct ((if negb (task_instances (glob w)) || negb (pdf_extract_task (glob w))
           then initialize_models initialize_outcome else ret tt) w)
  as [[[e|[]] w1] t1] eqn:Hinit.
- left. rewrite (bind_fail _ _ _ _ _ _ Hinit). cbn [fst snd].
  destruct (_ || _); [|now injection Hinit as _ <- _].
  unfold initialize_models in Hinit. unfold_monad.
  destruct initialize_outcome; cbn in Hinit; injection Hinit as _ <- _; reflexivity.
- right. rewrite (bind_run _ _ _ _ _ _ Hinit). cbn [fst snd].
  assert (Hfs : fs w1 = fs w).
  { destruct (_ || _); [|now injection Hinit as <- _].
    unfold initialize_models in Hinit. unfold_monad.
    destruct initialize_outcome; cbn in Hinit; try discriminate.
    injection Hinit as <- _. reflexivity. }
  rewrite <- Hfs. apply with_TemporaryDirectory_absent.
Qed.

End Residue.

(** X16: a request leaves no residue.  When the workspace name is fresh
    (nothing exists at it or below it), is one [tempfile] gives, and the
    pipeline writes only below the workspace, the file system after the
    request is exactly the file system before it -- on the event surface
    for every event, on the HTTP surface for every request whose upload
    name has no separator -- whether the request succeeds, is rejected or
    raises. *)
Theorem request_leaves_no_residue {Results : Type}
    (requests_get : string → pyexn + response) (initialize_outcome : init_outcome)
    (process : filesystem → option string → string → bool → bool
               → (pyexn + Results) * filesystem)
    (decode_text : bytes → pyexn + string) (mkdtemp : filesystem → string)
    (format_exc : pyexn → string) (w : world) :
  writes_in_save_dir process (mkdtemp (fs w)) →
  tempdir_ok (mkdtemp (fs w)) = true →
  absent (fs w) (mkdtemp (fs w)) →
  (∀ event,
     fs (handler requests_get initialize_outcome process decode_text mkdtemp format_exc
           event w).1.2 = fs w)
  ∧ (∀ file url visualize merge2markdown,
       (∀ f, file = Some f → Py.has_char "/" (filename f) = false) →
       fs (process_pdf requests_get initialize_outcome process decode_text mkdtemp
             file url visualize merge2markdown w).1.2 = fs w).
Proof.
  intros Hp Hd Hfresh. split.
  - intros event. rewrite (proj1 (handler_world _ _ _ _ _ format_exc event w)).
    apply (restored (mkdtemp (fs w))); [exact Hfresh | |].
    + now apply (frame_handler_try _ _ _ _ _ (mkdtemp (fs w))).
    + apply handler_try_final_fs.
  - intros file url visualize merge2markdown Hname.
    apply (restored (mkdtemp (fs w))); [exact Hfresh | |].
    + now apply (frame_process_pdf _ _ _ _ _ (mkdtemp (fs w))).
    + apply process_pdf_final_fs.
Qed.

(** X17: an upload with an absolute file name leaves the workspace.
    [os.path.join] drops the workspace when the file name starts with the
    separator: the upload is written at that path itself, and when the
    path is not below the workspace the file is still there, with the
    uploaded bytes, after the request has ended and the workspace has
    been removed (the pipeline writing only below the workspace). *)
Theorem absolute_upload_name_escapes {Results : Type}
    (requests_get : string → pyexn + response) (initialize_outcome : init_outcome)
    (process : filesystem → option string → string → bool → bool
               → (pyexn + Results) * filesystem)
    (decode_text : bytes → pyexn + string) (mkdtemp : filesystem → string)
    (w : world) (f : UploadFile) (url : option string) (visualize merge2markdown : bool)
    (f1 : filesystem) :
  let temp_dir := mkdtemp (fs w) in
  let made := MkFS (files (fs w)) ({[temp_dir]} ∪ dirs (fs w)) in
  Py.startswith (filename f) "/" = true →
  under temp_dir (filename f) = false →
  writes_in_save_dir process temp_dir →
  write_file made (filename f) (upload_bytes f) = inr f1 →
  OsPath.join temp_dir (filename f) = filename f
  ∧ files (fs (process_pdf requests_get initialize_outcome process decode_text mkdtemp
                 (Some f) url visualize merge2markdown w).1.2) !! filename f
    = Some (upload_bytes f).
Proof.
  intros temp_dir made Habs Hout Hp Hw. subst made. cbn zeta.
  set (made := MkFS (files (fs w)) ({[temp_dir]} ∪ dirs (fs w))) in *.
  assert (Hjoin : OsPath.join temp_dir (filename f) = filename f).
  { unfold OsPath.join. change (String OsPath.sep "") with "/". now rewrite Habs. }
  split; [exact Hjoin|].
  unfold process_pdf.
  change (bool_decide (Some f = None) && bool_decide (url = None)) with false.
  cbv iota. unfold with_TemporaryDirectory.
  change (mkdtemp (fs w)) with temp_dir.
  change (MkFS (files (fs w)) ({[temp_dir]} ∪ dirs (fs w))) with made.
  assert (Hres : resolve_http requests_get temp_dir (Some f) url (World made (glob w))
                 = (inr (Some (filename f)), World f1 (glob w), [])).
  { unfold resolve_http, open_wb. unfold_monad. cbn. rewrite Hjoin. cbn in Hw. now rewrite Hw. }
  rewrite (bind_run _ _ _ _ _ _ Hres). cbn [fst snd].
  pose proof (frame_rest_http initialize_outcome process decode_text temp_dir Hp
                (Some (filename f)) visualize merge2markdown (World f1 (glob w))) as Hrest.
  cbn [fs] in Hrest.
  match type of Hrest with
  | same_outside _ _ (fs (?c ?w0).1.2) => destruct (c w0) as [[r w2] t2]
  end.
  cbn [fst snd fs] in *.
  destruct (same_outside_rmtree temp_dir (fs w2) (filename f) Hout) as [-> _].
  destruct (Hrest (filename f) Hout) as [-> _].
  eapply write_file_lookup. exact Hw.
Qed.

(** ** File names *)

Lemma rfind_from_found (c : ascii) (s : string) (k last : Z) :
  last < k →
  Py.rfind_from c s k last = last
  ∨ (k <= Py.rfind_from c s k last
     ∧ ∃ rest, Py.drop (Z.to_nat (Py.rfind_from c s k last - k)) s = String c rest).
Proof.
  revert k last; induction s as [|a s IH]; intros k last Hl; simpl; [now left|].
  destruct (Ascii.eqb_spec a c) as [->|Hne].
  - right. destruct (IH (k + 1) k ltac:(lia)) as [Heq | [Hge [rest Hrest]]].
    + rewrite Heq. split; [lia|]. replace (k - k) with 0 by lia. simpl. eauto.
    + split; [lia|]. exists rest.
      replace (Z.to_nat (Py.rfind_from c s (k + 1) k - k))
        with (S (Z.to_nat (Py.rfind_from c s (k + 1) k - (k + 1)))) by lia.
      exact Hrest.
  - destruct (IH (k + 1) last ltac:(lia)) as [Heq | [Hge [rest Hrest]]].
    + now left.
    + right. split; [lia|]. exists rest.
      replace (Z.to_nat (Py.rfind_from c s (k + 1) last - k))
        with (S (Z.to_nat (Py.rfind_from c s (k + 1) last - (k + 1)))) by lia.
      exact Hrest.
Qed.

(** The extension [splitext] returns is empty or starts with a dot. *)
Lemma splitext_ext_dot (p : string) :
  (OsPath.splitext p).2 = "" ∨ Py.startswith (OsPath.splitext p).2 "." = true.
Proof.
  unfold OsPath.splitext.
  destruct (Z.gtb_spec (Py.rfind OsPath.extsep p) (Py.rfind OsPath.sep p)) as [Hgt|];
    [|now left].
  destruct (OsPath.splitext_scan _ _ _ _) as [r|] eqn:Hscan; [|now left].
  apply splitext_scan_result in Hscan as ->. simpl. right.
  pose proof (rfind_bounds OsPath.sep p) as Hs.
  pose proof (rfind_bounds OsPath.extsep p) as Hd.
  destruct (rfind_from_found OsPath.extsep p 0 (-1) ltac:(lia)) as [Heq | [Hge [rest Hrest]]].
  - unfold Py.rfind in *. lia.
  - fold (Py.rfind OsPath.extsep p) in Hge, Hrest.
    unfold Py.slice_from. rewrite bound_inside by lia.
    rewrite Z.sub_0_r in Hrest. rewrite Hrest. simpl. now destruct rest.
Qed.

Lemma infer_ext_dot (ctype url : string) : Py.startswith (infer_ext ctype url) "." = true.
Proof.
  unfold infer_ext.
  destruct (Py.contains "pdf" _); [reflexivity|].
  destruct (Py.contains "image" _); [reflexivity|].
  destruct (splitext_ext_dot url) as [-> | H]; [reflexivity|].
  destruct (OsPath.splitext url).2; [discriminate | exact H].
Qed.

(** X18: a download cannot leave the workspace.  Whatever the URL and
    the content type, a download that returns has written a file directly
    in the workspace: its path is the workspace joined with [downloaded]
    and an extension that starts with a dot and holds no separator, so the
    base name of the path is that name and the path lies below the
    workspace; and the file holds the body of the response. *)
Theorem download_stays_in_workspace (requests_get : string → pyexn + response)
    (temp_dir url : string) (w : world) (p : string) :
  (download requests_get temp_dir url w).1.1 = inr p →
  ∃ ext resp,
    requests_get url = inr resp
    ∧ p = OsPath.join temp_dir ("downloaded" ++ ext)
    ∧ Py.startswith ext "." = true
    ∧ Py.has_char "/" ext = false
    ∧ OsPath.basename p = "downloaded" ++ ext
    ∧ (tempdir_ok temp_dir = true → under temp_dir p = true)
    ∧ files (fs (download requests_get temp_dir url w).1.2) !! p = Some (content resp).
Proof.
  unfold download, open_wb. unfold_monad. cbn -[OsPath.join String.append infer_ext].
  destruct (requests_get url) as [e|resp]; cbn -[OsPath.join String.append infer_ext];
    [discriminate|].
  destruct (raise_for_status resp) as [e|[]]; cbn -[OsPath.join String.append infer_ext];
    [discriminate|].
  destruct (write_file _ _ _) as [e|f'] eqn:Hw; cbn -[OsPath.join String.append infer_ext];
    [discriminate|].
  intros [= <-].
  exists (infer_ext (default "" (content_type resp)) url), resp.
  assert (Hsep : Py.has_char "/" ("downloaded"
                   ++ infer_ext (default "" (content_type resp)) url) = false).
  { rewrite has_char_app. apply infer_ext_no_sep. }
  split; [reflexivity|]. split; [reflexivity|]. split; [apply infer_ext_dot|].
  split; [apply infer_ext_no_sep|]. split; [now apply basename_join|].
  split.
  - intros Hd. apply under_join; [exact Hd|]. now apply startswith_sep_has_char.
  - eapply write_file_lookup. exact Hw.
Qed.

Lemma download_stays_in_workspace_witness :
  ∃ ext resp,
    Scenario.get_ok "http://host/a/b.tar.gz?sig=1" = inr resp
    ∧ "/tmp/tmpk3v9/downloaded.gz?sig=1" = OsPath.join "/tmp/tmpk3v9" ("downloaded" ++ ext)
    ∧ Py.startswith ext "." = true
    ∧ Py.has_char "/" ext = false
    ∧ OsPath.basename "/tmp/tmpk3v9/downloaded.gz?sig=1" = "downloaded" ++ ext
    ∧ (tempdir_ok "/tmp/tmpk3v9" = true
       → under "/tmp/tmpk3v9" "/tmp/tmpk3v9/downloaded.gz?sig=1" = true)
    ∧ files (fs (download Scenario.get_ok "/tmp/tmpk3v9" "http://host/a/b.tar.gz?sig=1"
                   Scenario.inside).1.2) !! "/tmp/tmpk3v9/downloaded.gz?sig=1"
      = Some (content resp).
Proof.
  apply (download_stays_in_workspace Scenario.get_ok "/tmp/tmpk3v9"
           "http://host/a/b.tar.gz?sig=1" Scenario.inside).
  reflexivity.
Defined.

Lemma slice_to_minus4 (stem ext : string) :
  String.length ext = 4%nat → Py.slice_to (stem ++ ext) (-4) = stem.
Proof.
  intros H. unfold Py.slice_to.
  replace (Py.bound (stem ++ ext) (-4)) with (String.length stem).
  - apply take_app_length.
  - unfold Py.bound, Py.len. rewrite str_length_app, H. simpl. lia.
Qed.

(** X19: when the fixed width is right.  For a file name without
    separator whose extension, dot included, has four characters, the
    artifact basename is the name without that extension.  So it is
    [input] for every base64 request and [downloaded] for every download
    whose content type names [pdf] or [image], and for such inputs the
    artifacts are looked up under the name the extension-aware split
    gives. *)
Theorem artifact_basename_with_four_character_extension (temp_dir stem ext : string) :
  Py.has_char "/" (stem ++ ext) = false →
  String.length ext = 4%nat →
  artifact_basename (OsPath.join temp_dir (stem ++ ext)) = stem
  ∧ artifact_basename (OsPath.join temp_dir "input.pdf") = "input"
  ∧ (∀ ctype url,
       Py.contains "pdf" (Py.lower ctype) || Py.contains "image" (Py.lower ctype) = true →
       artifact_basename (OsPath.join temp_dir ("downloaded" ++ infer_ext ctype url))
       = "downloaded").
Proof.
  intros Hsep Hlen.
  assert (H : ∀ s e, Py.has_char "/" (s ++ e) = false → String.length e = 4%nat →
                     artifact_basename (OsPath.join temp_dir (s ++ e)) = s).
  { intros s e Hs He. unfold artifact_basename.
    rewrite (basename_join _ _ Hs). now apply slice_to_minus4. }
  split; [now apply H|]. split; [now apply (H "input" ".pdf")|].
  intros ctype url Hct. apply H.
  - rewrite has_char_app. apply infer_ext_no_sep.
  - unfold infer_ext. destruct (Py.contains "pdf" _); [reflexivity|].
    cbn in Hct. now rewrite Hct.
Qed.

Lemma artifact_basename_with_four_character_extension_witness :
  artifact_basename (OsPath.join "/tmp/tmpk3v9" ("report.v2" ++ ".png")) = "report.v2"
  ∧ artifact_basename (OsPath.join "/tmp/tmpk3v9" "input.pdf") = "input"
  ∧ artifact_basename
      (OsPath.join "/tmp/tmpk3v9" ("downloaded" ++ infer_ext "image/jpeg" "http://host/x.jpeg"))
    = "downloaded".
Proof.
  destruct (artifact_basename_with_four_character_extension "/tmp/tmpk3v9" "report.v2" ".png"
              eq_refl eq_refl) as (H1 & H2 & H3).
  split; [exact H1|]. split; [exact H2|]. apply H3. reflexivity.
Defined.

(** ** Payloads with other characters *)

Lemma a2b_loop_strip (s : string) :
  ∀ st, Base64.a2b_loop s st = Base64.a2b_loop (b64_strip s) st.
Proof.
  induction s as [|c s IH]; intros st; [reflexivity|].
  unfold b64_strip; fold b64_strip. unfold b64_significant.
  destruct (Ascii.eqb c Base64.BASE64_PAD) eqn:Hpad.
  - cbn [orb]. simpl. rewrite Hpad. now rewrite IH.
  - cbn [orb]. destruct (Base64.table_a2b c) as [v|] eqn:Hv.
    + simpl. rewrite Hpad, Hv. now rewrite IH.
    + simpl. rewrite Hpad, Hv. apply IH.
Qed.

(** X20: characters that are no base64 digits are skipped.  A payload
    of ASCII characters decodes to the same bytes as the payload without
    its characters that are neither digits nor the pad (line breaks,
    blanks); in particular an encoding that was wrapped or spaced decodes
    to the bytes that were encoded. *)
Theorem payload_decoding_skips_other_characters (payload : string) :
  Base64.is_ascii payload = true →
  Base64.a2b_base64 payload = Base64.a2b_base64 (b64_strip payload)
  ∧ ∀ data, b64_strip payload = Base64.b64encode data → b64decode payload = inr data.
Proof.
  intros Hascii. split; [apply a2b_loop_strip|].
  intros data Henc. unfold b64decode. rewrite Hascii.
  unfold Base64.a2b_base64. rewrite a2b_loop_strip, Henc.
  now rewrite Base64Facts.a2b_loop_encoded.
Qed.

Lemma payload_decoding_skips_other_characters_witness :
  let payload := "JVBE" ++ String (ascii_of_nat 10) " Rg==" in
  Base64.a2b_base64 payload = Base64.a2b_base64 (b64_strip payload)
  ∧ b64decode payload = inr [Byte.x25; Byte.x50; Byte.x44; Byte.x46].
Proof.
  intros payload.
  destruct (payload_decoding_skips_other_characters payload eq_refl) as [H1 H2].
  split; [exact H1|]. apply H2. reflexivity.
Defined.

(** ** Initialization on the HTTP surface *)

(** X21: on the HTTP surface the models are initialized inside the
    workspace, after the input has been written, and only when
    [pdf_extract_task] is not set.  When [initialize_models] then raises,
    the exception leaves [process_pdf] as it is (no 400), the pipeline is
    not called, and the workspace with the upload in it is removed. *)
Theorem http_initialization_failure {Results : Type}
    (requests_get : string → pyexn + response) (initialize_outcome : init_outcome)
    (process : filesystem → option string → string → bool → bool
               → (pyexn + Results) * filesystem)
    (decode_text : bytes → pyexn + string) (mkdtemp : filesystem → string)
    (w : world) (f : UploadFile) (url : option string) (visualize merge2markdown : bool)
    (f1 : filesystem) (e : pyexn) (g' : globals) :
  let temp_dir := mkdtemp (fs w) in
  let made := MkFS (files (fs w)) ({[temp_dir]} ∪ dirs (fs w)) in
  pdf_extract_task (glob w) = false →
  write_file made (OsPath.join temp_dir (filename f)) (upload_bytes f) = inr f1 →
  (initialize_outcome = InitRaisesEarly e ∧ g' = glob w)
  ∨ (initialize_outcome = InitRaisesLate e ∧ g' = Globals true false) →
  process_pdf requests_get initialize_outcome process decode_text mkdtemp
    (Some f) url visualize merge2markdown w
  = (inl e, World (rmtree temp_dir f1) g',
     [EvMkdtemp temp_dir; EvInitialize; EvCleanup temp_dir]).
Proof.
  intros temp_dir made Hcold Hw Hinit. subst made temp_dir.
  unfold process_pdf, resolve_http, process_pdf_file, initialize_models, open_wb.
  unfold_monad. cbn in *. rewrite Hw. cbn. rewrite Hcold.
  destruct Hinit as [[-> ->] | [-> ->]]; cbn; [now destruct w|].
  now rewrite Hcold.
Qed.

Lemma http_initialization_failure_witness :
  process_pdf Scenario.get_ok (InitRaisesLate (PyErr "KeyError" "pdf2markdown"))
    Scenario.process_plain Scenario.decode_text Scenario.mkdtemp
    (Some (Upload "a.pdf" [Byte.x25])) None false true Scenario.cold
  = (inl (PyErr "KeyError" "pdf2markdown"),
     World (rmtree "/tmp/tmpk3v9"
              (MkFS (<["/tmp/tmpk3v9/a.pdf" := [Byte.x25]]> ∅)
                    ({[ "/tmp/tmpk3v9" ]} ∪ {[ "/tmp" ]})))
           (Globals true false),
     [EvMkdtemp "/tmp/tmpk3v9"; EvInitialize; EvCleanup "/tmp/tmpk3v9"]).
Proof.
  apply (http_initialization_failure Scenario.get_ok
           (InitRaisesLate (PyErr "KeyError" "pdf2markdown"))
           Scenario.process_plain Scenario.decode_text Scenario.mkdtemp Scenario.cold
           (Upload "a.pdf" [Byte.x25]) None false true
           (MkFS (<["/tmp/tmpk3v9/a.pdf" := [Byte.x25]]> ∅)
                 ({[ "/tmp/tmpk3v9" ]} ∪ {[ "/tmp" ]}))
           (PyErr "KeyError" "pdf2markdown") (Globals true false));
    [reflexivity | reflexivity | right; split; reflexivity].
Defined.

(** ** [initialize_models] *)

(** X22: what [initialize_models] does to the globals.  Read line by
    line, with the project's loader, builder and registry as parameters,
    it ends in one of three ways.  It returns the status string with both
    globals set; or it raises from [load_config] or
    [initialize_tasks_and_models] with both globals as they were; or it
    raises from reading a [model] attribute, from the registry or from the
    pipeline constructor, with [task_instances] assigned and
    [pdf_extract_task] as it was.  On the set/unset flags of the globals
    this is the step the request model takes. *)
Theorem initialize_models_outcomes {Config Model Pipeline : Type}
    (environ : gmap string string)
    (load_config : string → pyexn + Config)
    (initialize_tasks_and_models : Config → pyexn + gmap string (Task Model))
    (registry_get :
       string → pyexn + (option Model → option Model → option Model → option Model
                         → pyexn + Pipeline))
    (st : module_state Model Pipeline) (f : filesystem) :
  let run := initialize_models_full environ load_config initialize_tasks_and_models
               registry_get st in
  let outcome := outcome_of_initialization environ load_config initialize_tasks_and_models
                   registry_get in
  ((∃ ti p, run = (inr "Models initialized successfully", ModuleState (Some ti) (Some p))
            ∧ outcome = InitOk)
   ∨ (∃ e, run = (inl e, st) ∧ outcome = InitRaisesEarly e)
   ∨ (∃ e ti, run = (inl e, ModuleState (Some ti) (the_pdf_extract_task st))
              ∧ outcome = InitRaisesLate e))
  ∧ initialize_models outcome (World f (flags st))
    = (match run.1 with inl e => inl e | inr _ => inr tt end,
       World f (flags run.2), [EvInitialize]).
Proof.
  intros run outcome. subst run outcome.
  unfold initialize_models_full, outcome_of_initialization.
  destruct (load_config _) as [e|config].
  { split; [right; left; eauto|]. reflexivity. }
  destruct (initialize_tasks_and_models config) as [e|ti].
  { split; [right; left; eauto|]. reflexivity. }
  destruct (build_pipeline registry_get ti) as [e|p].
  - split; [right; right; eauto|]. reflexivity.
  - split; [left; eauto|]. reflexivity.
Qed.

(** X23: which models the pipeline is built from.  The constructor the
    registry gives for [pdf2markdown] is applied to the [model] attributes
    of the tasks [layout_detection], [formula_detection],
    [formula_recognition] and [ocr], in this order, with [None] for each
    task that is not in [task_instances]; other tasks are not looked at;
    and when one of the four is present but its [model] attribute cannot
    be read, the construction fails with the error of such a task, before
    the registry is asked. *)
Theorem pipeline_is_built_from_four_models {Model Pipeline : Type}
    (registry_get :
       string → pyexn + (option Model → option Model → option Model → option Model
                         → pyexn + Pipeline))
    (task_instances : gmap string (Task Model)) :
  let model name := task_model <$> task_instances !! name in
  (∀ constructor l d r o,
     registry_get "pdf2markdown" = inr constructor →
     model "layout_detection" = (inr <$> l) →
     model "formula_detection" = (inr <$> d) →
     model "formula_recognition" = (inr <$> r) →
     model "ocr" = (inr <$> o) →
     build_pipeline registry_get task_instances = constructor l d r o)
  ∧ (∀ name e,
       name ∈ ["layout_detection"; "formula_detection"; "formula_recognition"; "ocr"] →
       model name = Some (inl e) →
       ∃ e', build_pipeline registry_get task_instances = inl e'
             ∧ ∃ name', model name' = Some (inl e'))
  ∧ (∀ other t,
       other ∉ ["layout_detection"; "formula_detection"; "formula_recognition"; "ocr"] →
       build_pipeline registry_get (<[other := t]> task_instances)
       = build_pipeline registry_get task_instances).
Proof.
  intros model. subst model.
  assert (Hm : ∀ name x, task_model <$> task_instances !! name = (inr <$> x) →
                         model_or_None task_instances name = inr x).
  { intros name x H. unfold model_or_None.
    destruct (task_instances !! name) as [t|]; destruct x as [m|]; simpl in H;
      try discriminate; [|reflexivity].
    injection H as ->. reflexivity. }
  split; [|split].
  - intros constructor l d r o Hreg Hl Hd Hr Ho. unfold build_pipeline.
    now rewrite (Hm _ _ Hl), (Hm _ _ Hd), (Hm _ _ Hr), (Hm _ _ Ho), Hreg.
  - intros name e Hin Hbad. unfold build_pipeline.
    assert (Hcase : ∀ n, (∃ x, model_or_None task_instances n = inr x)
                         ∨ (∃ e', model_or_None task_instances n = inl e'
                                  ∧ task_model <$> task_instances !! n = Some (inl e'))).
    { intros n. unfold model_or_None. destruct (task_instances !! n) as [t|]; [|eauto].
      destruct (task_model t) as [e'|m] eqn:Ht; [right | eauto].
      exists e'. simpl. now rewrite Ht. }
    assert (Hname : model_or_None task_instances name = inl e).
    { unfold model_or_None. destruct (task_instances !! name) as [t|]; [|discriminate].
      simpl in Hbad. injection Hbad as ->. reflexivity. }
    destruct (Hcase "layout_detection") as [[x1 H1] | (e' & H1 & H1')];
      rewrite H1; [|exists e'; split; [reflexivity | eexists; exact H1']].
    destruct (Hcase "formula_detection") as [[x2 H2] | (e' & H2 & H2')];
      rewrite H2; [|exists e'; split; [reflexivity | eexists; exact H2']].
    destruct (Hcase "formula_recognition") as [[x3 H3] | (e' & H3 & H3')];
      rewrite H3; [|exists e'; split; [reflexivity | eexists; exact H3']].
    destruct (Hcase "ocr") as [[x4 H4] | (e' & H4 & H4')];
      rewrite H4; [|exists e'; split; [reflexivity | eexists; exact H4']].
    exfalso. repeat (apply elem_of_cons in Hin as [-> | Hin]; [congruence|]).
    now apply elem_of_nil in Hin.
  - intros other t Hother. unfold build_pipeline, model_or_None.
    assert (Hne : ∀ n, n ∈ ["layout_detection"; "formula_detection"; "formula_recognition";
                            "ocr"] → other ≠ n).
    { intros n Hn ->. contradiction. }
    rewrite !lookup_insert_ne; [reflexivity | ..]; apply Hne;
      repeat constructor.
Qed.

(** ** The further properties on the concrete deployment *)

Lemma scan_md_writes_in_save_dir :
  writes_in_save_dir Scenario.process_scan_md "/tmp/tmpk3v9".
Proof.
  intros f file_path visualize merge2markdown p Hp. simpl. split; [|reflexivity].
  apply lookup_insert_ne. intros <-. vm_compute in Hp. discriminate.
Defined.

Lemma workspace_name_is_fresh : absent (fs Scenario.warm) "/tmp/tmpk3v9".
Proof.
  intros p Hp. unfold path_exists, isfile, isdir. apply orb_false_iff.
  split; apply bool_decide_eq_false.
  - simpl. rewrite lookup_empty. intros [x Hx]. discriminate.
  - simpl. intros Hin. apply elem_of_singleton in Hin. subst p.
    vm_compute in Hp. discriminate.
Defined.

Lemma envelope_carries_pipeline_result_witness :
  let d := (handler Scenario.get_ok InitOk Scenario.process_md Scenario.decode_text
              Scenario.mkdtemp Scenario.format_exc
              (Request (Some (InputData (Some "JVBERg==") None None None)))
              Scenario.warm).1.1 in
  (∃ r f file_path save_dir,
     (Scenario.process_md f (Some file_path) save_dir false true).1 = inr r
     ∧ d !! "results" = Some (PResults r))
  ∧ d !! "error" = None
  ∧ d !! "markdown" = Some (PStr "#").
Proof.
  intros d.
  destruct (proj2 (envelope_carries_pipeline_result Scenario.get_ok InitOk Scenario.process_md
                     Scenario.decode_text Scenario.mkdtemp Scenario.format_exc Scenario.warm)
              (Request (Some (InputData (Some "JVBERg==") None None None))) eq_refl)
    as (H1 & H2 & _).
  split; [exact H1|]. split; [exact H2|]. reflexivity.
Defined.

Lemma no_visualization_key_without_visualize_witness :
  (handler Scenario.get_ok InitOk Scenario.process_render Scenario.decode_text
     Scenario.mkdtemp Scenario.format_exc
     (Request (Some (InputData (Some "JVBERg==") None None None))) Scenario.warm).1.1
  !! "visualization" = None.
Proof.
  apply (proj2 (no_visualization_key_without_visualize Scenario.get_ok InitOk
                  Scenario.process_render Scenario.decode_text Scenario.mkdtemp
                  Scenario.format_exc Scenario.warm)).
  reflexivity.
Defined.

Lemma markdown_artifact_witness :
  let f := MkFS {[ "/tmp/tmpk3v9/a.md" := [Byte.x23] ]}
             ({[ "/tmp/tmpk3v9" ]} ∪ {[ "/tmp" ]}) in
  let w := World f (Globals true true) in
  read_markdown Scenario.decode_text "/tmp/tmpk3v9" (Some "/tmp/tmpk3v9/a.pdf") true w
  = (inr (Some "#"), w, [])
  ∧ response_data "[]" (Some "#") None !! "markdown" = Some (PStr "#")
  ∧ read_markdown Scenario.decode_text "/tmp/tmpk3v9" (Some "/tmp/tmpk3v9/a.pdf") true
      Scenario.inside = (inr None, Scenario.inside, []).
Proof.
  intros f w.
  destruct (markdown_artifact Scenario.decode_text "/tmp/tmpk3v9" "/tmp/tmpk3v9/a.pdf"
              false "[]" w) as (Hfound & _ & _).
  destruct (markdown_artifact Scenario.decode_text "/tmp/tmpk3v9" "/tmp/tmpk3v9/a.pdf"
              false "[]" Scenario.inside) as (_ & _ & Hnone).
  destruct (Hfound [Byte.x23] "#" None eq_refl eq_refl) as [H1 H2].
  split; [exact H1|]. split; [exact H2|]. apply Hnone. reflexivity.
Defined.

Lemma png_visualization_is_preferred_witness :
  let f := MkFS (<["/tmp/tmpk3v9/a.png" := [Byte.x76; Byte.x69; Byte.x73]]>
                   {[ "/tmp/tmpk3v9/a.pdf" := [Byte.x25] ]})
             ({[ "/tmp/tmpk3v9" ]} ∪ {[ "/tmp" ]}) in
  let w := World f (Globals true true) in
  read_visualization "/tmp/tmpk3v9" (Some "/tmp/tmpk3v9/a.pdf") true w
  = (inr (Some "dmlz"), w, [])
  ∧ response_data "[]" None (Some "dmlz") !! "visualization" = Some (PStr "dmlz").
Proof.
  intros f w.
  destruct (png_visualization_is_preferred "/tmp/tmpk3v9" "/tmp/tmpk3v9/a.pdf" "[]" None w
              [Byte.x76; Byte.x69; Byte.x73] eq_refl) as [H1 H2].
  split; [exact H1|]. apply H2. discriminate.
Defined.

Lemma no_fallback_unless_pdf_witness :
  let f := MkFS {[ "/tmp/tmpk3v9/scan.pdf" := [Byte.x25] ]}
             ({[ "/tmp/tmpk3v9" ]} ∪ {[ "/tmp" ]}) in
  let w := World f (Globals true true) in
  read_visualization "/tmp/tmpk3v9" (Some "/tmp/tmpk3v9/scan.png") true w = (inr None, w, [])
  ∧ response_data "[]" None None !! "visualization" = None.
Proof.
  intros f w.
  apply (no_fallback_unless_pdf "/tmp/tmpk3v9" "/tmp/tmpk3v9/scan.png" "[]" None w);
    reflexivity.
Defined.

Lemma globals_across_a_request_witness :
  let w1 := (handler Scenario.get_ok (InitRaisesLate (PyErr "KeyError" "pdf2markdown"))
               Scenario.process_plain Scenario.decode_text Scenario.mkdtemp Scenario.format_exc
               (Request None) Scenario.cold).1.2 in
  let w2 := (process_pdf Scenario.get_ok InitOk Scenario.process_plain Scenario.decode_text
               Scenario.mkdtemp (Some (Upload "a.pdf" [Byte.x25])) None false true
               Scenario.warm).1.2 in
  globals_ok (glob w1) ∧ glob w2 = glob Scenario.warm.
Proof.
  intros w1 w2. split.
  - apply (proj2 (globals_across_a_request Scenario.get_ok
                    (InitRaisesLate (PyErr "KeyError" "pdf2markdown"))
                    Scenario.process_plain Scenario.decode_text Scenario.mkdtemp
                    Scenario.format_exc Scenario.cold) (Request None)).
    intros H. discriminate H.
  - apply (proj1 (globals_across_a_request Scenario.get_ok InitOk
                    Scenario.process_plain Scenario.decode_text Scenario.mkdtemp
                    Scenario.format_exc Scenario.warm)
             (Some (Upload "a.pdf" [Byte.x25])) None false true).
    split; reflexivity.
Defined.


Lemma nothing_changes_outside_the_workspace_witness :
  same_outside "/tmp/tmpk3v9" (fs Scenario.warm)
    (fs (handler Scenario.get_ok InitOk Scenario.process_scan_md Scenario.decode_text
           Scenario.mkdtemp Scenario.format_exc
           (Request (Some (InputData (Some "JVBERg==") None None None))) Scenario.warm).1.2)
  ∧ same_outside "/tmp/tmpk3v9" (fs Scenario.warm)
      (fs (process_pdf Scenario.get_ok InitOk Scenario.process_scan_md Scenario.decode_text
             Scenario.mkdtemp (Some (Upload "scan.jpeg" [Byte.x25])) None false true
             Scenario.warm).1.2).
Proof.
  destruct (nothing_changes_outside_the_workspace Scenario.get_ok InitOk
              Scenario.process_scan_md Scenario.decode_text Scenario.mkdtemp
              Scenario.format_exc Scenario.warm scan_md_writes_in_save_dir eq_refl)
    as [Hev Hhttp].
  split; [apply Hev|]. apply Hhttp. intros f [= <-]. reflexivity.
Defined.

Lemma request_leaves_no_residue_witness :
  fs (handler Scenario.get_ok InitOk Scenario.process_scan_md Scenario.decode_text
        Scenario.mkdtemp Scenario.format_exc
        (Request (Some (InputData None (Some "http://host/scan.jpeg") None None)))
        Scenario.warm).1.2 = fs Scenario.warm
  ∧ fs (process_pdf Scenario.get_ok InitOk Scenario.process_scan_md Scenario.decode_text
          Scenario.mkdtemp (Some (Upload "scan.jpeg" [Byte.x25])) None false true
          Scenario.warm).1.2 = fs Scenario.warm.
Proof.
  destruct (request_leaves_no_residue Scenario.get_ok InitOk
              Scenario.process_scan_md Scenario.decode_text Scenario.mkdtemp
              Scenario.format_exc Scenario.warm scan_md_writes_in_save_dir eq_refl
              workspace_name_is_fresh)
    as [Hev Hhttp].
  split; [apply Hev|]. apply Hhttp. intros f [= <-]. reflexivity.
Defined.

Lemma absolute_upload_name_escapes_witness :
  OsPath.join "/tmp/tmpk3v9" "/tmp/evil.pdf" = "/tmp/evil.pdf"
  ∧ files (fs (process_pdf Scenario.get_ok InitOk Scenario.process_scan_md
                 Scenario.decode_text Scenario.mkdtemp
                 (Some (Upload "/tmp/evil.pdf" [Byte.x25])) None false true
                 Scenario.warm).1.2) !! "/tmp/evil.pdf"
    = Some [Byte.x25].
Proof.
  apply (absolute_upload_name_escapes Scenario.get_ok InitOk Scenario.process_scan_md
           Scenario.decode_text Scenario.mkdtemp Scenario.warm
           (Upload "/tmp/evil.pdf" [Byte.x25]) None false true
           (MkFS (<["/tmp/evil.pdf" := [Byte.x25]]> ∅) ({[ "/tmp/tmpk3v9" ]} ∪ {[ "/tmp" ]})));
    [reflexivity | reflexivity | exact scan_md_writes_in_save_dir | reflexivity].
Defined.

Lemma pipeline_is_built_from_four_models_witness :
  build_pipeline Registry.registry_get Registry.only_ocr
  = Registry.constructor None None None (Some "PaddleOCR")
  ∧ (∃ e', build_pipeline Registry.registry_get Registry.broken_layout = inl e'
           ∧ ∃ name', task_model <$> Registry.broken_layout !! name' = Some (inl e'))
  ∧ build_pipeline Registry.registry_get
      (<["table_parsing" := MkTask (inr "StructTable")]> Registry.only_ocr)
    = build_pipeline Registry.registry_get Registry.only_ocr.
Proof.
  destruct (pipeline_is_built_from_four_models Registry.registry_get Registry.only_ocr)
    as (Hbuild & _ & Hother).
  destruct (pipeline_is_built_from_four_models Registry.registry_get Registry.broken_layout)
    as (_ & Hbad & _).
  split; [|split].
  - apply (Hbuild Registry.constructor None None None (Some "PaddleOCR")); reflexivity.
  - apply (Hbad "layout_detection"
             (PyErr "AttributeError" "object has no attribute 'model'"));
      [repeat constructor | reflexivity].
  - apply Hother. intros Hin.
    repeat (apply elem_of_cons in Hin as [Heq | Hin]; [discriminate Heq|]).
    now apply elem_of_nil in Hin.
Defined.
